(* ===== verification/_CoqProject ===== *)
-Q . S2P
Prelude.v
World.v
GoAst.v
TypeName.v
Signature.v
Template.v
TextTemplate.v
Eligibility.v
Driver.v
GoParser.v
GoPath.v
GoFlag.v
RegexSyntax.v
Regex.v
Config.v
GoImports.v
Main.v
