(* ===== verification/Prelude.v ===== *)
(** * A verification development of go-test-gen (testGen)

    go-test-gen is a single Go program, [src/main.go], that scans the
    files of one Go package, selects the functions whose name matches a
    regular expression and that have no test yet, and appends a table
    driven test skeleton for each of them to an output stream.
    [src/tests_test.go] is a file of skeletons the program produced.

    ** The parts of the program and how they interact

    - Configuration ([main] 137-194 with [helpMsg], the package
      variables and [init], 18-20 and 123-135): flag parsing, the
      default input, output file opening, package path resolution,
      regexp compilation and package parsing with [filesToIgnore]
      (318-323); every failure prints a message and exits with status 1.
    - Type namer ([typename], main.go 346-358): maps a type expression of
      [go/ast] to a display name, printing the dynamic type of any
      unsupported expression to standard output.
    - Signature extractor (main.go 228-280): flattens the parameter and
      result lists of a [*ast.FuncDecl] into [[]Param] and [[]Result],
      naming an unnamed result by its lower-cased type, and builds a
      [Func] or, with a receiver, a [Method].
    - Eligibility filter (main.go 199-226 and [packageContains],
      307-316): the chain of [continue]s that decides whether an object
      of a file scope gets a scaffold.
    - Scaffold renderer ([testFuncTemplate], [testMethodTemplate],
      main.go 44-121): two [text/template]s executed on the output file.
    - Driver ([main], main.go 196-288): iterates packages, files and
      scope objects, and aborts with exit status 1 on a render error.
    - Post processing ([findGoImports], 325-344, and [main] 290-305):
      the search for goimports and its run on the output file.

    The components share one piece of mutable state, the process's
    output streams: standard output, where [fmt.Println]/[fmt.Printf]
    diagnostics go, and the output destination, which IS standard output
    when [-o] is not given.  The development models this aliasing.  The
    rest of the operating system (arguments, working directory,
    environment, files, directories, [exec.LookPath], [runtime.GOOS],
    goimports) is a read-only record [Config.Env].

    ** Files, and which part of the code each one models

    - [Prelude] (this file): string helpers ([strings.ToLower],
      [strings.HasPrefix], [strings.HasSuffix] on ASCII), the
      state-and-exit monad [SE] with its notation in [se_scope], the
      hint databases [gen] and [gen_rw], and the shared lemmas on
      strings and prefixes.
    - [World]: the output streams as [Writer]s ([os.File.Write] on a
      device with a bounded amount of room), the [World] record holding
      standard output, the output file, which of them is the
      destination, and standard error, and the [IO] monad over it
      ([fmt.Println], [fmt.Fprint(os.Stderr, ...)], [os.Exit], a
      run-time panic).
    - [GoAst]: the fragment of [go/ast] the program reads ([Expr],
      [Field], [FieldList.NumFields], [FuncDecl], [Object], [File],
      [Package]); these model library types, not code of [src/].
    - [TypeName]: [typename] and its abstract specification [resolve]
      (the tagged variant of the spec's design notes), with the
      refinement theorem between them.
    - [Signature]: [Param], [Result], [Receiver], [Func], [Method] and the
      extraction of parameters, results and receiver.
    - [Template]: the two templates as the sequence of [Write] calls
      [text/template] performs on them, over the [TemplateData]
      interface (the fields [.Name], [.Params], [.Results] the template
      reads), implemented by [Func] and [Method].
    - [TextTemplate]: the [text/template] library for the constructs the
      two literals use (delimiters and trim markers, fields, variables,
      [range], [if], [end]): a lexer [scan]/[trim_raw], a parser
      [parse_segs] with a stack of open [range]/[if] frames, and the
      walk [exec] that yields the writes and the error, if any; the two
      literals of main.go 45-81 and 85-121, byte for byte, and the
      package variables [Must(Parse(...))].
    - [Eligibility]: [packageContains] and the eligibility conditions,
      over the [Matcher] interface of a compiled [regexp].
    - [Driver]: one iteration of the object loop and the whole loop, with
      the theorems on what the run writes and how it aborts.
    - [GoParser]: [filesToIgnore] (main.go 318-323) and a model of
      [parser.ParseDir] and of the resolver of [go/parser] (which
      declarations enter a file scope), producing the packages the
      driver iterates.
    - [GoPath], [GoFlag], [RegexSyntax], [Regex]: models of the Go
      library functions
      [main] calls, transcribed from the library sources: [path.IsAbs],
      [path.Clean], [path.Join], [os.Expand]; [FlagSet.Parse] for string
      flags with what the flag package writes to standard error
      ([failf], the [CommandLine] usage function, [PrintDefaults] with
      [sortFlags], [UnquoteUsage] and [strconv.Quote]);
      [regexp.Compile] ([RegexSyntax]: the stack-based parser of
      [regexp/syntax], with character classes, counted repetitions and
      the escapes) and [MatchString] ([Regex]), with an inductive
      semantics [matches].
    - [Config]: the configuration phase of [main] as one [IO]
      computation [setup] from the [Env] to the filter, the output name
      and the parsed packages.
    - [GoImports]: [findGoImports] as a step relation [fstep] and a
      fuelled function [find_fuel], and the goimports [hook].
    - [Main]: [main] as [setup], the loop of [Driver] and the hook.

    ** What the theorems show

    - TypeName: [typename] refines [resolve] (pointer indirection
      stripped, package qualifier dropped, unsupported forms give the
      empty name and exactly one diagnostic line).
    - Signature: parameters are flattened in group-then-name order,
      results number exactly [NumFields], unnamed results are named by
      their lower-cased type (so two unnamed results of one type
      collide), and unnamed parameters are dropped although they count
      in [NumFields].
    - Template: both templates write the same bytes for the same name,
      parameters and results, so the receiver of a method is ignored;
      the call line is the positional assignment of the spec.
    - TextTemplate: the literals of main.go parse ([Must] does not
      panic) and, executed on any data, make on any world the writes of
      the transcriptions of [Template]; the proof lowers the parse tree
      to the transcription's nodes and shows once, for every tree that
      lowers, that [exec] performs the transcription's writes
      ([lower_sound]).
    - Driver: without write errors the run appends exactly one rendered
      scaffold per eligible object, in traversal order; on a write error
      the run exits with status 1 after a prefix of the scaffold, and the
      destination holds a prefix of what an unbounded run writes; when
      the destination is standard output, the run appends, object by
      object, the line [typename] prints for each unsupported type of a
      declaration directly followed by its scaffold ([expected_stdout]),
      so the diagnostics land inside the generated source.  The file
      and the standard-output theorems are proved from per-step lemmas
      composed over the loop ([acts_as_write], [writes_out]).
    - GoParser: parsed packages satisfy the driver's precondition (no
      panic: the resolver gives every function object its
      [*ast.FuncDecl] and declares no method, proved by one induction
      over the resolver generic in the property of objects,
      [ParseDir_Forall]), and [_test.go] files are invisible, even when
      they do not parse, so a second run scaffolds the same functions
      again.
    - Config: the path read for a GOPATH-relative [-p] is the relative
      path itself (the expanded one is shadowed at line 176); with
      [$GOPATH] unset the GOPATH check never fires; the output file is
      opened before a bad regular expression aborts; the default input
      matches every name; [^w] selects exactly the names starting with
      [w]; flags after the regular expression are ignored; a flag error
      exits with status 1 before the output file is opened; [-h] prints
      [helpMsg] and then the flag defaults twice on standard error (once
      from the flag package, once from main.go 143); the flags
      printed as a command line parse back to the same configuration
      (the round trip is a lemma of [GoFlag] generic in the flag table).
      Every step of the configuration is a [cfg_step]: it exits only
      with status 1 and writes nothing to the output file.
    - GoImports: outside
      Windows it returns after one pass; on Windows it returns
      [goimports.exe...] after as many passes as [.exe]s when the lookup
      finds that name, and without goimports it never returns.
    - RegexSyntax and Regex: every step of the parser consumes input,
      so its loops terminate and their fuel does not matter
      ([loop_fuel]); the executable matcher decides the inductive
      semantics, counted repetitions and classes included
      ([MatchString_spec]).
    - Main: the loop appends exactly the expected scaffolds to the file
      the configuration opened; [main] ends with status 0 whatever
      goimports does, except on Windows without goimports where it
      never ends; any configuration or scan error ends [main] with
      status 1 before the loop, with the output file as it was or as
      [os.OpenFile] found it.

    ** Bounds and fuel

    The functions of the program part are structurally recursive (lists
    of declarations, fields, names and arguments; type expressions).
    Fuel appears in four places, each with a theorem about it:
    [GoPath.Expand_fuel] needs the length of its string, and more fuel
    changes nothing ([Expand_fuel_enough]); [Regex.star_ends] is given
    one more step than the length of the text, enough because every
    step of a star advances ([star_ends_complete]); the two loops of
    [RegexSyntax] get as many iterations as the text has bytes, enough
    because every iteration consumes one ([parse_step_lt],
    [class_step_lt], [loop_fuel]); [findGoImports]
    takes the number of passes of its [goto] loop, one pass is enough
    outside Windows, and on Windows without goimports no fuel is
    ([findGoImports_windows_diverges]).  The capacity of a [Writer] is a
    [nat] of bytes left on the device; [None] stands for an unbounded
    device.

    ** Not modelled

    Of [text/template], pipelines, functions, [else], [with], nested
    templates, literals, comments and custom delimiters are not
    modelled (the literals do not use them), nor [fmt]'s printing of
    structs and slices; an action that needs them is an error of the
    model.  The lexer and syntax of Go are not modelled: a source file is given
    by its package clause, its declarations and the error
    [parser.ParseFile] reports on it; which files of a directory do not
    parse is thus part of the [Env], while what [ParseDir] does with
    them (skip them, report the first error) is modelled.  The regular
    expression model covers the syntax listed in [RegexSyntax] on ASCII
    patterns and texts; flags and named groups [(?...)], [\b], [\B],
    [\Q...\E], Unicode classes and runes beyond ASCII are reported as
    unsupported, and the size limits of [regexp/syntax] (at most 1000
    repetitions checked by [repeatIsValid] aside) are not modelled.
    What goimports does to a file is an oracle of the [Env];
    [src/tests_test.go], a file of scaffolds the program produced, is
    test code and not modelled (its layout is [Template.scaffold]).  Unicode
    case mapping of [strings.ToLower] and the escapes of
    [strconv.Quote] are modelled on ASCII only (a non-ASCII byte is
    escaped as [\xHH], as Go does for invalid UTF-8; the defaults of
    this program are ASCII).  Writes on standard error are [Writer]
    writes whose errors are ignored, as the [fmt.Fprint] calls of
    package [flag] ignore them. *)

From Stdlib Require Import String Ascii.
From stdpp Require Import base list strings.

(** ** Hint databases of the development *)

Create HintDb gen.
Create Rewrite HintDb gen_rw.

(** ** Strings: characters the templates need *)

Definition NL : string := String (ascii_of_nat 10) EmptyString.
Definition TAB : string := String (ascii_of_nat 9) EmptyString.
Definition DQ : string := String (ascii_of_nat 34) EmptyString.

(** [sconcat] writes the pieces one after the other. *)
Fixpoint sconcat (l : list string) : string :=
  match l with
  | [] => EmptyString
  | s :: l' => s +:+ sconcat l'
  end.

(** [str_take n s] is Go's [s[:n]] for [n <= len(s)]; beyond it, all of [s]. *)
Fixpoint str_take (n : nat) (s : string) : string :=
  match n, s with
  | O, _ => EmptyString
  | S n', String c s' => String c (str_take n' s')
  | S _, EmptyString => EmptyString
  end.

(** [strings.ToLower] on one byte: the ASCII fast path of the Go library. *)
Definition ascii_to_lower (c : ascii) : ascii :=
  let n := nat_of_ascii c in
  if (65 <=? n) && (n <=? 90) then ascii_of_nat (n + 32) else c.

Fixpoint ToLower (s : string) : string :=
  match s with
  | EmptyString => EmptyString
  | String c s' => String (ascii_to_lower c) (ToLower s')
  end.

Fixpoint is_ascii (s : string) : bool :=
  match s with
  | EmptyString => true
  | String c s' => (nat_of_ascii c <? 128) && is_ascii s'
  end.

(** [strings.HasPrefix] and [strings.HasSuffix]. *)
Fixpoint HasPrefix (s p : string) : bool :=
  match p, s with
  | EmptyString, _ => true
  | String c p', String d s' => bool_decide (c = d) && HasPrefix s' p'
  | String _ _, EmptyString => false
  end.

Definition HasSuffix (s suf : string) : bool :=
  (String.length suf <=? String.length s) &&
  String.eqb (String.substring (String.length s - String.length suf)
                               (String.length suf) s) suf.

(** [sprefix p s]: the stream [s] starts with [p]. *)
Definition sprefix (p s : string) : Prop := exists r, s = p +:+ r.

(** ** The state-and-exit monad

    A computation of [SE S A] runs on a state [S] and either returns a
    value, or ends the process through [os.Exit] with a status, or
    through a run-time panic with its message; the state it leaves is
    returned in every case (output already written stays written). *)

Inductive Outcome (A : Type) : Type :=
| Done (a : A)
| Exited (code : nat)
| Panicked (msg : string).
Arguments Done {A} a.
Arguments Exited {A} code.
Arguments Panicked {A} msg.

Definition SE (S A : Type) : Type := S -> Outcome A * S.

Definition se_ret {S A} (a : A) : SE S A := fun s => (Done a, s).

Definition se_bind {S A B} (m : SE S A) (k : A -> SE S B) : SE S B :=
  fun s => match m s with
           | (Done a, s') => k a s'
           | (Exited c, s') => (Exited c, s')
           | (Panicked e, s') => (Panicked e, s')
           end.

Definition se_exit {S A} (code : nat) : SE S A := fun s => (Exited code, s).
Definition se_panic {S A} (msg : string) : SE S A := fun s => (Panicked msg, s).
Definition se_modify {S} (f : S -> S) : SE S unit := fun s => (Done tt, f s).

(** [se_iter f l] is Go's [for _, x := range l { f(x) }]. *)
Fixpoint se_iter {S A} (f : A -> SE S unit) (l : list A) : SE S unit :=
  match l with
  | [] => se_ret tt
  | x :: l' => se_bind (f x) (fun _ => se_iter f l')
  end.

Declare Scope se_scope.
Delimit Scope se_scope with se.
Notation "x <- m ;; k" := (se_bind m (fun x => k))
  (at level 200, m at level 99, k at level 200, right associativity) : se_scope.
Notation "m ;;; k" := (se_bind m (fun _ => k))
  (at level 200, k at level 200, right associativity) : se_scope.
Notation "'ret' a" := (se_ret a) (at level 10) : se_scope.

(** ** Lemmas on strings

    stdpp declares [String.append] [simpl never]; the development lets it
    reduce on a constructor again, and [scbn] unfolds the string
    functions of the development. *)

Arguments String.append : simpl nomatch.

Ltac scbn := cbn [String.append String.length str_take sconcat ToLower] in *.


Lemma sapp_nil_l (s : string) : EmptyString +:+ s = s.
Proof. reflexivity. Qed.

Lemma sapp_nil_r (s : string) : s +:+ EmptyString = s.
Proof. induction s as [|c s IH]; scbn; [done | by rewrite IH]. Qed.

Lemma sapp_assoc (a b c : string) : a +:+ (b +:+ c) = (a +:+ b) +:+ c.
Proof. induction a as [|x a IH]; scbn; [done | by rewrite IH]. Qed.

Lemma sapp_cons (c : ascii) (a b : string) : String c a +:+ b = String c (a +:+ b).
Proof. reflexivity. Qed.

Lemma length_sapp (a b : string) :
  String.length (a +:+ b) = String.length a + String.length b.
Proof. induction a as [|x a IH]; scbn; [done | by rewrite IH]. Qed.

Lemma sconcat_app (l1 l2 : list string) :
  sconcat (l1 ++ l2) = sconcat l1 +:+ sconcat l2.
Proof. induction l1 as [|s l1 IH]; simpl; [done | by rewrite IH, sapp_assoc]. Qed.

Lemma sconcat_cons (s : string) (l : list string) : sconcat (s :: l) = s +:+ sconcat l.
Proof. reflexivity. Qed.

Lemma sconcat_flat_map {A} (g : A -> list string) (l : list A) :
  sconcat (flat_map g l) = sconcat (map (fun a => sconcat (g a)) l).
Proof. induction l as [|a l IH]; simpl; [done | by rewrite sconcat_app, IH]. Qed.

Lemma sapp_inj_l (p a b : string) : p +:+ a = p +:+ b -> a = b.
Proof. induction p as [|c p IH]; scbn; [done | intros H; injection H; auto]. Qed.

#[export] Hint Rewrite sapp_nil_r sconcat_app sconcat_cons : gen_rw.
#[export] Hint Rewrite <- sapp_assoc : gen_rw.

(** ** Lemmas on [str_take] and prefixes *)

Lemma str_take_length_le (n : nat) (s : string) :
  String.length s <= n -> str_take n s = s.
Proof.
  revert s; induction n as [|n IH]; intros [|c s]; scbn; intros H;
    try done; try lia.
  rewrite IH; [done | lia].
Qed.

Lemma str_take_sapp (n : nat) (a b : string) :
  String.length a <= n -> str_take n (a +:+ b) = a +:+ str_take (n - String.length a) b.
Proof.
  revert n; induction a as [|c a IH]; intros n H; scbn.
  - by rewrite Nat.sub_0_r.
  - destruct n as [|n]; scbn; [lia|]. rewrite IH; [done | lia].
Qed.

Lemma str_take_sapp_short (n : nat) (a b : string) :
  n <= String.length a -> str_take n (a +:+ b) = str_take n a.
Proof.
  revert n; induction a as [|c a IH]; intros n H; scbn.
  - by replace n with 0 by lia.
  - destruct n as [|n]; [done|]. scbn. rewrite IH; [done | lia].
Qed.

Lemma str_take_prefix (n : nat) (s : string) : sprefix (str_take n s) s.
Proof.
  revert s; induction n as [|n IH]; intros [|c s]; scbn.
  - by exists EmptyString.
  - by exists (String c s).
  - by exists EmptyString.
  - destruct (IH s) as [r Hr]. exists r. by rewrite sapp_cons, <- Hr.
Qed.

Lemma sprefix_refl (s : string) : sprefix s s.
Proof. exists EmptyString. by rewrite sapp_nil_r. Qed.

Lemma sprefix_trans (a b c : string) : sprefix a b -> sprefix b c -> sprefix a c.
Proof. intros [r1 ->] [r2 ->]. exists (r1 +:+ r2). by rewrite sapp_assoc. Qed.

Lemma sprefix_app (p a b : string) : sprefix a b -> sprefix (p +:+ a) (p +:+ b).
Proof. intros [r ->]. exists r. by rewrite sapp_assoc. Qed.

Lemma sprefix_app_r (a b : string) : sprefix a (a +:+ b).
Proof. by exists b. Qed.

#[export] Hint Resolve sprefix_refl sprefix_app sprefix_app_r str_take_prefix : gen.

(** [strings.HasPrefix] decides [sprefix]. *)
Lemma HasPrefix_spec (s p : string) : HasPrefix s p = true <-> sprefix p s.
Proof.
  revert s; induction p as [|c p IH]; intros [|d s]; simpl.
  - split; [by exists EmptyString | done].
  - split; [by exists (String d s) | done].
  - split; [done|]. by intros [r ?].
  - rewrite andb_true_iff, bool_decide_eq_true, IH. split.
    + intros [-> [r ->]]. by exists r.
    + intros [r Hr]. injection Hr as -> ->. split; [done | by exists r].
Qed.

(** ** [ToLower] *)

Lemma ascii_to_lower_idem (c : ascii) : ascii_to_lower (ascii_to_lower c) = ascii_to_lower c.
Proof. destruct c as [[] [] [] [] [] [] [] []]; reflexivity. Qed.

Lemma ToLower_idem (s : string) : ToLower (ToLower s) = ToLower s.
Proof. induction s as [|c s IH]; scbn; [done | by rewrite ascii_to_lower_idem, IH]. Qed.

Lemma ToLower_length (s : string) : String.length (ToLower s) = String.length s.
Proof. induction s as [|c s IH]; scbn; [done | by rewrite IH]. Qed.

Lemma ToLower_sapp (a b : string) : ToLower (a +:+ b) = ToLower a +:+ ToLower b.
Proof. induction a as [|c a IH]; scbn; [done | by rewrite IH]. Qed.

(** ** Laws of the monad *)

Section SELaws.
Context {S : Type}.

Lemma se_bind_ret_l {A B} (a : A) (k : A -> SE S B) (s : S) :
  se_bind (se_ret a) k s = k a s.
Proof. reflexivity. Qed.

Lemma se_bind_ret_r {A} (m : SE S A) (s : S) : se_bind m se_ret s = m s.
Proof. unfold se_bind. by destruct (m s) as [[] ?]. Qed.

Lemma se_bind_assoc {A B C} (m : SE S A) (f : A -> SE S B) (g : B -> SE S C) (s : S) :
  se_bind (se_bind m f) g s = se_bind m (fun a => se_bind (f a) g) s.
Proof. unfold se_bind. by destruct (m s) as [[] ?]. Qed.

Lemma se_bind_done {A B} (m : SE S A) (k : A -> SE S B) (s s' : S) (a : A) :
  m s = (Done a, s') -> se_bind m k s = k a s'.
Proof. unfold se_bind. by intros ->. Qed.

Lemma se_iter_app {A} (f : A -> SE S unit) (l1 l2 : list A) (s : S) :
  se_iter f (l1 ++ l2) s = se_bind (se_iter f l1) (fun _ => se_iter f l2) s.
Proof.
  revert s; induction l1 as [|x l1 IH]; intros s; simpl; [done|].
  unfold se_bind in *.
  destruct (f x s) as [[] s']; [apply IH | done | done].
Qed.
End SELaws.

#[export] Hint Rewrite @se_bind_ret_l @se_bind_assoc : gen_rw.
