(* ===== verification/World.v ===== *)
(** * World: the output streams of the process

    The program's only mutable state that outlives one declaration is
    what it has written: standard output ([fmt.Println], [fmt.Printf])
    and the output destination [outputFile] (main.go 156-166), which is
    [os.Stdout] itself unless [-o] names a file.  A [Writer] models an
    [*os.File] as the bytes written so far and the room left on its
    device; [Write] is [os.File.Write], which on a full device writes
    what fits and returns an error.  Standard error is a fourth
    component, written by package [flag] ([eprint]).  [IO] is the
    state-and-exit monad of the prelude over the [World]. *)

From Stdlib Require Import String Ascii.
From stdpp Require Import base list strings.
From S2P Require Import Prelude.

Record Writer := mkWriter {
  contents : string;      (** bytes written so far *)
  room : option nat;      (** bytes left on the device; [None]: unbounded *)
  werr : string           (** the error text a failing write returns *)
}.

(** [os.File.Write]: all of [s], or the bytes that fit and an error. *)
Definition Write (s : string) (w : Writer) : Writer * option string :=
  match room w with
  | None => (mkWriter (contents w +:+ s) None (werr w), None)
  | Some n =>
      if String.length s <=? n
      then (mkWriter (contents w +:+ s) (Some (n - String.length s)) (werr w), None)
      else (mkWriter (contents w +:+ str_take n s) (Some 0) (werr w), Some (werr w))
  end.

(** Whether a write of [s] succeeds on [w]. *)
Definition fits (s : string) (w : Writer) : bool :=
  match room w with
  | None => true
  | Some n => String.length s <=? n
  end.

(** Where [outputFile] points: [os.Stdout] or the file opened by [-o]. *)
Inductive Dest := DestStdout | DestFile.

#[export] Instance Dest_eq_dec : EqDecision Dest.
Proof. solve_decision. Defined.

Record World := mkWorld {
  stdout : Writer;
  outfile : Writer;
  dest : Dest;
  stderr : Writer       (** [os.Stderr], where package [flag] writes *)
}.

Definition IO (A : Type) : Type := SE World A.

Definition dest_writer (w : World) : Writer :=
  match dest w with DestStdout => stdout w | DestFile => outfile w end.

Definition set_stdout (o : Writer) (w : World) : World := mkWorld o (outfile w) (dest w) (stderr w).

Definition set_stderr (o : Writer) (w : World) : World := mkWorld (stdout w) (outfile w) (dest w) o.

Definition set_dest_writer (o : Writer) (w : World) : World :=
  match dest w with
  | DestStdout => mkWorld o (outfile w) (dest w) (stderr w)
  | DestFile => mkWorld (stdout w) o (dest w) (stderr w)
  end.

(** [fmt.Print(s)] on standard output; its error is ignored by every
    caller in main.go. *)
Definition print (s : string) : IO unit :=
  fun w => (Done tt, set_stdout (fst (Write s (stdout w))) w).

(** [fmt.Println(a, b)]: operands separated by a space, then a newline. *)
Definition println (l : list string) : IO unit :=
  print (String.concat " " l +:+ NL).

(** [fmt.Fprint(os.Stderr, s)]; its error is ignored. *)
Definition eprint (s : string) : IO unit :=
  fun w => (Done tt, set_stderr (fst (Write s (stderr w))) w).

(** One [Write] on [outputFile], returning its error. *)
Definition write_dest (s : string) : IO (option string) :=
  fun w => let (o, e) := Write s (dest_writer w) in (Done e, set_dest_writer o w).

(** [os.Exit(code)]. *)
Definition exit {A} (code : nat) : IO A := se_exit code.

(** ** Effects on the streams *)

(** A function on worlds that does not touch the output file. *)
Definition stdout_only (f : World -> World) : Prop :=
  forall w, outfile (f w) = outfile w /\ dest (f w) = dest w.

(** [m] ends normally and appends [s] to an unbounded standard error,
    touching nothing else. *)
Definition writes_err (m : IO unit) (s : string) : Prop :=
  forall w, room (stderr w) = None ->
  m w = (Done tt, set_stderr (mkWriter (contents (stderr w) +:+ s) None (werr (stderr w))) w).

(** [m] ends normally and only writes to standard error. *)
Definition err_only (m : IO unit) : Prop :=
  forall w, exists o, m w = (Done tt, set_stderr o w).

(** The world after [s] is appended to an unbounded standard output. *)
Definition out_app (s : string) (w : World) : World :=
  set_stdout (mkWriter (contents (stdout w) +:+ s) None (werr (stdout w))) w.

(** [f] appends [s] to an unbounded standard output, touching nothing
    else. *)
Definition appends_out (f : World -> World) (s : string) : Prop :=
  forall w, room (stdout w) = None -> f w = out_app s w.

(** [m] ends normally and appends [s] to standard output, when that
    stream is the destination and unbounded. *)
Definition writes_out (m : IO unit) (s : string) : Prop :=
  forall w, dest w = DestStdout -> room (stdout w) = None -> m w = (Done tt, out_app s w).

Lemma Write_extends (s : string) (o : Writer) : sprefix (contents o) (contents (fst (Write s o))).
Proof.
  unfold Write. destruct (room o) as [n|]; [destruct (_ <=? n)|]; simpl; auto with gen.
Qed.

#[export] Hint Resolve Write_extends : gen.

(** ** Behaviour of [Write] *)

Lemma Write_ok (s : string) (o : Writer) :
  fits s o = true -> contents (fst (Write s o)) = contents o +:+ s /\ snd (Write s o) = None.
Proof.
  unfold fits, Write. destruct (room o) as [n|]; [|done].
  by intros ->.
Qed.

Lemma Write_err (s : string) (o : Writer) :
  fits s o = false ->
  snd (Write s o) = Some (werr o) /\
  sprefix (contents (fst (Write s o))) (contents o +:+ s) /\
  room (fst (Write s o)) = Some 0.
Proof.
  unfold fits, Write. destruct (room o) as [n|]; [|done].
  intros ->. simpl. split; [done|]. split; [|done].
  apply sprefix_app, str_take_prefix.
Qed.

Lemma Write_empty (o : Writer) : Write EmptyString o = (o, None).
Proof.
  destruct o as [c [n|] e]; unfold Write; simpl; rewrite sapp_nil_r;
    try rewrite Nat.sub_0_r; done.
Qed.

(** Two writes that succeed one after the other are one write. *)
Lemma Write_app_ok (s t : string) (o : Writer) :
  fits s o = true -> Write (s +:+ t) o = Write t (fst (Write s o)).
Proof.
  destruct o as [c [n|] e]; unfold fits, Write; simpl; intros H;
    [|by rewrite sapp_assoc].
  rewrite H; simpl. apply Nat.leb_le in H. rewrite length_sapp.
  destruct (Nat.leb_spec (String.length t) (n - String.length s));
    destruct (Nat.leb_spec (String.length s + String.length t) n); try lia.
  - do 2 f_equal; [by rewrite sapp_assoc | f_equal; lia].
  - do 2 f_equal. rewrite str_take_sapp by lia. by rewrite sapp_assoc.
Qed.

(** A write that fails is not continued by a later one. *)
Lemma Write_app_err (s t : string) (o : Writer) :
  fits s o = false -> Write (s +:+ t) o = Write s o.
Proof.
  destruct o as [c [n|] e]; unfold fits, Write; simpl; intros H; [|done].
  apply Nat.leb_gt in H. rewrite length_sapp.
  destruct (Nat.leb_spec (String.length s + String.length t) n); [lia|].
  destruct (Nat.leb_spec (String.length s) n); [lia|].
  by rewrite str_take_sapp_short by lia.
Qed.

Lemma dest_writer_set (o : Writer) (w : World) : dest_writer (set_dest_writer o w) = o.
Proof. by destruct w as [so fo [] se]. Qed.

Lemma set_dest_writer_set (o o' : Writer) (w : World) :
  set_dest_writer o' (set_dest_writer o w) = set_dest_writer o' w.
Proof. by destruct w as [so fo [] se]. Qed.

Lemma set_dest_writer_id (w : World) : set_dest_writer (dest_writer w) w = w.
Proof. by destruct w as [so fo [] se]. Qed.

#[export] Hint Rewrite Write_empty dest_writer_set set_dest_writer_set set_dest_writer_id : gen_rw.

Lemma fits_empty (o : Writer) : fits EmptyString o = true.
Proof. unfold fits. by destruct (room o). Qed.

Lemma Write_result (s : string) (o : Writer) :
  snd (Write s o) = if fits s o then None else Some (werr o).
Proof. unfold fits, Write. destruct (room o) as [n|]; [|done]. by destruct (_ <=? n). Qed.

Lemma fits_app_ok (s t : string) (o : Writer) :
  fits s o = true -> fits t (fst (Write s o)) = fits (s +:+ t) o.
Proof.
  destruct o as [c [n|] e]; unfold fits, Write; simpl; intros H; [|done].
  rewrite H. simpl. apply Nat.leb_le in H. rewrite length_sapp.
  destruct (Nat.leb_spec (String.length t) (n - String.length s));
    destruct (Nat.leb_spec (String.length s + String.length t) n); done || lia.
Qed.

Lemma fits_app_err (s t : string) (o : Writer) :
  fits s o = false -> fits (s +:+ t) o = false.
Proof.
  destruct o as [c [n|] e]; unfold fits; simpl; intros H; [|done].
  apply Nat.leb_gt in H. rewrite length_sapp. apply Nat.leb_gt. lia.
Qed.

Lemma stdout_only_iter (n : nat) (f : World -> World) :
  stdout_only f -> stdout_only (Nat.iter n f).
Proof.
  intros Hf w. induction n as [|n [IH1 IH2]]; simpl; [done|].
  destruct (Hf (Nat.iter n f w)). split; congruence.
Qed.

Lemma stdout_only_foldl {A} (g : World -> A -> World) (l : list A) :
  (forall a, stdout_only (fun w => g w a)) -> stdout_only (fun w => foldl g w l).
Proof.
  intros Hg w. revert w; induction l as [|a l IH]; intros w; simpl; [done|].
  destruct (IH (g w a)), (Hg a w). split; congruence.
Qed.

Lemma stdout_only_set_stdout (o : Writer) : stdout_only (set_stdout o).
Proof. by intros w. Qed.

#[export] Hint Resolve stdout_only_iter stdout_only_foldl stdout_only_set_stdout : gen.

(** ** Writes on standard error *)

Lemma writes_err_eprint (s : string) : writes_err (eprint s) s.
Proof. intros [so fo d [c n e]] Hn. simpl in Hn. subst n. done. Qed.

Lemma writes_err_bind (m k : IO unit) (s t : string) :
  writes_err m s -> writes_err k t -> writes_err (se_bind m (fun _ => k)) (s +:+ t).
Proof.
  intros Hm Hk w Hn. unfold se_bind. rewrite (Hm w Hn), Hk by done.
  destruct w as [so fo d [c n e]]. simpl. by rewrite sapp_assoc.
Qed.

Lemma writes_err_iter {A} (f : A -> IO unit) (g : A -> string) (l : list A) :
  (forall a, writes_err (f a) (g a)) -> writes_err (se_iter f l) (sconcat (map g l)).
Proof.
  intros Hf. induction l as [|a l IH]; simpl.
  - intros [so fo d [c n e]] Hn. simpl in *. subst n. by rewrite sapp_nil_r.
  - by apply writes_err_bind.
Qed.

#[export] Hint Resolve writes_err_eprint writes_err_bind writes_err_iter : gen.

Lemma err_only_eprint (s : string) : err_only (eprint s).
Proof. intros w. by eexists. Qed.

Lemma err_only_bind (m k : IO unit) : err_only m -> err_only k -> err_only (se_bind m (fun _ => k)).
Proof.
  intros Hm Hk w. destruct (Hm w) as [o Ho]. unfold se_bind. rewrite Ho.
  destruct (Hk (set_stderr o w)) as [o' Ho']. rewrite Ho'. by exists o'.
Qed.

Lemma err_only_iter {A} (f : A -> IO unit) (l : list A) :
  (forall a, err_only (f a)) -> err_only (se_iter f l).
Proof.
  intros Hf. induction l as [|a l IH]; simpl; [|by apply err_only_bind].
  intros w. exists (stderr w). by destruct w.
Qed.

#[export] Hint Resolve err_only_eprint err_only_bind err_only_iter : gen.

(** ** Writes on standard output *)

Lemma out_app_app (s t : string) (w : World) : out_app t (out_app s w) = out_app (s +:+ t) w.
Proof. destruct w as [[c n e] fo d se]. unfold out_app. simpl. by rewrite sapp_assoc. Qed.

Lemma out_app_nil (w : World) : room (stdout w) = None -> out_app EmptyString w = w.
Proof. destruct w as [[c n e] fo d se]. simpl. intros ->. unfold out_app. simpl. by rewrite sapp_nil_r. Qed.

Lemma appends_out_comp (f g : World -> World) (s t : string) :
  appends_out f s -> appends_out g t -> appends_out (fun w => g (f w)) (s +:+ t).
Proof. intros Hf Hg w Hn. rewrite Hf, Hg by done. apply out_app_app. Qed.

Lemma appends_out_iter (n : nat) (f : World -> World) (s : string) :
  appends_out f s -> appends_out (Nat.iter n f) (sconcat (repeat s n)).
Proof.
  intros Hf w Hn. revert w Hn. induction n as [|n IH]; intros w Hn; [by rewrite out_app_nil|].
  rewrite Nat.iter_succ_r, Hf, IH by done. apply out_app_app.
Qed.

Lemma appends_out_foldl {A} (g : World -> A -> World) (h : A -> string) (l : list A) :
  (forall a, appends_out (fun w => g w a) (h a)) ->
  appends_out (fun w => foldl g w l) (sconcat (map h l)).
Proof.
  intros Hg w Hn. revert w Hn. induction l as [|a l IH]; intros w Hn; simpl; [by rewrite out_app_nil|].
  rewrite (Hg a w Hn), IH by done. by rewrite out_app_app.
Qed.

Lemma writes_out_ret : writes_out (se_ret tt) EmptyString.
Proof. intros w _ Hn. by rewrite out_app_nil. Qed.

Lemma writes_out_print (s : string) : writes_out (print s) s.
Proof. intros [[c n e] fo d se] _ Hn. simpl in Hn. subst n. done. Qed.

Lemma write_dest_out (s : string) (w : World) :
  dest w = DestStdout -> room (stdout w) = None -> write_dest s w = (Done None, out_app s w).
Proof. destruct w as [[c n e] fo d se]. simpl. intros -> ->. done. Qed.

(** A step that yields [a] after printing [s], then [k a]. *)
Lemma writes_out_bind_val {A} (m : IO A) (a : A) (f : World -> World) (k : A -> IO unit)
    (s t : string) :
  (forall w, m w = (Done a, f w)) -> appends_out f s -> writes_out (k a) t ->
  writes_out (se_bind m k) (s +:+ t).
Proof.
  intros Hm Hf Hk w Hd Hn. unfold se_bind. rewrite Hm, Hf, Hk by done. by rewrite out_app_app.
Qed.

Lemma writes_out_bind (m k : IO unit) (s t : string) :
  writes_out m s -> writes_out k t -> writes_out (se_bind m (fun _ => k)) (s +:+ t).
Proof.
  intros Hm Hk w Hd Hn. unfold se_bind. rewrite (Hm w Hd Hn), Hk by done. by rewrite out_app_app.
Qed.

Lemma writes_out_iter {A} (f : A -> IO unit) (g : A -> string) (l : list A) :
  Forall (fun a => writes_out (f a) (g a)) l -> writes_out (se_iter f l) (sconcat (map g l)).
Proof.
  induction 1 as [|a l Ha _ IH]; simpl; [apply writes_out_ret|]. by apply writes_out_bind.
Qed.
