(* ===== verification/GoAst.v ===== *)
(** * GoAst: the fragment of [go/ast] that main.go reads

    These are models of the Go library's syntax tree, not of code of
    [src/]: the type expressions [typename] distinguishes, the [Field]s
    of parameter, result and receiver lists with [FieldList.NumFields],
    a [FuncDecl] ([fn.Recv], [fn.Name], [fn.Type.Params],
    [fn.Type.Results]; the [*ast.FuncType] is flattened into the
    declaration), and the [Object]s of a file scope that the driver
    iterates.  Go maps ([pkg.Files], [file.Scope.Objects], the package
    map of [ParseDir]) are lists in the order one run iterates them. *)

From Stdlib Require Import String Ascii.
From stdpp Require Import base list strings.
From S2P Require Import Prelude.

Module Ast.

Inductive ChanDir := SEND | RECV | BOTH.

(** The [ast.Expr] forms a parameter type can take.  Only [Ident],
    [SelectorExpr] and [StarExpr] are looked into by [typename]; the
    others keep the sub-terms that make them distinct types. *)
Inductive Expr :=
| Ident (Name : string)
| SelectorExpr (X : Expr) (Sel : string)
| StarExpr (X : Expr)
| ParenExpr (X : Expr)
| ArrayType (Len : option Expr) (Elt : Expr)
| MapType (Key Value : Expr)
| ChanType (Dir : ChanDir) (Value : Expr)
| Ellipsis (Elt : Expr)
| IndexExpr (X Index : Expr)
| FuncType
| InterfaceType
| StructType.

(** What [fmt.Printf("%T", e)] prints for the dynamic type of [e]. *)
Definition TypeOf (e : Expr) : string :=
  match e with
  | Ident _ => "*ast.Ident"
  | SelectorExpr _ _ => "*ast.SelectorExpr"
  | StarExpr _ => "*ast.StarExpr"
  | ParenExpr _ => "*ast.ParenExpr"
  | ArrayType _ _ => "*ast.ArrayType"
  | MapType _ _ => "*ast.MapType"
  | ChanType _ _ => "*ast.ChanType"
  | Ellipsis _ => "*ast.Ellipsis"
  | IndexExpr _ _ => "*ast.IndexExpr"
  | FuncType => "*ast.FuncType"
  | InterfaceType => "*ast.InterfaceType"
  | StructType => "*ast.StructType"
  end%string.

(** [ast.Field]: the names of one group ([nil] when unnamed) and the
    type they share ([Type] is a keyword of Rocq: [Type_]). *)
Record Field := mkField { Names : list string; Type_ : Expr }.

(** The [List] of an [*ast.FieldList]; a nil [*FieldList] is [None]. *)
Definition FieldList := list Field.

(** [FieldList.NumFields]: an unnamed group counts as one field. *)
Definition field_count (g : Field) : nat :=
  match Names g with [] => 1 | ns => length ns end.

Definition NumFields (f : option FieldList) : nat :=
  match f with
  | None => 0
  | Some l => list_sum (map field_count l)
  end.

(** [*ast.FuncDecl], with [fn.Type.Params] and [fn.Type.Results]
    written [Params] and [Results].  The parser never leaves
    [Params] nil, so it is a plain list. *)
Record FuncDecl := mkFuncDecl {
  Recv : option FieldList;
  Name : string;
  Params : FieldList;
  Results : option FieldList
}.

(** [ast.ObjKind]. *)
Inductive ObjKind := Bad | Pkg | Con | Typ | Var | Fun | Lbl.

#[global] Instance ObjKind_eq_dec : EqDecision ObjKind.
Proof. solve_decision. Defined.

(** [obj.Decl] is an [interface{}]: a [*ast.FuncDecl] for the objects
    the parser declares as functions, another node otherwise. *)
Inductive DeclNode := FuncDeclNode (fn : FuncDecl) | OtherDecl.

(** [*ast.Object] with [obj.Pos().IsValid()] as a boolean. *)
Record Object := mkObject {
  Kind : ObjKind;
  ObjName : string;
  Decl : DeclNode;
  PosValid : bool
}.

(** [*ast.File] (its name and [file.Scope.Objects]) and [*ast.Package]. *)
Record File := mkFile { FileName : string; Objects : list Object }.
Record Package := mkPackage { PkgName : string; Files : list File }.

(** ** Lemmas *)

Lemma field_count_pos (g : Field) : 1 <= field_count g.
Proof. unfold field_count. destruct (Names g); simpl; lia. Qed.

Lemma NumFields_cons (g : Field) (l : FieldList) :
  NumFields (Some (g :: l)) = field_count g + NumFields (Some l).
Proof. reflexivity. Qed.

Lemma NumFields_zero (l : FieldList) : NumFields (Some l) = 0 <-> l = [].
Proof.
  destruct l as [|g l]; [done|]. rewrite NumFields_cons.
  pose proof (field_count_pos g). split; [lia | done].
Qed.

End Ast.
