(* ===== verification/TypeName.v ===== *)
(** * TypeName: [typename] (main.go 346-358)

    [typename] resolves a type expression to its display name: an
    identifier to itself, a package-qualified selector to its last
    component, a pointer to the name of what it points to.  Any other
    form prints its dynamic type ([fmt.Printf("%T\n", t)]) to standard
    output and yields the empty string.

    [resolve] is the abstract specification the spec's design notes ask
    for: a tagged variant with an explicit [Unsupported] case.
    [typename_refines] states that [typename] computes [resolve] and
    prints exactly one diagnostic line on [Unsupported]. *)

From Stdlib Require Import String Ascii.
From stdpp Require Import base list strings.
From S2P Require Import Prelude World GoAst.

Local Open Scope se_scope.

Module TypeNamer.

(** [func typename(expr ast.Expr) string]. *)
Fixpoint typename (expr : Ast.Expr) : IO string :=
  match expr with
  | Ast.Ident name => ret name
  | Ast.SelectorExpr _ sel => ret sel
  | Ast.StarExpr x => typename x
  | t => print (Ast.TypeOf t +:+ NL) ;;; ret EmptyString
  end.

(** ** The abstract specification *)

Inductive Display :=
| Named (name : string)
| Unsupported (kind : string).

Fixpoint resolve (expr : Ast.Expr) : Display :=
  match expr with
  | Ast.Ident name => Named name
  | Ast.SelectorExpr _ sel => Named sel
  | Ast.StarExpr x => resolve x
  | t => Unsupported (Ast.TypeOf t)
  end.

Definition display (d : Display) : string :=
  match d with Named n => n | Unsupported _ => EmptyString end.

(** The effect on the world that goes with a display. *)
Definition diag (d : Display) (w : World) : World :=
  match d with
  | Named _ => w
  | Unsupported k => set_stdout (fst (Write (k +:+ NL) (stdout w))) w
  end.

(** The display name alone. *)
Definition tname (e : Ast.Expr) : string := display (resolve e).

(** ** The refinement theorem *)

(** C4: [typename] refines [resolve]: for every type expression it
    returns the display name of the specification, leaves the world
    unchanged on an identifier, a qualified name or a pointer to one,
    and on any other form returns the empty string after printing that
    form's dynamic type and a newline on standard output. *)
Theorem typename_refines (e : Ast.Expr) (w : World) :
  typename e w =
    match resolve e with
    | Named n => (Done n, w)
    | Unsupported k =>
        (Done EmptyString, set_stdout (fst (Write (k +:+ NL) (stdout w))) w)
    end.
Proof. revert w; induction e; intros w; simpl; auto. Qed.

(** ** Lemmas *)

Lemma typename_run (e : Ast.Expr) (w : World) :
  typename e w = (Done (tname e), diag (resolve e) w).
Proof. unfold tname. induction e; simpl; auto. Qed.

Lemma diag_dest (d : Display) (w : World) : dest (diag d w) = dest w.
Proof. by destruct d. Qed.

Lemma diag_outfile (d : Display) (w : World) : outfile (diag d w) = outfile w.
Proof. by destruct d. Qed.

(** A supported form prints nothing. *)
Lemma diag_named (n : string) (w : World) : diag (Named n) w = w.
Proof. reflexivity. Qed.

Lemma diag_stdout_only (d : Display) : stdout_only (diag d).
Proof. intros w. by destruct d. Qed.

#[export] Hint Rewrite typename_run diag_dest diag_outfile diag_named : gen_rw.
#[export] Hint Resolve diag_stdout_only : gen.

(** The spec's examples: [*Foo] and [Foo] both display as [Foo], the
    qualified [io.Reader] as [Reader], a slice as the empty name. *)
Example typename_star_foo (w : World) :
  typename (Ast.StarExpr (Ast.Ident "Foo")) w = (Done "Foo"%string, w).
Proof. reflexivity. Qed.

Example typename_io_reader (w : World) :
  typename (Ast.SelectorExpr (Ast.Ident "io") "Reader") w = (Done "Reader"%string, w).
Proof. reflexivity. Qed.

End TypeNamer.
