(* ===== verification/Signature.v ===== *)
(** * Signature: the data model and the signature extractor

    [Param], [Result], [Receiver], [Func] and [Method] are the structs of
    main.go 22-42.  [extract_params] and [extract_results] are the two
    loops of main.go 233-259, which call [typename] once per parameter
    NAME and once per result GROUP, in that order; [extract_receiver]
    is [fn.Recv.List[0].Names[0].Name] and its type (269-274), which
    panics when the receiver list or its names are empty.

    The theorems: flattening in group-then-name order; one result per
    [NumFields]; unnamed results named by their lower-cased type, with
    the collision of two unnamed results of one type; and unnamed
    parameters silently dropped although they count in [NumFields]. *)

From Stdlib Require Import String Ascii.
From stdpp Require Import base list strings.
From S2P Require Import Prelude World GoAst TypeName.

Local Open Scope se_scope.
Import TypeNamer.

(** [type Param struct { Name string; Type string }]. *)
Record Param := mkParam { Name : string; Type_ : string }.

(** [type Result Param] and [type Receiver Param]. *)
Definition Result := Param.
Definition Receiver := Param.

(** [type Func struct { Name; Params; Results }]. *)
Record Func := mkFunc { FuncName : string; Params : list Param; Results : list Result }.

(** [type Method struct { Name; Rcvr; Params; Results }]. *)
Record Method := mkMethod {
  MethodName : string;
  Rcvr : Receiver;
  MethodParams : list Param;
  MethodResults : list Result
}.

#[export] Instance Param_eq_dec : EqDecision Param.
Proof. solve_decision. Defined.

Module Extract.

(** [for _, name := range p.Names { ps = append(ps, Param{name, typename(p.Type)}) }] *)
Fixpoint params_of_names (names : list string) (t : Ast.Expr) : IO (list Param) :=
  match names with
  | [] => ret []
  | name :: names' =>
      tn <- typename t ;;
      rest <- params_of_names names' t ;;
      ret (mkParam name tn :: rest)
  end.

(** [for _, p := range fn.Type.Params.List { ... }] *)
Fixpoint extract_params (fl : Ast.FieldList) : IO (list Param) :=
  match fl with
  | [] => ret []
  | p :: fl' =>
      ps <- params_of_names (Ast.Names p) (Ast.Type_ p) ;;
      rest <- extract_params fl' ;;
      ret (ps ++ rest)
  end.

(** The results of one group [r]: [strings.ToLower(typeName)] when
    [r.Names == nil], one [Result] per name otherwise. *)
Definition results_of_group (names : list string) (typeName : string) : list Result :=
  match names with
  | [] => [mkParam (ToLower typeName) typeName]
  | _ => map (fun name => mkParam name typeName) names
  end.

(** [for _, r := range fn.Type.Results.List { typeName := typename(r.Type); ... }] *)
Fixpoint extract_results (fl : Ast.FieldList) : IO (list Result) :=
  match fl with
  | [] => ret []
  | r :: fl' =>
      typeName <- typename (Ast.Type_ r) ;;
      rest <- extract_results fl' ;;
      ret (results_of_group (Ast.Names r) typeName ++ rest)
  end.

(** [Receiver{Name: fn.Recv.List[0].Names[0].Name, Type: typename(fn.Recv.List[0].Type)}];
    an empty list or an unnamed receiver is an index-out-of-range panic. *)
Definition index_panic : string := "runtime error: index out of range [0] with length 0".

Definition extract_receiver (recv : Ast.FieldList) : IO Receiver :=
  match recv with
  | [] => se_panic index_panic
  | f :: _ =>
      match Ast.Names f with
      | [] => se_panic index_panic
      | name :: _ => tn <- typename (Ast.Type_ f) ;; ret (mkParam name tn)
      end
  end.

(** ** The values the loops compute, without their effects *)

Definition params_spec (fl : Ast.FieldList) : list Param :=
  flat_map (fun p => map (fun n => mkParam n (tname (Ast.Type_ p))) (Ast.Names p)) fl.

Definition results_spec (fl : Ast.FieldList) : list Result :=
  flat_map (fun r => results_of_group (Ast.Names r) (tname (Ast.Type_ r))) fl.

(** The diagnostics the loops print, as one function on the world. *)
Definition diag_params (fl : Ast.FieldList) (w : World) : World :=
  foldl (fun w p => Nat.iter (length (Ast.Names p)) (diag (resolve (Ast.Type_ p))) w) w fl.

Definition diag_results (fl : Ast.FieldList) (w : World) : World :=
  foldl (fun w r => diag (resolve (Ast.Type_ r)) w) w fl.

(** The same diagnostics as text: the line [typename] prints for an
    unsupported type, once per parameter name and once per result group. *)
Definition diag_text (d : Display) : string :=
  match d with Named _ => EmptyString | Unsupported k => k +:+ NL end.

Definition params_diag (fl : Ast.FieldList) : string :=
  sconcat (map (fun p => sconcat (repeat (diag_text (resolve (Ast.Type_ p))) (length (Ast.Names p)))) fl).

Definition results_diag (fl : Ast.FieldList) : string :=
  sconcat (map (fun r => diag_text (resolve (Ast.Type_ r))) fl).

(** ** Lemmas *)

Lemma params_of_names_run (names : list string) (t : Ast.Expr) (w : World) :
  params_of_names names t w =
    (Done (map (fun n => mkParam n (tname t)) names),
     Nat.iter (length names) (diag (resolve t)) w).
Proof.
  revert w; induction names as [|n names IH]; intros w; [done|].
  cbn [params_of_names]. unfold se_bind. rewrite typename_run, IH.
  cbn [length Nat.iter]. f_equal. clear IH.
  induction names as [|m names IH]; simpl; [done | by rewrite IH].
Qed.

Lemma extract_params_run (fl : Ast.FieldList) (w : World) :
  extract_params fl w = (Done (params_spec fl), diag_params fl w).
Proof.
  revert w; induction fl as [|p fl IH]; intros w; [done|].
  cbn [extract_params]. unfold se_bind. rewrite params_of_names_run, IH. done.
Qed.

Lemma extract_results_run (fl : Ast.FieldList) (w : World) :
  extract_results fl w = (Done (results_spec fl), diag_results fl w).
Proof.
  revert w; induction fl as [|r fl IH]; intros w; [done|].
  cbn [extract_results]. unfold se_bind. rewrite typename_run, IH. done.
Qed.

Lemma diag_params_stdout_only (fl : Ast.FieldList) : stdout_only (diag_params fl).
Proof. unfold diag_params. apply stdout_only_foldl. auto with gen. Qed.

Lemma diag_results_stdout_only (fl : Ast.FieldList) : stdout_only (diag_results fl).
Proof. unfold diag_results. apply stdout_only_foldl. auto with gen. Qed.

#[export] Hint Resolve diag_params_stdout_only diag_results_stdout_only : gen.

Lemma diag_appends (d : Display) : appends_out (diag d) (diag_text d).
Proof. intros w Hn. destruct d; simpl; [by rewrite out_app_nil|]. unfold out_app, Write. by rewrite Hn. Qed.

Lemma diag_params_appends (fl : Ast.FieldList) : appends_out (diag_params fl) (params_diag fl).
Proof.
  apply (appends_out_foldl (fun w p => Nat.iter _ _ w)). intros p.
  apply appends_out_iter, diag_appends.
Qed.

Lemma diag_results_appends (fl : Ast.FieldList) : appends_out (diag_results fl) (results_diag fl).
Proof. apply (appends_out_foldl (fun w r => diag _ w)). intros r. apply diag_appends. Qed.

#[export] Hint Rewrite extract_params_run extract_results_run : gen_rw.

(** ** Theorems *)

(** C6: [extract_params] flattens the parameter groups in declaration
    order, group first and then name: its result is the concatenation,
    over the groups, of one [Param] per name of the group, all with the
    display name of the group's type. *)
Theorem extract_params_flatten (fl : Ast.FieldList) (w : World) :
  fst (extract_params fl w) =
    Done (flat_map (fun p => map (fun n => mkParam n (tname (Ast.Type_ p))) (Ast.Names p)) fl).
Proof. by rewrite extract_params_run. Qed.

(** C7: [extract_results] returns exactly [NumFields] results: one per
    name of a named group, one for an unnamed group. *)
Theorem extract_results_length (fl : Ast.FieldList) (w : World) :
  exists rs, fst (extract_results fl w) = Done rs /\ length rs = Ast.NumFields (Some fl).
Proof.
  rewrite extract_results_run. eexists; split; [done|]. unfold results_spec.
  induction fl as [|[names t] fl IH]; [done|].
  cbn [flat_map]. rewrite length_app, IH, Ast.NumFields_cons.
  by destruct names; simpl; rewrite ?length_map.
Qed.

(** C9: an unnamed result is named by the lower-cased display name of
    its type; consequently two unnamed results of one type get the same
    field name ([(int, int)] gives two fields [int]). *)
Theorem unnamed_results_collide (t : Ast.Expr) (w : World) :
  fst (extract_results [Ast.mkField [] t; Ast.mkField [] t] w) =
    Done [mkParam (ToLower (tname t)) (tname t); mkParam (ToLower (tname t)) (tname t)].
Proof. by rewrite extract_results_run. Qed.

(** C10: a parameter group without names counts in [NumFields] (so the
    declaration passes the "has parameters" guard) but contributes no
    [Param]: [func f(int) int] yields an empty parameter list. *)
Theorem unnamed_params_dropped (t : Ast.Expr) (w : World) :
  Ast.NumFields (Some [Ast.mkField [] t]) = 1 /\
  fst (extract_params [Ast.mkField [] t] w) = Done [].
Proof. by rewrite extract_params_run. Qed.

End Extract.
