(* ===== verification/Template.v ===== *)
(** * Template: the two scaffold templates (main.go 44-121)

    [testFuncTemplate] and [testMethodTemplate] are [text/template]s.
    Each is transcribed here as the list of its parse-tree nodes: text
    (with the whitespace the [{{-] trim markers remove already removed),
    the action [{{ .Name }}], and the [{{ range }}] loops over [.Params]
    and [.Results], whose bodies use [.Name], [.Type], [$ret.Name] and
    [{{ if $idx }}, {{ end }}].  [writes] is the sequence of [Write]
    calls [Template.Execute] makes for a node list (one per text node,
    one per action), and [Execute] performs them on [outputFile],
    stopping at the first error as [text/template] does.

    The template reads its data through the fields [.Name], [.Params]
    and [.Results]; [TemplateData] is that interface, implemented by
    [Func] and by [Method].

    The theorems: the method template writes what the function template
    writes for the method's name, parameters and results (the receiver is
    never used); the rendered text is the layout [scaffold] of the spec,
    whose call line is the positional assignment.  [TextTemplate] shows
    that the literals of main.go execute to exactly these writes. *)

From Stdlib Require Import String Ascii.
From stdpp Require Import base list strings.
From S2P Require Import Prelude World Signature.

Local Open Scope se_scope.
Local Open Scope string_scope.

(** The fields a template reads from its data. *)
Class TemplateData (D : Type) := {
  data_Name : D -> string;
  data_Params : D -> list Param;
  data_Results : D -> list Result
}.

#[export] Instance Func_TemplateData : TemplateData Func :=
  {| data_Name := FuncName; data_Params := Params; data_Results := Results |}.

#[export] Instance Method_TemplateData : TemplateData Method :=
  {| data_Name := MethodName; data_Params := MethodParams; data_Results := MethodResults |}.

Module Tmpl.

Inductive ListField := FParams | FResults.

(** A node of a [{{ range }}] body, where dot is the element. *)
Inductive ElemItem :=
| EText (s : string)
| EDotName                 (** [{{ .Name }}] *)
| EDotType                 (** [{{ .Type }}] *)
| ERetName                 (** [{{ $ret.Name }}] *)
| EIfIdx (s : string).     (** [{{ if $idx }}s{{ end }}] *)

(** A top-level node, where dot is the template's data. *)
Inductive Node :=
| Text (s : string)
| DotName                  (** [{{ .Name }}] *)
| Range (over : ListField) (body : list ElemItem).

(** [{{ range $idx, $elem := l }}]: the body at each index, in order. *)
Fixpoint range_idx {A} (body : nat -> A -> list string) (i : nat) (l : list A) : list string :=
  match l with
  | [] => []
  | x :: l' => body i x ++ range_idx body (S i) l'
  end.

Definition exec_item (i : nat) (p : Param) (it : ElemItem) : list string :=
  match it with
  | EText s => [s]
  | EDotName => [Name p]
  | EDotType => [Type_ p]
  | ERetName => [Name p]
  | EIfIdx s => if Nat.eqb i 0 then [] else [s]
  end.

Definition field_of {D} `{TemplateData D} (d : D) (f : ListField) : list Param :=
  match f with FParams => data_Params d | FResults => data_Results d end.

Definition exec_node {D} `{TemplateData D} (d : D) (n : Node) : list string :=
  match n with
  | Text s => [s]
  | DotName => [data_Name d]
  | Range f body => range_idx (fun i p => flat_map (exec_item i p) body) 0 (field_of d f)
  end.

(** The [Write] calls of [t.Execute(w, d)], in order. *)
Definition writes {D} `{TemplateData D} (t : list Node) (d : D) : list string :=
  flat_map (exec_node d) t.

End Tmpl.

Import Tmpl.

(** [var testFuncTemplate = template.Must(template.New("").Parse(`...`))] *)
Definition testFuncTemplate : list Node :=
    [ Text "
func Test"; DotName; Text "(t *testing.T) {
	type (
		Input struct {";
      Range FParams [EText "
			"; EDotName; EText " "; EDotType];
      Text "
		}

		Output struct {";
      Range FResults [EText "
			"; EDotName; EText " "; EDotType];
      Text ("
		}

		Case struct {
			Name   string
			In     Input
			Expect Output
		}
	)

	// TODO create test cases
	cases := []Case{}

	tester := func(c Case) func(" +:+ "*testing.T) {
		return func(t *testing.T) {
			var actual Output
			");
      Range FResults [EIfIdx ", "; EText "actual."; ERetName];
      Text " = "; DotName; Text "(";
      Range FParams [EIfIdx ", "; EText "c.In."; ERetName];
      Text (")

			if actual != c.Expect {
				t.Errorf(" +:+ DQ +:+ "expected %+v, actual: %+v\n" +:+ DQ +:+ ", c.Expect, actual)
			}
		}
	}

	for _, c := range cases {
		t.Run(c.Name, tester(c))
	}
}
") ].

(** [var testMethodTemplate = template.Must(template.New("").Parse(`...`))] *)
Definition testMethodTemplate : list Node :=
    [ Text "
func Test"; DotName; Text "(t *testing.T) {
	type (
		Input struct {";
      Range FParams [EText "
			"; EDotName; EText " "; EDotType];
      Text "
		}

		Output struct {";
      Range FResults [EText "
			"; EDotName; EText " "; EDotType];
      Text ("
		}

		Case struct {
			Name   string
			In     Input
			Expect Output
		}
	)

	// TODO create test cases
	cases := []Case{}

	tester := func(c Case) func(" +:+ "*testing.T) {
		return func(t *testing.T) {
			var actual Output
			");
      Range FResults [EIfIdx ", "; EText "actual."; ERetName];
      Text " = "; DotName; Text "(";
      Range FParams [EIfIdx ", "; EText "c.In."; ERetName];
      Text (")

			if actual != c.Expect {
				t.Errorf(" +:+ DQ +:+ "expected %+v, actual: %+v\n" +:+ DQ +:+ ", c.Expect, actual)
			}
		}
	}

	for _, c := range cases {
		t.Run(c.Name, tester(c))
	}
}
") ].

(** [tmpl.Execute(outputFile, d)]: the writes, stopping at the first error. *)
Fixpoint write_all (l : list string) : IO (option string) :=
  match l with
  | [] => ret None
  | s :: l' =>
      err <- write_dest s ;;
      match err with
      | Some e => ret (Some e)
      | None => write_all l'
      end
  end.

Definition Execute {D} `{TemplateData D} (t : list Node) (d : D) : IO (option string) :=
  write_all (writes t d).

(** ** The layout of a scaffold, as the spec describes it *)

(** One struct field per element, [Name Type] on a line of its own. *)
Definition field_lines (ps : list Param) : string :=
  sconcat (map (fun p => "
			" +:+ Name p +:+ " " +:+ Type_ p) ps).

(** The positional call: [actual.r1, actual.r2 = F(c.In.p1, c.In.p2)]. *)
Definition call_line (name : string) (ps : list Param) (rs : list Result) : string :=
  String.concat ", " (map (fun r => "actual." +:+ Name r) rs) +:+ " = " +:+ name +:+ "(" +:+
  String.concat ", " (map (fun p => "c.In." +:+ Name p) ps) +:+ ")".

(** The scaffold of spec section 4.4, written directly: the [Input]
    and [Output] records, the empty case table, the per-case procedure
    with its positional call line, and the sub-test harness. *)
Definition scaffold (name : string) (ps : list Param) (rs : list Result) : string :=
  sconcat [ "
func Test"; name; "(t *testing.T) {
	type (
		Input struct {"; field_lines ps; "
		}

		Output struct {"; field_lines rs; "
		}

		Case struct {
			Name   string
			In     Input
			Expect Output
		}
	)

	// TODO create test cases
	cases := []Case{}

	tester := func(c Case) func(" +:+ "*testing.T) {
		return func(t *testing.T) {
			var actual Output
			"; call_line name ps rs; "

			if actual != c.Expect {
				t.Errorf(" +:+ DQ +:+ "expected %+v, actual: %+v\n" +:+ DQ +:+ ", c.Expect, actual)
			}
		}
	}

	for _, c := range cases {
		t.Run(c.Name, tester(c))
	}
}
" ].

(** ** Lemmas *)

Lemma concat_sep_cons (sep x : string) (xs : list string) :
  String.concat sep (x :: xs) = x +:+ sconcat (map (fun y => sep +:+ y) xs).
Proof.
  revert x; induction xs as [|y xs IH]; intros x; [simpl; by rewrite sapp_nil_r|].
  change (String.concat sep (x :: y :: xs)) with (x +:+ sep +:+ String.concat sep (y :: xs)).
  rewrite IH. cbn [map sconcat]. by rewrite <- sapp_assoc.
Qed.

Lemma range_sep_tail (pre : string) (i : nat) (l : list Param) :
  sconcat (range_idx (fun j p => flat_map (exec_item j p) [EIfIdx ", "; EText pre; ERetName]) (S i) l) =
  sconcat (map (fun y => ", " +:+ y) (map (fun p => pre +:+ Name p) l)).
Proof.
  revert i; induction l as [|p l IH]; intros i; [done|].
  cbn [range_idx map]. rewrite sconcat_app, IH. simpl. by rewrite !sapp_nil_r, <- !sapp_assoc.
Qed.

(** [{{ range $idx, $ret := l }}{{ if $idx }}, {{ end }}pre{{ $ret.Name }}{{ end }}]
    writes the names joined by [", "]. *)
Lemma range_sep (pre : string) (l : list Param) :
  sconcat (range_idx (fun j p => flat_map (exec_item j p) [EIfIdx ", "; EText pre; ERetName]) 0 l) =
  String.concat ", " (map (fun p => pre +:+ Name p) l).
Proof.
  destruct l as [|p l]; [done|].
  cbn [range_idx map]. rewrite sconcat_app, range_sep_tail, concat_sep_cons. simpl.
  by rewrite sapp_nil_r, <- sapp_assoc.
Qed.

Lemma range_fields (l : list Param) :
  sconcat (range_idx (fun j p => flat_map (exec_item j p)
             [EText "
			"; EDotName; EText " "; EDotType]) 0 l) =
  field_lines l.
Proof.
  unfold field_lines. generalize 0.
  induction l as [|p l IH]; intros i; [done|].
  cbn [range_idx map]. rewrite sconcat_app, IH. simpl. by rewrite sapp_nil_r, <- !sapp_assoc.
Qed.

Lemma exec_range_sep {D} `{TemplateData D} (d : D) (f : ListField) (pre : string) :
  sconcat (exec_node d (Range f [EIfIdx ", "; EText pre; ERetName])) =
  String.concat ", " (map (fun p => pre +:+ Name p) (field_of d f)).
Proof. apply range_sep. Qed.

Lemma exec_range_fields {D} `{TemplateData D} (d : D) (f : ListField) :
  sconcat (exec_node d (Range f [EText "
			"; EDotName; EText " "; EDotType])) =
  field_lines (field_of d f).
Proof. apply range_fields. Qed.

#[export] Hint Rewrite exec_range_sep exec_range_fields : gen_rw.

(** The writes of [write_all], one after the other, are one write of
    their concatenation. *)
Lemma write_all_sconcat (l : list string) (w : World) :
  write_all l w = write_dest (sconcat l) w.
Proof.
  revert w; induction l as [|s l IH]; intros w.
  - unfold write_dest. cbn [sconcat]. by rewrite Write_empty, set_dest_writer_id.
  - cbn [write_all sconcat]. unfold se_bind, write_dest at 1 2.
    destruct (fits s (dest_writer w)) eqn:Hf.
    + rewrite (Write_app_ok _ _ _ Hf). destruct (Write s (dest_writer w)) as [o e] eqn:E.
      pose proof (proj2 (Write_ok _ _ Hf)) as He. rewrite E in He. simpl in He. subst e.
      rewrite IH. unfold write_dest. rewrite dest_writer_set. simpl.
      destruct (Write (sconcat l) o). by rewrite set_dest_writer_set.
    + rewrite (Write_app_err _ _ _ Hf). destruct (Write s (dest_writer w)) as [o e] eqn:E.
      pose proof (proj1 (Write_err _ _ Hf)) as He. rewrite E in He. simpl in He. by subst e.
Qed.

(** ** Theorems *)

(** C5: the function template renders the spec's scaffold: fixed text
    around the function's name, one [Input] field line per parameter and
    one [Output] field line per result in declaration order, and the
    positional call line [actual.r1, ..., actual.rn = F(c.In.p1, ..., c.In.pm)]. *)
Theorem func_template_scaffold (f : Func) :
  sconcat (writes testFuncTemplate f) = scaffold (FuncName f) (Params f) (Results f).
Proof.
  unfold writes, testFuncTemplate, scaffold, call_line.
  rewrite sconcat_flat_map. cbn [map]. rewrite !exec_range_sep, !exec_range_fields.
  cbn [exec_node field_of data_Name data_Params data_Results Func_TemplateData sconcat].
  rewrite !sapp_nil_r, <- !sapp_assoc.
  reflexivity.
Qed.

(** C8: the method template is the function template: for every method
    it performs exactly the writes the function template performs for a
    function with the method's name, parameters and results.  The
    receiver is never read, and the generated call [M(c.In...)] invokes
    the method as if it were a free function. *)
Theorem method_template_ignores_receiver (m : Method) :
  writes testMethodTemplate m =
  writes testFuncTemplate (mkFunc (MethodName m) (MethodParams m) (MethodResults m)).
Proof. reflexivity. Qed.

(** The function template renders [scaffold]. *)
Lemma writes_func_scaffold (f : Func) :
  sconcat (writes testFuncTemplate f) = scaffold (FuncName f) (Params f) (Results f).
Proof.
  unfold writes, testFuncTemplate, scaffold, call_line.
  rewrite sconcat_flat_map. cbn [map]. rewrite !exec_range_sep, !exec_range_fields.
  cbn [exec_node field_of data_Name data_Params data_Results Func_TemplateData sconcat].
  rewrite !sapp_nil_r, <- !sapp_assoc.
  reflexivity.
Qed.

(** The method template performs the writes of the function template. *)
Lemma writes_method_func (m : Method) :
  writes testMethodTemplate m =
  writes testFuncTemplate (mkFunc (MethodName m) (MethodParams m) (MethodResults m)).
Proof. reflexivity. Qed.

#[export] Hint Rewrite writes_func_scaffold writes_method_func : gen_rw.
