(* ===== verification/TextTemplate.v ===== *)
(** * TextTemplate: [text/template] on the two literals of main.go

    [testFuncTemplate] and [testMethodTemplate] (main.go 44-121) are
    built by [template.Must(template.New("").Parse(`...`))] and run by
    [tmpl.Execute(outputFile, obj)] (main.go 267, 279).  This file models
    the part of the [text/template] library those literals use, from the
    package's documentation and lexer rules:
    - [scan] splits the source at the delimiters [{{] and [}}]
      ([lexText], [lexLeftDelim], [lexRightDelim]); [trim_raw] applies
      the trim markers [{{- ] and [ -}}], which remove the space
      characters [" \t\r\n"] before or after the action, and drops the
      texts that become empty ([lexText] emits only non-empty text);
    - [words] and [classify] read an action: [.F], [.], [$v], [$v.F],
      [range [$i, $e :=] arg], [if arg] and [end];
    - [parse_segs] builds the tree, nesting [range] and [if] bodies up
      to their [{{end}}] with a stack of open frames ([Tree.parse]);
    - [exec] walks the tree ([state.walk]): text is written as it is,
      an action prints its value, [range] binds [$i] to the index and
      [$e] and dot to the element ([walkRange]), [if] tests the truth
      of its value ([isTrue]); the result is the list of writes and an
      error, if any, raised after them.
    [lower] recognises the trees the hand transcription of Template.v
    is made of, and [lower_sound] shows that executing a tree gives the
    writes of its transcription.  With them, the literals of main.go,
    parsed and executed here, write what [Template.Execute] writes. *)

From Stdlib Require Import String Ascii.
From stdpp Require Import base list strings pretty.
From S2P Require Import Prelude World Signature Template.

Local Open Scope string_scope.
Local Set Warnings "-register-all".

Module TextTemplate.

(** ** Lexing *)

(** [isSpace] of the lexer: the characters of [spaceChars = " \t\r\n"]. *)
Definition is_space (c : ascii) : bool :=
  Ascii.eqb c " " || Ascii.eqb c (ascii_of_nat 9) || Ascii.eqb c (ascii_of_nat 13)
  || Ascii.eqb c (ascii_of_nat 10).

(** A piece of the source: text, or the inside of [{{ ... }}]. *)
Inductive Raw := RText (s : string) | RAct (s : string).

Definition flush (acc : list ascii) : string := string_of_list_ascii (rev acc).

(** Split at the delimiters; an action left open is the error
    [unclosed action], a [{{] inside an action is an unexpected
    character. *)
Fixpoint scan (inact : bool) (acc : list ascii) (s : string) : option (list Raw) :=
  match s with
  | EmptyString => if inact then None else Some [RText (flush acc)]
  | String "{" (String "{" r) =>
      if inact then None else cons (RText (flush acc)) <$> scan true [] r
  | String "}" (String "}" r) =>
      if inact then cons (RAct (flush acc)) <$> scan false [] r
      else scan false ("}" :: "}" :: acc)%char r
  | String c r => scan inact (c :: acc) r
  end.

(** [strings.TrimLeft(s, spaceChars)] and [strings.TrimRight]. *)
Fixpoint ltrim (s : string) : string :=
  match s with
  | String c r => if is_space c then ltrim r else s
  | EmptyString => EmptyString
  end.

Definition rtrim (s : string) : string :=
  string_of_list_ascii (rev (list_ascii_of_string (ltrim
    (string_of_list_ascii (rev (list_ascii_of_string s)))))).

(** [hasLeftTrimMarker]: the action starts with ["-"] and a space. *)
Definition left_trim (a : string) : bool :=
  match a with String "-" (String c _) => is_space c | _ => false end.

(** [hasRightTrimMarker]: the action ends with a space and ["-"]. *)
Definition right_trim (a : string) : bool :=
  match rev (list_ascii_of_string a) with
  | "-"%char :: c :: _ => is_space c
  | _ => false
  end.

(** The action without its trim markers (the marker and its space). *)
Definition strip_markers (a : string) : string :=
  let a1 := if left_trim a then substring 2 (String.length a - 2) a else a in
  if right_trim a1 then substring 0 (String.length a1 - 2) a1 else a1.

(** A lexed segment: non-empty text, or the words of an action. *)
Inductive Seg := SText (s : string) | SAct (a : string).

Definition next_left_trim (l : list Raw) : bool :=
  match l with RAct a :: _ => left_trim a | _ => false end.

(** Trim the texts around marked actions and drop the empty ones; [rt]
    is set after an action closed by [ -}}]. *)
Fixpoint trim_raw (rt : bool) (l : list Raw) : list Seg :=
  match l with
  | [] => []
  | RText s :: l' =>
      let s1 := if rt then ltrim s else s in
      let s2 := if next_left_trim l' then rtrim s1 else s1 in
      (if String.eqb s2 "" then [] else [SText s2]) ++ trim_raw false l'
  | RAct a :: l' => SAct (strip_markers a) :: trim_raw (right_trim a) l'
  end.

Definition lex (src : string) : option (list Seg) :=
  trim_raw false <$> scan false [] src.

(** The tokens of an action: split at spaces, a [,] is a token of its own. *)
Fixpoint words_go (acc : list ascii) (s : string) : list string :=
  let out := if bool_decide (acc = []) then [] else [flush acc] in
  match s with
  | EmptyString => out
  | String c r =>
      if is_space c then out ++ words_go [] r
      else if Ascii.eqb c "," then out ++ "," :: words_go [] r
      else words_go (c :: acc) r
  end.

Definition words (a : string) : list string := words_go [] a.

(** ** Parsing *)

(** The operand of a command: [.] ([DotNode]), [.F] ([FieldNode]),
    [$v] and [$v.F] ([VariableNode]). *)
Inductive Arg :=
| ADot
| AField (f : string)
| AVar (v : string)
| AVarField (v f : string).

Definition is_ident_char (c : ascii) : bool :=
  let n := nat_of_ascii c in
  Ascii.eqb c "_" || (48 <=? n)%nat && (n <=? 57)%nat || (65 <=? n)%nat && (n <=? 90)%nat
  || (97 <=? n)%nat && (n <=? 122)%nat.

Fixpoint is_ident (s : string) : bool :=
  match s with
  | EmptyString => true
  | String c r => is_ident_char c && is_ident r
  end.

(** [$v] or [$v.F], the variable name without its [$]. *)
Fixpoint split_dot (s : string) : string * option string :=
  match s with
  | EmptyString => (EmptyString, None)
  | String "." r => (EmptyString, Some r)
  | String c r => let '(v, f) := split_dot r in (String c v, f)
  end.

Definition parse_arg (w : string) : option Arg :=
  match w with
  | "." => Some ADot
  | String "." f => if is_ident f then Some (AField f) else None
  | String "$" r =>
      match split_dot r with
      | (v, None) => if is_ident v then Some (AVar v) else None
      | (v, Some f) =>
          if is_ident v && is_ident f && negb (String.eqb f "") then Some (AVarField v f)
          else None
      end
  | _ => None
  end.

(** The variable of a declaration [$v]. *)
Definition parse_var (w : string) : option string :=
  match parse_arg w with Some (AVar v) => Some v | _ => None end.

(** What an action is. *)
Inductive Action :=
| KPrint (a : Arg)
| KRange (decl : list string) (a : Arg)
| KIf (a : Arg)
| KEnd.

Definition classify (ws : list string) : option Action :=
  match ws with
  | ["end"] => Some KEnd
  | ["if"; a] => KIf <$> parse_arg a
  | ["range"; a] => KRange [] <$> parse_arg a
  | ["range"; e; ":="; a] =>
      e' ← parse_var e; KRange [e'] <$> parse_arg a
  | ["range"; i; ","; e; ":="; a] =>
      i' ← parse_var i; e' ← parse_var e; KRange [i'; e'] <$> parse_arg a
  | [a] => KPrint <$> parse_arg a
  | _ => None
  end.

(** The parse tree: [TextNode], [ActionNode], [RangeNode], [IfNode]. *)
Inductive TNode :=
| TText (s : string)
| TAction (a : Arg)
| TRange (decl : list string) (a : Arg) (body : list TNode)
| TIf (a : Arg) (body : list TNode).

(** A [range] or [if] whose [{{end}}] is still to come, with the nodes
    parsed before it (in reverse). *)
Inductive Frame :=
| FRange (decl : list string) (a : Arg) (prev : list TNode)
| FIf (a : Arg) (prev : list TNode).

(** [Tree.parse]: [cur] holds the nodes of the innermost open list in
    reverse; [{{end}}] closes the top frame, and the end of input with
    a frame open is the error [unexpected EOF]. *)
Fixpoint parse_segs (segs : list Seg) (cur : list TNode) (st : list Frame)
    : option (list TNode) :=
  match segs with
  | [] => match st with [] => Some (rev cur) | _ => None end
  | SText s :: r => parse_segs r (TText s :: cur) st
  | SAct a :: r =>
      match classify (words a) with
      | Some KEnd =>
          match st with
          | FRange d x prev :: st' => parse_segs r (TRange d x (rev cur) :: prev) st'
          | FIf x prev :: st' => parse_segs r (TIf x (rev cur) :: prev) st'
          | [] => None
          end
      | Some (KRange d x) => parse_segs r [] (FRange d x cur :: st)
      | Some (KIf x) => parse_segs r [] (FIf x cur :: st)
      | Some (KPrint x) => parse_segs r (TAction x :: cur) st
      | None => None
      end
  end.

(** [template.New("").Parse(src)]. *)
Definition Parse (src : string) : option (list TNode) :=
  segs ← lex src; parse_segs segs [] [].

(** [template.Must]: a parse error panics. *)
Definition Must {A} (r : option A) : IO A :=
  match r with
  | Some t => se_ret t
  | None => se_panic "template: parse error"
  end.

(** ** Execution *)

Section Exec.
Context {D : Type} `{TemplateData D}.

(** The values of the walk: strings, [range] indices, a [Param] (or
    [Result]), a slice of them, and the template's data. *)
Inductive Value :=
| VStr (s : string)
| VInt (n : nat)
| VParam (p : Param)
| VParams (l : list Param)
| VData (d : D).

(** [evalField]: the fields of [Func]/[Method] the templates read, and
    those of [Param]; any other is [can't evaluate field]. *)
Definition field (v : Value) (f : string) : option Value :=
  match v with
  | VData d =>
      if String.eqb f "Name" then Some (VStr (data_Name d))
      else if String.eqb f "Params" then Some (VParams (data_Params d))
      else if String.eqb f "Results" then Some (VParams (data_Results d))
      else None
  | VParam p =>
      if String.eqb f "Name" then Some (VStr (Name p))
      else if String.eqb f "Type" then Some (VStr (Type_ p))
      else None
  | _ => None
  end.

(** [varValue]: the innermost binding of the name. *)
Fixpoint var_value (v : string) (vars : list (string * Value)) : option Value :=
  match vars with
  | [] => None
  | (x, a) :: vars' => if String.eqb x v then Some a else var_value v vars'
  end.

Definition eval_arg (a : Arg) (dot : Value) (vars : list (string * Value)) : option Value :=
  match a with
  | ADot => Some dot
  | AField f => field dot f
  | AVar v => var_value v vars
  | AVarField v f => x ← var_value v vars; field x f
  end.

(** [printValue]: strings as they are, integers in decimal; structs and
    slices (printed by [fmt]) are not used by the templates. *)
Definition print_value (v : Value) : option string :=
  match v with
  | VStr s => Some s
  | VInt n => Some (pretty n)
  | _ => None
  end.

(** [isTrue]: the zero value is false. *)
Definition truth (v : Value) : bool :=
  match v with
  | VStr s => negb (String.eqb s "")
  | VInt n => negb (Nat.eqb n 0)
  | VParams l => negb (bool_decide (l = []))
  | VParam _ | VData _ => true
  end.

(** The variables of one [range] iteration: with two, [$i] is the index
    and [$e] the element, with one it is the element (the element is
    pushed last, so it wins if the names are equal). *)
Definition bind_decl (decl : list string) (i : nat) (p : Param)
    (vars : list (string * Value)) : list (string * Value) :=
  match decl with
  | [e] => (e, VParam p) :: vars
  | [ix; e] => (e, VParam p) :: (ix, VInt i) :: vars
  | _ => vars
  end.

(** The writes made, and the error that stopped the walk, if any. *)
Definition Res : Type := list string * option string.

(** Run [k] after [r] unless [r] failed; the writes add up. *)
Definition and_then (r : Res) (k : unit -> Res) : Res :=
  match r with
  | (w, None) => let '(w', e) := k tt in ((w ++ w')%list, e)
  | (w, Some e) => (w, Some e)
  end.

Definition with_value (o : option Value) (k : Value -> Res) : Res :=
  match o with Some v => k v | None => ([], Some "template: can't evaluate") end.

(** [walkRange] over a slice: the body once per element, in order. *)
Fixpoint range_exec (body : nat -> Param -> Res) (i : nat) (l : list Param) : Res :=
  match l with
  | [] => ([], None)
  | p :: l' => and_then (body i p) (fun _ => range_exec body (S i) l')
  end.

(** [state.walk] on one node. *)
Fixpoint exec (t : TNode) (dot : Value) (vars : list (string * Value)) : Res :=
  let exec_list := fix go (ts : list TNode) (dot : Value) vars : Res :=
    match ts with
    | [] => ([], None)
    | t :: ts' => and_then (exec t dot vars) (fun _ => go ts' dot vars)
    end in
  match t with
  | TText s => ([s], None)
  | TAction a =>
      with_value (eval_arg a dot vars) (fun v =>
        match print_value v with
        | Some s => ([s], None)
        | None => ([], Some "template: can't print")
        end)
  | TRange decl a body =>
      with_value (eval_arg a dot vars) (fun v =>
        match v with
        | VParams l => range_exec (fun i p => exec_list body (VParam p) (bind_decl decl i p vars)) 0 l
        | _ => ([], Some "template: range can't iterate")
        end)
  | TIf a body =>
      with_value (eval_arg a dot vars) (fun v =>
        if truth v then exec_list body dot vars else ([], None))
  end.

Fixpoint exec_list (ts : list TNode) (dot : Value) (vars : list (string * Value)) : Res :=
  match ts with
  | [] => ([], None)
  | t :: ts' => and_then (exec t dot vars) (fun _ => exec_list ts' dot vars)
  end.

(** [tmpl.Execute(w, d)]'s walk: dot and [$] are the data. *)
Definition Exec (t : list TNode) (d : D) : Res :=
  exec_list t (VData d) [("$", VData d)].

(** [tmpl.Execute(outputFile, d)]: the writes go to the output as they
    are made; the first write error, or else the walk's error, is
    returned. *)
Definition ExecuteT (t : list TNode) (d : D) : IO (option string) :=
  let '(ws, e) := Exec t d in
  se_bind (write_all ws) (fun err =>
    match err with Some _ => se_ret err | None => se_ret e end).

End Exec.

(** ** The trees of the transcription *)

(** A node of a [range] body with variables [decl], as an [ElemItem]:
    [$e.Name] needs [$e] to be the element, [{{if $i}}s{{end}}] needs
    [$i] to be the index and not shadowed by the element. *)
Definition lower_item (decl : list string) (t : TNode) : option Tmpl.ElemItem :=
  match t, decl with
  | TText s, _ => Some (Tmpl.EText s)
  | TAction (AField f), _ =>
      if String.eqb f "Name" then Some Tmpl.EDotName
      else if String.eqb f "Type" then Some Tmpl.EDotType else None
  | TAction (AVarField v f), [_; e] =>
      if String.eqb v e && String.eqb f "Name" then Some Tmpl.ERetName else None
  | TIf (AVar v) [TText s], [ix; e] =>
      if String.eqb v ix && negb (String.eqb ix e) then Some (Tmpl.EIfIdx s) else None
  | _, _ => None
  end.

Definition lower_field (a : Arg) : option Tmpl.ListField :=
  match a with
  | AField f =>
      if String.eqb f "Params" then Some Tmpl.FParams
      else if String.eqb f "Results" then Some Tmpl.FResults else None
  | _ => None
  end.

Definition lower_node (t : TNode) : option Tmpl.Node :=
  match t with
  | TText s => Some (Tmpl.Text s)
  | TAction (AField f) => if String.eqb f "Name" then Some Tmpl.DotName else None
  | TRange decl a body =>
      f ← lower_field a; items ← mapM (lower_item decl) body; Some (Tmpl.Range f items)
  | _ => None
  end.

Definition lower (t : list TNode) : option (list Tmpl.Node) := mapM lower_node t.

(** [var testFuncTemplate = template.Must(template.New("").Parse(`...`))]
    and [testMethodTemplate]: the package variables as [Must] leaves them. *)
(** The literal of [testFuncTemplate], main.go 45-81. *)
Definition testFuncTemplate_src : string :=
  ("
func Test{{ .Name }}(t *testing.T) {
	type (
		Input struct { {{- range .Params }}
			{{ .Name }} {{ .Type }}{{ end }}
		}

		Output struct { {{- range .Results }}
			{{ .Name }} {{ .Type }}{{ end }}
		}

		Case struct {
			Name   string
			In     Input
			Expect Output
		}
	)

	// TODO create test cases
	cases := []Case{}

	tester := func(c Case) func(" +:+ "*testing.T) {
		return func(t *testing.T) {
			var actual Output
			{{ range $idx, $ret := .Results }}{{ if $idx }}, {{ end }}actual.{{ $ret.Name }}{{ end }} = {{ .Name }}({{ range $idx, $ret := .Params }}{{ if $idx }}, {{ end }}c.In.{{ $ret.Name }}{{ end }})

			if actual != c.Expect {
				t.Errorf(" +:+ DQ +:+ "expected %+v, actual: %+v\n" +:+ DQ +:+ ", c.Expect, actual)
			}
		}
	}

	for _, c := range cases {
		t.Run(c.Name, tester(c))
	}
}
").

(** The literal of [testMethodTemplate], main.go 85-121. *)
Definition testMethodTemplate_src : string :=
  ("
func Test{{ .Name }}(t *testing.T) {
	type (
		Input struct { {{- range .Params }}
			{{ .Name }} {{ .Type }}{{ end }}
		}

		Output struct { {{- range .Results }}
			{{ .Name }} {{ .Type }}{{ end }}
		}

		Case struct {
			Name   string
			In     Input
			Expect Output
		}
	)

	// TODO create test cases
	cases := []Case{}

	tester := func(c Case) func(" +:+ "*testing.T) {
		return func(t *testing.T) {
			var actual Output
			{{ range $idx, $ret := .Results }}{{ if $idx }}, {{ end }}actual.{{ $ret.Name }}{{ end }} = {{ .Name }}({{ range $idx, $ret := .Params }}{{ if $idx }}, {{ end }}c.In.{{ $ret.Name }}{{ end }})

			if actual != c.Expect {
				t.Errorf(" +:+ DQ +:+ "expected %+v, actual: %+v\n" +:+ DQ +:+ ", c.Expect, actual)
			}
		}
	}

	for _, c := range cases {
		t.Run(c.Name, tester(c))
	}
}
").

Definition testFuncTemplate_var : IO (list TNode) := Must (Parse testFuncTemplate_src).

Definition testMethodTemplate_var : IO (list TNode) := Must (Parse testMethodTemplate_src).

(** ** Lemmas *)

Section Lemmas.
Context {D : Type} `{TemplateData D}.

Lemma and_then_ok (w : list string) (k : unit -> Res) :
  and_then (w, None) k = let '(w', e) := k tt in ((w ++ w')%list, e).
Proof. reflexivity. Qed.

Lemma range_exec_ok (body : nat -> Param -> Res) (g : nat -> Param -> list string)
    (i : nat) (l : list Param) :
  (forall j p, body j p = (g j p, None)) ->
  range_exec body i l = (Tmpl.range_idx g i l, None).
Proof.
  intros Hb. revert i. induction l as [|p l IH]; intros i; [reflexivity|].
  cbn [range_exec Tmpl.range_idx]. rewrite Hb, and_then_ok, IH. reflexivity.
Qed.

Lemma exec_list_ok {X} (g : X -> list string) (ts : list TNode) (xs : list X)
    (dot : Value) (vars : list (string * Value)) :
  Forall2 (fun t x => exec t dot vars = (g x, None)) ts xs ->
  exec_list ts dot vars = (flat_map g xs, None).
Proof.
  induction 1 as [|t x ts xs Ht _ IH]; [reflexivity|].
  cbn [exec_list flat_map]. rewrite Ht, and_then_ok, IH. reflexivity.
Qed.

(** The inner walk of a [range] body is [exec_list]. *)
Lemma exec_range (decl : list string) (a : Arg) (body : list TNode) (dot : Value)
    (vars : list (string * Value)) :
  exec (TRange decl a body) dot vars =
  with_value (eval_arg a dot vars) (fun v =>
    match v with
    | VParams l => range_exec (fun i p => exec_list body (VParam p) (bind_decl decl i p vars)) 0 l
    | _ => ([], Some "template: range can't iterate")
    end).
Proof. reflexivity. Qed.

Lemma lower_item_sound (decl : list string) (t : TNode) (it : Tmpl.ElemItem)
    (i : nat) (p : Param) (vars : list (string * Value)) :
  lower_item decl t = Some it ->
  exec t (VParam p) (bind_decl decl i p vars) = (Tmpl.exec_item i p it, None).
Proof.
  intros Hl; unfold lower_item in Hl.
  repeat match type of Hl with
  | context [String.eqb ?a ?b] => destruct (String.eqb_spec a b); subst; cbn in Hl; try discriminate
  | context [match ?x with _ => _ end] => destruct x; cbn in Hl; try discriminate
  end; injection Hl as <-; cbn; rewrite ?String.eqb_refl; try reflexivity.
  rewrite (proj2 (String.eqb_neq _ _)) by congruence. destruct i; reflexivity.
Qed.

Lemma lower_field_sound (a : Arg) (f : Tmpl.ListField) (d : D) (vars : list (string * Value)) :
  lower_field a = Some f -> eval_arg a (VData d) vars = Some (VParams (Tmpl.field_of d f)).
Proof.
  destruct a as [|g| |]; cbn; try discriminate.
  destruct (String.eqb_spec g "Params"); [intros [= <-]; subst; reflexivity|].
  destruct (String.eqb_spec g "Results"); [intros [= <-]; subst; reflexivity|discriminate].
Qed.

Lemma lower_node_sound (t : TNode) (nd : Tmpl.Node) (d : D) (vars : list (string * Value)) :
  lower_node t = Some nd -> exec t (VData d) vars = (Tmpl.exec_node d nd, None).
Proof.
  destruct t as [s|[|f| |]|decl a body|]; intros Hl; cbn in Hl; try discriminate.
  - injection Hl as <-. reflexivity.
  - destruct (String.eqb_spec f "Name"); [injection Hl as <-; subst; reflexivity|discriminate].
  - destruct (lower_field a) as [f|] eqn:Hf; cbn in Hl; [|discriminate].
    destruct (mapM _ body) as [items|] eqn:Hitems; cbn in Hl; [|discriminate].
    injection Hl as <-.
    rewrite exec_range, (lower_field_sound _ _ _ _ Hf). cbn [with_value].
    apply range_exec_ok. intros j p. apply exec_list_ok.
    apply mapM_Some in Hitems. eapply Forall2_impl; [exact Hitems|].
    intros t it Ht. by apply lower_item_sound.
Qed.

(** Executing a tree that lowers gives the writes of its lowering. *)
Lemma lower_sound (t : list TNode) (n : list Tmpl.Node) (d : D) :
  lower t = Some n -> Exec t d = (Tmpl.writes n d, None).
Proof.
  intros Hl. apply exec_list_ok. apply mapM_Some in Hl.
  eapply Forall2_impl; [exact Hl|]. intros t' nd Ht. by apply lower_node_sound.
Qed.

Lemma ExecuteT_lower (t : list TNode) (n : list Tmpl.Node) (d : D) (w : World) :
  lower t = Some n -> ExecuteT t d w = Execute n d w.
Proof.
  intros Hl. unfold ExecuteT, Execute. rewrite (lower_sound _ _ _ Hl).
  unfold se_bind. destruct (write_all _ w) as [[[e|]| |] w']; reflexivity.
Qed.
End Lemmas.

(** A package variable whose literal parses to a tree that lowers to
    [n] executes as [n]. *)
Lemma var_executes_as {D} `{TemplateData D} (src : string) (n : list Tmpl.Node)
    (d : D) (w : World) :
  (t ← Parse src; lower t) = Some n ->
  se_bind (Must (Parse src)) (fun t => ExecuteT t d) w = Execute n d w.
Proof.
  destruct (Parse src) as [t|]; cbn; [|discriminate]. intros Hl.
  unfold se_bind, se_ret. apply ExecuteT_lower, Hl.
Qed.

(** C12: the template literals of main.go 45-81 and 85-121, taken byte
    for byte, parsed by [template.Must(template.New("").Parse(...))] and
    executed by [Execute] on any data, make the same writes on any world
    as the transcriptions [testFuncTemplate] and [testMethodTemplate]
    that the driver's theorems use: they parse (so [Must] does not
    panic), their execution never fails, and each text and action of
    the transcription is what [text/template] writes. *)
Theorem template_literals_execute_as_transcribed {D} `{TemplateData D} (d : D) (w : World) :
  se_bind testFuncTemplate_var (fun t => ExecuteT t d) w = Execute testFuncTemplate d w /\
  se_bind testMethodTemplate_var (fun t => ExecuteT t d) w = Execute testMethodTemplate d w.
Proof. split; apply var_executes_as; vm_compute; reflexivity. Qed.

End TextTemplate.
