(* ===== verification/Eligibility.v ===== *)
(** * Eligibility: which scope objects get a scaffold (main.go 199-226, 307-316)

    The body of the innermost loop of [main] is a chain of guards, each
    ending the iteration with [continue]: the object must be a function
    ([obj.Kind == ast.Fun]), have a valid position (otherwise "skipping
    invalid" is printed), match the filter, have no [Test<Name>] in the
    package ([packageContains]), declare at least one parameter and at
    least one result.  [classify] returns which guard stopped the object,
    or [Eligible] with its declaration; the [Driver] acts on the verdict.
    Between the filter and the parameter count the code asserts
    that [obj.Decl] is a [*ast.FuncDecl], which panics on another node: the
    verdict [BadDecl].

    The compiled regular expression is reached through the [Matcher]
    interface (the method [MatchString] of [*regexp.Regexp]). *)

From Stdlib Require Import String Ascii.
From stdpp Require Import base list strings.
From S2P Require Import Prelude GoAst.

(** What the program asks of a compiled [*regexp.Regexp]. *)
Class Matcher (R : Type) := MatchString : R -> string -> bool.

(** What the program asks of [regexp.Compile]: a compiled expression or
    the error message. *)
Class Compiler (R : Type) := Compile : string -> R + string.

Module Eligible.

(** [func packageContains(pkg *ast.Package, name string) bool]. *)
Definition packageContains (pkg : Ast.Package) (name : string) : bool :=
  existsb (fun file => existsb (fun obj => String.eqb (Ast.ObjName obj) name)
                               (Ast.Objects file))
          (Ast.Files pkg).

Inductive Verdict :=
| NotFunc                     (** [obj.Kind != ast.Fun] *)
| InvalidPos                  (** [!obj.Pos().IsValid()] *)
| FilteredOut                 (** [!filter.MatchString(obj.Name)] *)
| HasTest                     (** [packageContains(pkg, "Test"+obj.Name)] *)
| BadDecl                     (** the assertion [obj.Decl] to [*ast.FuncDecl] panics *)
| NoParams                    (** [fn.Type.Params.NumFields() == 0] *)
| NoResults                   (** [fn.Type.Results == nil || ...NumFields() == 0] *)
| Eligible (fn : Ast.FuncDecl) (results : Ast.FieldList).

Section Classify.
Context {R : Type} `{Matcher R} (filter : R) (pkg : Ast.Package).

Definition classify (obj : Ast.Object) : Verdict :=
  if decide (Ast.Kind obj <> Ast.Fun) then NotFunc
  else if negb (Ast.PosValid obj) then InvalidPos
  else if negb (MatchString filter (Ast.ObjName obj)) then FilteredOut
  else if packageContains pkg ("Test" +:+ Ast.ObjName obj) then HasTest
  else match Ast.Decl obj with
       | Ast.OtherDecl => BadDecl
       | Ast.FuncDeclNode fn =>
           if Nat.eqb (Ast.NumFields (Some (Ast.Params fn))) 0 then NoParams
           else match Ast.Results fn with
                | None => NoResults
                | Some rl => if Nat.eqb (Ast.NumFields (Some rl)) 0 then NoResults
                             else Eligible fn rl
                end
       end.

(** What the two verdicts that carry a declaration say about the object. *)
Lemma classify_decl (obj : Ast.Object) :
  match classify obj with
  | BadDecl => Ast.Kind obj = Ast.Fun /\ Ast.Decl obj = Ast.OtherDecl
  | Eligible fn _ => Ast.Kind obj = Ast.Fun /\ Ast.Decl obj = Ast.FuncDeclNode fn
  | _ => True
  end.
Proof.
  unfold classify. case_decide as Hk; [done|].
  repeat case_match; naive_solver.
Qed.

(** ** Theorems *)

(** C2: the eligibility rule of spec section 4.2 as the code decides
    it: an object is scaffolded from declaration [fn] exactly when it
    is a function with a valid position, its name matches the filter,
    no object of the package is named [Test] followed by its name, its
    declaration is [fn], and [fn] declares at least one parameter and
    at least one result (a nil result list counting as none). *)
Theorem classify_eligible (obj : Ast.Object) (fn : Ast.FuncDecl) (rl : Ast.FieldList) :
  classify obj = Eligible fn rl <->
    Ast.Kind obj = Ast.Fun /\ Ast.PosValid obj = true /\
    MatchString filter (Ast.ObjName obj) = true /\
    packageContains pkg ("Test" +:+ Ast.ObjName obj) = false /\
    Ast.Decl obj = Ast.FuncDeclNode fn /\
    Ast.NumFields (Some (Ast.Params fn)) <> 0 /\
    Ast.Results fn = Some rl /\ Ast.NumFields (Some rl) <> 0.
Proof.
  unfold classify. split.
  - case_decide as Hk; [done|].
    destruct (Ast.PosValid obj), (MatchString filter _), (packageContains _ _),
      (Ast.Decl obj) as [fn'|] eqn:Hd; cbn [negb]; try done.
    destruct (Nat.eqb_spec (Ast.NumFields (Some (Ast.Params fn'))) 0); cbn [negb]; [done|].
    destruct (Ast.Results fn') as [rl'|] eqn:Hr; [|done].
    destruct (Nat.eqb_spec (Ast.NumFields (Some rl')) 0); cbn [negb]; [done|].
    intros [= <- <-]. naive_solver.
  - intros (Hk & Hp & Hm & Hc & Hd & Hn & Hr & Hn').
    case_decide; [done|]. rewrite Hp, Hm, Hc, Hd, Hr. cbn [negb].
    by rewrite (proj2 (Nat.eqb_neq _ _) Hn), (proj2 (Nat.eqb_neq _ _) Hn').
Qed.
End Classify.

(** C11: [packageContains] looks at every file of the package: a name
    is found when some object of some file has it, not only in the file
    of the candidate (the spec says "same source unit"). *)
Theorem packageContains_spec (pkg : Ast.Package) (name : string) :
  packageContains pkg name = true <->
    exists file obj, In file (Ast.Files pkg) /\ In obj (Ast.Objects file) /\
                     Ast.ObjName obj = name.
Proof.
  unfold packageContains. rewrite existsb_exists. split.
  - intros (file & Hf & Ho). apply existsb_exists in Ho as (obj & Ho & He).
    apply String.eqb_eq in He. eauto.
  - intros (file & obj & Hf & Ho & He). exists file. split; [done|].
    apply existsb_exists. exists obj. split; [done|]. by apply String.eqb_eq.
Qed.

End Eligible.
