(* ===== verification/Driver.v ===== *)
(** * Driver: the scaffolding loop of [main] (main.go 196-288)

    [run] is the triple loop over packages, files and scope objects;
    [gen_object] is its body: the guards of [Eligibility.classify], the
    "skipping invalid" diagnostic, the type assertion that panics, and
    for an eligible declaration [scaffold_decl]: parameter and result
    extraction, the receiver for a method, execution of the matching
    template on [outputFile], and on a render error the message
    "creating test function for ..." followed by [os.Exit(1)].

    The main theorems compare a run with [expected]: the concatenation,
    in traversal order, of the spec's [scaffold] for every eligible
    object.  When the destination is a file, a run acts on it as one
    [Write] of [expected] would: with unbounded room it appends all of
    it and ends normally; with [n] bytes of room it appends the first
    [n] bytes and exits with status 1 exactly when [expected] is longer.
    When the destination is standard output, the diagnostics of
    [typename] land in the middle of the generated code. *)

From Stdlib Require Import String Ascii.
From stdpp Require Import base list strings.
From S2P Require Import Prelude World GoAst TypeName Signature Template Eligibility.

Local Open Scope se_scope.
Import TypeNamer Extract Eligible.

Module Driver.

Definition type_assert_panic : string :=
  "interface conversion: interface {} is not *ast.FuncDecl".

Section Run.
Context {R : Type} `{Matcher R} (filter : R).

(** [err = testFuncTemplate.Execute(outputFile, f)] or, with a
    receiver, [err = testMethodTemplate.Execute(outputFile, m)]. *)
Definition render_decl (fn : Ast.FuncDecl) (ps : list Param) (rs : list Result)
  : IO (option string) :=
  match Ast.Recv fn with
  | None => Execute testFuncTemplate (mkFunc (Ast.Name fn) ps rs)
  | Some recv =>
      rcvr <- extract_receiver recv ;;
      Execute testMethodTemplate (mkMethod (Ast.Name fn) rcvr ps rs)
  end.

(** main.go 228-285, for an eligible declaration. *)
Definition scaffold_decl (fn : Ast.FuncDecl) (rl : Ast.FieldList) : IO unit :=
  ps <- extract_params (Ast.Params fn) ;;
  rs <- extract_results rl ;;
  err <- render_decl fn ps rs ;;
  match err with
  | Some e =>
      print ("creating test function for " +:+ Ast.Name fn +:+ ": " +:+ e +:+ NL) ;;;
      exit 1
  | None => ret tt
  end.

(** The body of [for _, obj := range file.Scope.Objects]. *)
Definition gen_object (pkg : Ast.Package) (obj : Ast.Object) : IO unit :=
  match classify filter pkg obj with
  | InvalidPos => println ["skipping invalid"; Ast.ObjName obj]
  | BadDecl => se_panic type_assert_panic
  | Eligible fn rl => scaffold_decl fn rl
  | _ => ret tt
  end.

(** [for _, pkg := range packages { for _, file := range pkg.Files { ... } }] *)
Definition run (packages : list Ast.Package) : IO unit :=
  se_iter (fun pkg =>
    se_iter (fun file => se_iter (gen_object pkg) (Ast.Objects file)) (Ast.Files pkg))
    packages.

(** ** What a run writes *)

(** The text scaffolded for one object: the spec's [scaffold] for an
    eligible object, nothing otherwise. *)
Definition out_text (pkg : Ast.Package) (obj : Ast.Object) : string :=
  match classify filter pkg obj with
  | Eligible fn rl => scaffold (Ast.Name fn) (params_spec (Ast.Params fn)) (results_spec rl)
  | _ => EmptyString
  end.

Definition expected (packages : list Ast.Package) : string :=
  sconcat (map (fun pkg =>
    sconcat (map (fun file => sconcat (map (out_text pkg) (Ast.Objects file)))
                 (Ast.Files pkg)))
    packages).

(** What a run prints for one object when the destination is standard
    output: the notice of an invalid position, or, for an eligible
    declaration, the line [typename] prints for each unsupported type, in
    the order it is called (each parameter name, each result group, the
    receiver), followed by the scaffold. *)
Definition recv_diag (fn : Ast.FuncDecl) : string :=
  match Ast.Recv fn with
  | Some (f :: _) => diag_text (resolve (Ast.Type_ f))
  | _ => EmptyString
  end.

Definition out_stdout (pkg : Ast.Package) (obj : Ast.Object) : string :=
  match classify filter pkg obj with
  | InvalidPos => "skipping invalid " +:+ Ast.ObjName obj +:+ NL
  | Eligible fn rl =>
      params_diag (Ast.Params fn) +:+ results_diag rl +:+ recv_diag fn +:+
      scaffold (Ast.Name fn) (params_spec (Ast.Params fn)) (results_spec rl)
  | _ => EmptyString
  end.

Definition expected_stdout (packages : list Ast.Package) : string :=
  sconcat (map (fun pkg =>
    sconcat (map (fun file => sconcat (map (out_stdout pkg) (Ast.Objects file)))
                 (Ast.Files pkg)))
    packages).

(** The receiver [fn.Recv.List[0].Names[0]] exists. *)
Definition recv_named (fn : Ast.FuncDecl) : bool :=
  match Ast.Recv fn with
  | None => true
  | Some [] => false
  | Some (f :: _) => negb (bool_decide (Ast.Names f = []))
  end.

(** The objects [go/parser] produces never make the loop panic. *)
Definition no_panic (pkg : Ast.Package) (obj : Ast.Object) : bool :=
  match classify filter pkg obj with
  | BadDecl => false
  | Eligible fn _ => recv_named fn
  | _ => true
  end.

Definition wf_run (packages : list Ast.Package) : Prop :=
  Forall (fun pkg => Forall (fun file => Forall (fun obj => no_panic pkg obj = true)
                                           (Ast.Objects file))
                            (Ast.Files pkg)) packages.

End Run.

(** [m] acts on an output file as one [Write] of [s], ending with
    [os.Exit(1)] when that write fails. *)
Definition acts_as_write (m : IO unit) (s : string) : Prop :=
  forall w, dest w = DestFile ->
    fst (m w) = (if fits s (outfile w) then Done tt else Exited 1) /\
    outfile (snd (m w)) = fst (Write s (outfile w)) /\
    dest (snd (m w)) = DestFile.


(** ** Concrete runs *)

(** The anchored literal pattern [^p] as a matcher. *)
Record Prefix := mkPrefix { prefix : string }.
#[export] Instance Prefix_Matcher : Matcher Prefix := fun r name => HasPrefix name (prefix r).

Definition int_t : Ast.Expr := Ast.Ident "int".

(** [func name(x, y int) int] as [go/parser] declares it. *)
Definition binop (name : string) : Ast.Object :=
  Ast.mkObject Ast.Fun name
    (Ast.FuncDeclNode (Ast.mkFuncDecl None name [Ast.mkField ["x"; "y"] int_t]
                                      (Some [Ast.mkField [] int_t])))
    true.

Definition math_pkg : Ast.Package :=
  Ast.mkPackage "main"
    [Ast.mkFile "math.go"
       [binop "Add"; binop "Add2"; binop "Subtract";
        Ast.mkObject Ast.Typ "AddResult" Ast.OtherDecl true]].

Definition to_file : World :=
  mkWorld (mkWriter EmptyString None EmptyString)
          (mkWriter EmptyString None EmptyString) DestFile (mkWriter EmptyString None EmptyString).

(** No [-o]: the output is standard output. *)
Definition to_stdout : World :=
  mkWorld (mkWriter EmptyString None EmptyString)
          (mkWriter EmptyString None EmptyString) DestStdout (mkWriter EmptyString None EmptyString).

(** The function [Sum(xs []int) int] on standard output: the line
    [*ast.ArrayType], then a scaffold whose [Input] field [xs] has no
    type. *)
Definition sum_pkg : Ast.Package :=
  Ast.mkPackage "main" [Ast.mkFile "sum.go" [Ast.mkObject Ast.Fun "Sum"
    (Ast.FuncDeclNode (Ast.mkFuncDecl None "Sum" [Ast.mkField ["xs"] (Ast.ArrayType None int_t)]
                                      (Some [Ast.mkField [] int_t]))) true]].

Definition small_disk : World :=
  mkWorld (mkWriter EmptyString None EmptyString)
          (mkWriter EmptyString (Some 1000) "no space left on device") DestFile
          (mkWriter EmptyString None EmptyString).

(** ** Lemmas *)

Lemma write_dest_file (s : string) (w : World) :
  dest w = DestFile ->
  write_dest s w = (Done (snd (Write s (outfile w))),
                    mkWorld (stdout w) (fst (Write s (outfile w))) DestFile (stderr w)).
Proof.
  destruct w as [so fo d se]; simpl; intros ->. unfold write_dest, dest_writer, set_dest_writer; simpl.
  by destruct (Write s fo).
Qed.

Lemma acts_as_write_stdout (m : IO unit) :
  (forall w, fst (m w) = Done tt /\ outfile (snd (m w)) = outfile w /\ dest (snd (m w)) = dest w) ->
  acts_as_write m EmptyString.
Proof.
  intros Hm w Hd. destruct (Hm w) as (H1 & H2 & H3).
  rewrite fits_empty, Write_empty. simpl. by rewrite H1, H2, H3.
Qed.

Lemma acts_as_write_ret : acts_as_write (se_ret tt) EmptyString.
Proof. apply acts_as_write_stdout. by intros w. Qed.

Lemma acts_as_write_println (l : list string) : acts_as_write (println l) EmptyString.
Proof. apply acts_as_write_stdout. by intros w. Qed.

(** Composition: one write after the other, stopping at the first exit. *)
Lemma acts_as_write_bind (m k : IO unit) (s t : string) :
  acts_as_write m s -> acts_as_write k t -> acts_as_write (se_bind m (fun _ => k)) (s +:+ t).
Proof.
  intros Hm Hk w Hd. unfold se_bind. destruct (Hm w Hd) as (H1 & H2 & H3).
  destruct (m w) as [r w1]; simpl in *.
  destruct (fits s (outfile w)) eqn:Hf; subst r.
  - destruct (Hk w1 H3) as (H4 & H5 & H6). rewrite H2 in H4, H5.
    rewrite (fits_app_ok _ _ _ Hf) in H4. rewrite (Write_app_ok _ _ _ Hf). done.
  - simpl. by rewrite (fits_app_err _ _ _ Hf), (Write_app_err _ _ _ Hf).
Qed.

(** A step that yields [a] and only prints on standard output, then [k a]. *)
Lemma acts_as_write_pre {A} (m : IO A) (a : A) (f : World -> World) (k : A -> IO unit) (s : string) :
  (forall w, m w = (Done a, f w)) -> stdout_only f -> acts_as_write (k a) s ->
  acts_as_write (se_bind m k) s.
Proof.
  intros Hm Hf Hk w Hd. unfold se_bind. rewrite Hm. destruct (Hf w) as [Ho Hd'].
  rewrite <- Ho. apply Hk. congruence.
Qed.

Lemma acts_as_write_iter {A} (f : A -> IO unit) (g : A -> string) (l : list A) :
  Forall (fun x => acts_as_write (f x) (g x)) l ->
  acts_as_write (se_iter f l) (sconcat (map g l)).
Proof.
  induction 1 as [|x l Hx _ IH]; simpl; [apply acts_as_write_ret|].
  by apply acts_as_write_bind.
Qed.

Section RunLemmas.
Context {R : Type} `{Matcher R} (filter : R).

(** Rendering an eligible declaration is one write of its scaffold,
    after diagnostics on standard output only. *)
Lemma render_decl_run (fn : Ast.FuncDecl) (ps : list Param) (rs : list Result) :
  recv_named fn = true ->
  exists f, stdout_only f /\
    forall w, render_decl fn ps rs w = write_dest (scaffold (Ast.Name fn) ps rs) (f w).
Proof.
  unfold recv_named, render_decl. intros Hr.
  destruct (Ast.Recv fn) as [[|f0 recv]|].
  - done.
  - destruct (Ast.Names f0) as [|n ns] eqn:Hn; [done|].
    exists (diag (resolve (Ast.Type_ f0))). split; [auto with gen|]. intros w.
    unfold extract_receiver, se_bind, se_ret. rewrite Hn, typename_run. cbv beta iota.
    unfold Execute. rewrite write_all_sconcat, writes_method_func, writes_func_scaffold. done.
  - exists id. split; [by intros w|]. intros w.
    unfold Execute. rewrite write_all_sconcat, writes_func_scaffold. done.
Qed.

Lemma scaffold_decl_acts (fn : Ast.FuncDecl) (rl : Ast.FieldList) :
  recv_named fn = true ->
  acts_as_write (scaffold_decl fn rl)
    (scaffold (Ast.Name fn) (params_spec (Ast.Params fn)) (results_spec rl)).
Proof.
  intros Hr. unfold scaffold_decl.
  repeat (eapply acts_as_write_pre;
    [apply extract_params_run || apply extract_results_run | auto with gen |]).
  intros w Hd. destruct (render_decl_run fn (params_spec (Ast.Params fn)) (results_spec rl) Hr)
    as (f & Hf & Hrun).
  unfold se_bind. rewrite Hrun. destruct (Hf w) as [Ho Hd2].
  rewrite write_dest_file by congruence. rewrite Write_result, Ho.
  destruct (fits _ (outfile w)); simpl; done.
Qed.

Lemma gen_object_acts (pkg : Ast.Package) (obj : Ast.Object) :
  no_panic filter pkg obj = true -> acts_as_write (gen_object filter pkg obj) (out_text filter pkg obj).
Proof.
  unfold no_panic, gen_object, out_text.
  destruct (classify filter pkg obj); intros Hn;
    try apply acts_as_write_ret; try apply acts_as_write_println; try done.
  by apply scaffold_decl_acts.
Qed.

Lemma run_acts (packages : list Ast.Package) :
  wf_run filter packages -> acts_as_write (run filter packages) (expected filter packages).
Proof.
  intros Hwf. apply acts_as_write_iter.
  eapply Forall_impl; [exact Hwf|]. intros pkg Hp. apply acts_as_write_iter.
  eapply Forall_impl; [exact Hp|]. intros file Hf. apply acts_as_write_iter.
  eapply Forall_impl; [exact Hf|]. intros obj Ho. by apply gen_object_acts.
Qed.

(** On standard output, rendering prints the receiver's diagnostic and
    then the scaffold, on the same stream. *)
Lemma render_decl_out (fn : Ast.FuncDecl) (ps : list Param) (rs : list Result) (w : World) :
  recv_named fn = true -> dest w = DestStdout -> room (stdout w) = None ->
  render_decl fn ps rs w = (Done None, out_app (recv_diag fn +:+ scaffold (Ast.Name fn) ps rs) w).
Proof.
  unfold recv_named, render_decl, recv_diag, Execute. intros Hr Hd Hn.
  destruct (Ast.Recv fn) as [[|f0 recv]|]; [done| |].
  - destruct (Ast.Names f0) as [|n ns] eqn:Hns; [done|].
    unfold extract_receiver, se_bind, se_ret. rewrite Hns, typename_run. cbv beta iota.
    rewrite write_all_sconcat, writes_method_func, writes_func_scaffold, (diag_appends _ w Hn).
    rewrite write_dest_out by done. by rewrite out_app_app.
  - rewrite write_all_sconcat, writes_func_scaffold, write_dest_out by done. done.
Qed.

Lemma scaffold_decl_out (fn : Ast.FuncDecl) (rl : Ast.FieldList) :
  recv_named fn = true ->
  writes_out (scaffold_decl fn rl)
    (params_diag (Ast.Params fn) +:+ results_diag rl +:+ recv_diag fn +:+
     scaffold (Ast.Name fn) (params_spec (Ast.Params fn)) (results_spec rl)).
Proof.
  intros Hr. unfold scaffold_decl.
  eapply writes_out_bind_val; [apply extract_params_run | apply diag_params_appends|].
  eapply writes_out_bind_val; [apply extract_results_run | apply diag_results_appends|].
  intros w Hd Hn. unfold se_bind. rewrite render_decl_out by done. done.
Qed.

Lemma gen_object_out (pkg : Ast.Package) (obj : Ast.Object) :
  no_panic filter pkg obj = true -> writes_out (gen_object filter pkg obj) (out_stdout filter pkg obj).
Proof.
  unfold no_panic, gen_object, out_stdout.
  destruct (classify filter pkg obj); intros Hn; try apply writes_out_ret; try done.
  - apply writes_out_print.
  - by apply scaffold_decl_out.
Qed.

Lemma run_out (packages : list Ast.Package) :
  wf_run filter packages -> writes_out (run filter packages) (expected_stdout filter packages).
Proof.
  intros Hwf. apply writes_out_iter.
  eapply Forall_impl; [exact Hwf|]. intros pkg Hp. apply writes_out_iter.
  eapply Forall_impl; [exact Hp|]. intros file Hf. apply writes_out_iter.
  eapply Forall_impl; [exact Hf|]. intros obj Ho. by apply gen_object_out.
Qed.
End RunLemmas.


(** ** Theorems *)

(** C1: a run that writes to a file on a device with unbounded room
    ends normally and appends to the file exactly [expected]: one
    scaffold, the spec's [scaffold] of the function's name, parameters
    and results, for every eligible object, in the order packages,
    files and scope objects are iterated, and nothing for the others. *)
Theorem run_writes_scaffolds {R} `{Matcher R} (filter : R) (packages : list Ast.Package)
    (w : World) :
  wf_run filter packages -> dest w = DestFile -> room (outfile w) = None ->
  fst (run filter packages w) = Done tt /\
  contents (outfile (snd (run filter packages w))) = contents (outfile w) +:+ expected filter packages.
Proof.
  intros Hwf Hd Hr. destruct (run_acts filter packages Hwf w Hd) as (H1 & H2 & _).
  unfold fits in H1. unfold Write in H2. rewrite Hr in H1, H2. by rewrite H2.
Qed.

(** C3: on a device with [n] bytes of room, a run appends the first [n]
    bytes of [expected] to the file, and ends with [os.Exit(1)] exactly
    when [expected] is longer than [n]; the scaffolds written before the
    failing one stay in the file, and the failing one is cut where the
    device filled up. *)
Theorem run_bounded {R} `{Matcher R} (filter : R) (packages : list Ast.Package)
    (w : World) (n : nat) :
  wf_run filter packages -> dest w = DestFile -> room (outfile w) = Some n ->
  fst (run filter packages w) =
    (if Nat.leb (String.length (expected filter packages)) n then Done tt else Exited 1) /\
  contents (outfile (snd (run filter packages w))) =
    contents (outfile w) +:+ str_take n (expected filter packages).
Proof.
  intros Hwf Hd Hr. destruct (run_acts filter packages Hwf w Hd) as (H1 & H2 & _).
  unfold fits in H1. unfold Write in H2. rewrite Hr in H1, H2. split; [done|].
  rewrite H2. destruct (Nat.leb_spec (String.length (expected filter packages)) n); [|done].
  simpl. by rewrite str_take_length_le.
Qed.

Lemma run_writes_scaffolds_witness :
  wf_run (mkPrefix "Add") [math_pkg] /\ dest to_file = DestFile /\
  room (outfile to_file) = None /\
  fst (run (mkPrefix "Add") [math_pkg] to_file) = Done tt /\
  contents (outfile (snd (run (mkPrefix "Add") [math_pkg] to_file))) =
    expected (mkPrefix "Add") [math_pkg].
Proof.
  assert (Hwf : wf_run (mkPrefix "Add") [math_pkg]) by (repeat constructor).
  destruct (run_writes_scaffolds (mkPrefix "Add") [math_pkg] to_file Hwf eq_refl eq_refl)
    as [H1 H2].
  split; [exact Hwf|]. split; [reflexivity|]. split; [reflexivity|].
  split; [exact H1 | exact H2].
Defined.

Lemma run_bounded_witness :
  wf_run (mkPrefix "Add") [math_pkg] /\ dest small_disk = DestFile /\
  room (outfile small_disk) = Some 1000 /\
  fst (run (mkPrefix "Add") [math_pkg] small_disk) = Exited 1 /\
  contents (outfile (snd (run (mkPrefix "Add") [math_pkg] small_disk))) =
    str_take 1000 (expected (mkPrefix "Add") [math_pkg]).
Proof.
  assert (Hwf : wf_run (mkPrefix "Add") [math_pkg]) by (repeat constructor).
  destruct (run_bounded (mkPrefix "Add") [math_pkg] small_disk 1000 Hwf eq_refl eq_refl)
    as [H1 H2].
  split; [exact Hwf|]. split; [reflexivity|]. split; [reflexivity|].
  split; [rewrite H1; vm_compute; reflexivity | exact H2].
Defined.

(** The filter example of the spec: with the pattern [^Add] over
    [Add], [Add2] and [Subtract] (and a type [AddResult], which is not
    a function), exactly [Add] and [Add2] are scaffolded, in that order. *)
Example filter_scaffolds_Add_and_Add2 :
  expected (mkPrefix "Add") [math_pkg] =
    scaffold "Add" [mkParam "x" "int"; mkParam "y" "int"] [mkParam "int" "int"] +:+
    scaffold "Add2" [mkParam "x" "int"; mkParam "y" "int"] [mkParam "int" "int"].
Proof. vm_compute. reflexivity. Qed.

(** C13: when the destination is standard output (no [-o]) and the
    stream has room, a run ends normally, leaves the output file alone,
    and appends to standard output exactly [expected_stdout]: for every
    object in traversal order, the notice of an invalid position, or the
    diagnostic line of each unsupported type of an eligible declaration
    (the [%T] name [typename] prints) directly followed by its scaffold.
    The diagnostics thus land inside the generated Go source, and the
    scaffold declares the parameters of such types with an empty type. *)
Theorem run_stdout_interleaved {R} `{Matcher R} (filter : R) (packages : list Ast.Package)
    (w : World) :
  wf_run filter packages -> dest w = DestStdout -> room (stdout w) = None ->
  fst (run filter packages w) = Done tt /\
  contents (stdout (snd (run filter packages w))) =
    contents (stdout w) +:+ expected_stdout filter packages /\
  outfile (snd (run filter packages w)) = outfile w.
Proof. intros Hwf Hd Hn. by rewrite (run_out filter packages Hwf w Hd Hn). Qed.

Lemma run_stdout_interleaved_witness :
  wf_run (mkPrefix EmptyString) [sum_pkg] /\ dest to_stdout = DestStdout /\
  room (stdout to_stdout) = None /\
  expected_stdout (mkPrefix EmptyString) [sum_pkg] =
    "*ast.ArrayType" +:+ NL +:+
    scaffold "Sum" [mkParam "xs" EmptyString] [mkParam "int" "int"] /\
  contents (stdout (snd (run (mkPrefix EmptyString) [sum_pkg] to_stdout))) =
    expected_stdout (mkPrefix EmptyString) [sum_pkg].
Proof.
  assert (Hwf : wf_run (mkPrefix EmptyString) [sum_pkg]) by (repeat constructor).
  destruct (run_stdout_interleaved (mkPrefix EmptyString) [sum_pkg] to_stdout Hwf eq_refl eq_refl)
    as (_ & H2 & _).
  split; [exact Hwf|]. split; [reflexivity|]. split; [reflexivity|].
  split; [vm_compute; reflexivity | exact H2].
Defined.

End Driver.
