(* ===== verification/GoParser.v ===== *)
(** * GoParser: the packages [parser.ParseDir] hands to the driver

    [main] parses the package directory with
    [parser.ParseDir(fset, packagePath, filesToIgnore, 0)] (main.go 190).
    [filesToIgnore] (main.go 318-323) is code of the program: despite
    its name it is the filter of the files to KEEP, and it drops every
    [_test.go] file.  The rest is a model of the Go library:
    - [ParseDir] keeps the [.go] files the filter accepts, in directory
      order ([kept]), leaves out those that do not parse, groups the
      others into packages by their package clause, and reports the
      first parse error ([ParseDirErr]);
    - the resolver of [go/parser] declares the top-level objects of a
      file in its scope: every name of a constant, type or variable
      declaration, and a function declaration only when it has no
      receiver and is not named [init] (methods are never declared);
      the blank name [_] is never declared, and a second declaration of
      a name does not replace the first.

    The invariants of parsed objects are proved once, for any property
    of objects that every declaration satisfies ([ParseDir_Forall] in
    Section [ScopeForall]).  The theorems: parsed packages satisfy the
    driver's [wf_run] (the loop never panics on them), and test files
    are invisible to the run, their parse errors included, so scaffolds
    appended to a [_test.go] file of the package are generated again by
    the next run. *)

From Stdlib Require Import String Ascii.
From stdpp Require Import base list strings.
From S2P Require Import Prelude World GoAst TypeName Signature Template Eligibility Driver.

Import Eligible Driver.

Module Parser.

(** The token of a general declaration: [const], [type] or [var]. *)
Inductive GenTok := CONST | TYPE | VAR.

Definition gen_kind (t : GenTok) : Ast.ObjKind :=
  match t with CONST => Ast.Con | TYPE => Ast.Typ | VAR => Ast.Var end.

(** A top-level declaration of a source file ([*ast.FuncDecl] or
    [*ast.GenDecl] with the names its specs declare). *)
Inductive TopDecl :=
| FuncD (fn : Ast.FuncDecl)
| GenD (tok : GenTok) (names : list string).

(** A file of the directory: its name, its package clause, its
    declarations, and the error [parser.ParseFile] reports on it
    ([None] when it parses). *)
Record SrcFile := mkSrcFile {
  SrcName : string;
  SrcPkg : string;
  Decls : list TopDecl;
  SrcErr : option string
}.

(** [func filesToIgnore(info os.FileInfo) bool]. *)
Definition filesToIgnore (name : string) : bool :=
  if HasSuffix name "_test.go" then false else true.

(** The objects the resolver declares for one declaration. *)
Definition decl_objects (d : TopDecl) : list Ast.Object :=
  match d with
  | FuncD fn =>
      match Ast.Recv fn with
      | None =>
          if String.eqb (Ast.Name fn) "init" || String.eqb (Ast.Name fn) "_" then []
          else [Ast.mkObject Ast.Fun (Ast.Name fn) (Ast.FuncDeclNode fn) true]
      | Some _ => []
      end
  | GenD t names =>
      map (fun n => Ast.mkObject (gen_kind t) n Ast.OtherDecl true)
          (filter (fun n => negb (String.eqb n "_")) names)
  end.

(** [scope.Insert]: a name already declared keeps its first object. *)
Definition scope_insert (sc : list Ast.Object) (o : Ast.Object) : list Ast.Object :=
  if existsb (fun o' => String.eqb (Ast.ObjName o') (Ast.ObjName o)) sc then sc else sc ++ [o].

Definition file_scope (decls : list TopDecl) : list Ast.Object :=
  foldl scope_insert [] (flat_map decl_objects decls).

Definition parse_file (f : SrcFile) : Ast.File := Ast.mkFile (SrcName f) (file_scope (Decls f)).

(** Adding a parsed file to the package of its package clause. *)
Fixpoint add_file (pkgs : list Ast.Package) (f : SrcFile) : list Ast.Package :=
  match pkgs with
  | [] => [Ast.mkPackage (SrcPkg f) [parse_file f]]
  | p :: ps =>
      if String.eqb (Ast.PkgName p) (SrcPkg f)
      then Ast.mkPackage (Ast.PkgName p) (Ast.Files p ++ [parse_file f]) :: ps
      else p :: add_file ps f
  end.

(** The entries [parser.ParseDir] parses: the [.go] files the filter
    keeps, in directory order. *)
Definition kept (dir : list SrcFile) (keep : string -> bool) : list SrcFile :=
  filter (fun f => HasSuffix (SrcName f) ".go" && keep (SrcName f)) dir.

Definition parses (f : SrcFile) : bool :=
  match SrcErr f with None => true | Some _ => false end.

(** The packages of [parser.ParseDir(fset, path, filter, 0)]: a file
    that does not parse is left out. *)
Definition ParseDir (dir : list SrcFile) (keep : string -> bool) : list Ast.Package :=
  foldl add_file [] (filter parses (kept dir keep)).

(** The error of [parser.ParseDir]: the first error of a kept file. *)
Definition ParseDirErr (dir : list SrcFile) (keep : string -> bool) : option string :=
  head (omap SrcErr (kept dir keep)).

(** ** A sample directory *)

Definition int_t : Ast.Expr := Ast.Ident "int".

Definition add_go : SrcFile :=
  mkSrcFile "add.go" "main"
    [FuncD (Ast.mkFuncDecl None "Add" [Ast.mkField ["x"; "y"] int_t] (Some [Ast.mkField [] int_t]))]
    None.

(** The file a first run's output was appended to: [TestAdd(t *testing.T)]. *)
Definition add_test_go : SrcFile :=
  mkSrcFile "add_test.go" "main"
    [FuncD (Ast.mkFuncDecl None "TestAdd"
              [Ast.mkField ["t"] (Ast.StarExpr (Ast.SelectorExpr (Ast.Ident "testing") "T"))]
              None)]
    None.

(** ** The invariants of parsed objects *)

(** What the resolver guarantees of a scope object: a function object
    carries a declaration without receiver. *)
Definition parsed_obj (o : Ast.Object) : Prop :=
  Ast.Kind o = Ast.Fun -> exists fn, Ast.Decl o = Ast.FuncDeclNode fn /\ Ast.Recv fn = None.

(** A property of every object of every file of a package. *)
Definition pkg_Forall (P : Ast.Object -> Prop) (p : Ast.Package) : Prop :=
  Forall (fun file => Forall P (Ast.Objects file)) (Ast.Files p).

Section ScopeForall.
Context (P : Ast.Object -> Prop) (HP : forall d, Forall P (decl_objects d)).

Lemma scope_insert_Forall (sc : list Ast.Object) (o : Ast.Object) :
  Forall P sc -> P o -> Forall P (scope_insert sc o).
Proof.
  intros Hsc Ho. unfold scope_insert. destruct (existsb _ sc); [done|].
  apply Forall_app. by split; [|constructor].
Qed.

Lemma foldl_scope_Forall (sc l : list Ast.Object) :
  Forall P sc -> Forall P l -> Forall P (foldl scope_insert sc l).
Proof.
  revert sc; induction l as [|o l IH]; intros sc Hsc Hl; simpl; [done|].
  inversion Hl; subst. apply IH; [by apply scope_insert_Forall | done].
Qed.

Lemma file_scope_Forall (decls : list TopDecl) : Forall P (file_scope decls).
Proof.
  apply foldl_scope_Forall; [constructor|].
  apply Forall_flat_map, Forall_forall. intros d _. apply HP.
Qed.

Lemma add_file_Forall (pkgs : list Ast.Package) (f : SrcFile) :
  Forall (pkg_Forall P) pkgs -> Forall (pkg_Forall P) (add_file pkgs f).
Proof.
  induction 1 as [|p ps Hp Hps IH]; simpl.
  - constructor; [|constructor]. unfold pkg_Forall; simpl.
    constructor; [apply file_scope_Forall | constructor].
  - destruct (String.eqb _ _); constructor; try done.
    unfold pkg_Forall in *; simpl. apply Forall_app. split; [done|].
    constructor; [apply file_scope_Forall | constructor].
Qed.

Lemma ParseDir_Forall (dir : list SrcFile) (keep : string -> bool) :
  Forall (pkg_Forall P) (ParseDir dir keep).
Proof.
  unfold ParseDir. generalize (filter parses (kept dir keep)).
  intros l. assert (Forall (pkg_Forall P) (@nil Ast.Package)) as H0 by constructor.
  revert H0. generalize (@nil Ast.Package). induction l as [|f l IH]; intros pkgs H0; simpl; [done|].
  apply IH, add_file_Forall, H0.
Qed.

End ScopeForall.

Lemma decl_objects_parsed (d : TopDecl) : Forall parsed_obj (decl_objects d).
Proof.
  destruct d as [fn|k names]; simpl.
  - destruct (Ast.Recv fn) eqn:Hr; [constructor|].
    destruct (_ || _); repeat constructor. intros _. by exists fn.
  - apply Forall_forall. intros o Ho. apply list_elem_of_In, in_map_iff in Ho as (n & <- & _).
    intros Hk. by destruct k.
Qed.

Lemma ParseDir_parsed (dir : list SrcFile) (keep : string -> bool) :
  Forall (pkg_Forall parsed_obj) (ParseDir dir keep).
Proof. apply ParseDir_Forall, decl_objects_parsed. Qed.

Lemma no_panic_parsed {R} `{Matcher R} (m : R) (pkg : Ast.Package) (obj : Ast.Object) :
  parsed_obj obj -> no_panic m pkg obj = true.
Proof.
  intros Hp. pose proof (classify_decl m pkg obj) as Hc. unfold no_panic.
  destruct (classify m pkg obj) as [| | | | | | |fn rl]; try done.
  - destruct Hc as [Hk Hd]. destruct (Hp Hk) as (fn & Hd' & _). congruence.
  - destruct Hc as [Hk Hd]. destruct (Hp Hk) as (fn' & Hd' & Hr).
    rewrite Hd in Hd'. injection Hd' as <-. unfold recv_named. by rewrite Hr.
Qed.

(** Parsed packages meet the driver's precondition. *)
Lemma ParseDir_wf {R} `{Matcher R} (m : R) (dir : list SrcFile) (keep : string -> bool) :
  wf_run m (ParseDir dir keep).
Proof.
  eapply Forall_impl; [apply ParseDir_parsed|]. intros pkg Hp.
  eapply Forall_impl; [exact Hp|]. intros file Hf.
  eapply Forall_impl; [exact Hf|]. intros obj Ho. by apply no_panic_parsed.
Qed.

(** A file that [filesToIgnore] rejects is not among the kept files. *)
Lemma kept_skip (d1 d2 : list SrcFile) (f : SrcFile) :
  filesToIgnore (SrcName f) = false ->
  kept (d1 ++ f :: d2) filesToIgnore = kept (d1 ++ d2) filesToIgnore.
Proof.
  intros Hf. unfold kept. rewrite !filter_app. f_equal.
  rewrite filter_cons_False; [done|]. rewrite Hf, andb_false_r. intros [].
Qed.

(** ** Theorems *)

(** C14: the packages [ParseDir] produces meet the driver's
    precondition [wf_run] for every filter: the type assertion never
    fails and every scaffolded declaration has no receiver to index,
    so the driver's theorems C1 and C3 apply to every parsed directory. *)
Theorem parsed_packages_wf {R} `{Matcher R} (m : R) (dir : list SrcFile) :
  wf_run m (ParseDir dir filesToIgnore).
Proof. apply ParseDir_wf. Qed.

(** C15: a [_test.go] file of the directory is invisible to a run:
    [filesToIgnore] keeps it out of [ParseDir], so its declarations,
    including tests the program generated earlier, are never seen by
    [packageContains], and a syntax error in it is not reported. *)
Theorem test_file_invisible (d1 d2 : list SrcFile) (tf : SrcFile) :
  HasSuffix (SrcName tf) "_test.go" = true ->
  ParseDir (d1 ++ tf :: d2) filesToIgnore = ParseDir (d1 ++ d2) filesToIgnore /\
  ParseDirErr (d1 ++ tf :: d2) filesToIgnore = ParseDirErr (d1 ++ d2) filesToIgnore.
Proof.
  intros Ht. unfold ParseDir, ParseDirErr.
  rewrite kept_skip; [done|]. unfold filesToIgnore. by rewrite Ht.
Qed.

(** A [_test.go] file that does not parse. *)
Definition broken_test_go : SrcFile :=
  mkSrcFile "broken_test.go" "main" [] (Some "broken_test.go:3:1: expected declaration").

Lemma test_file_invisible_witness :
  HasSuffix (SrcName broken_test_go) "_test.go" = true /\
  (ParseDir ([add_go] ++ broken_test_go :: []) filesToIgnore = ParseDir ([add_go] ++ []) filesToIgnore /\
   ParseDirErr ([add_go] ++ broken_test_go :: []) filesToIgnore = ParseDirErr ([add_go] ++ []) filesToIgnore).
Proof.
  assert (Ht : HasSuffix (SrcName broken_test_go) "_test.go" = true) by reflexivity.
  split; [exact Ht | exact (test_file_invisible [add_go] [] broken_test_go Ht)].
Defined.

End Parser.
