(* ===== verification/GoPath.v ===== *)
(** * GoPath: the path and environment functions [main] calls

    A model of the Go library functions main.go 170-181 uses to resolve
    the package path: [path.IsAbs], [path.Clean], [path.Join] and
    [os.ExpandEnv] (that is, [os.Expand] with [os.Getenv]).  They are
    library code, transcribed from the Go sources of [path/path.go] and
    [os/env.go]:
    - [Clean] works on the slash-separated elements ([strings.Split]),
      dropping empty and [.] elements and cancelling [..] against the
      previous element, which is what the byte loop of [path.Clean]
      computes;
    - [Expand] is the loop of [os.Expand] with [getShellName]; it is
      written with fuel, and [Expand_fuel_enough] shows that the length
      of the string is enough fuel and more changes nothing. *)

From Stdlib Require Import String Ascii.
From stdpp Require Import base list strings.
From S2P Require Import Prelude.

Module GoPath.

(** [path.IsAbs]: [len(path) > 0 && path[0] == '/']. *)
Definition IsAbs (p : string) : bool := HasPrefix p "/".

(** [strings.Split(s, "/")]. *)
Fixpoint Split (s : string) : list string :=
  match s with
  | EmptyString => [EmptyString]
  | String c r =>
      if Ascii.eqb c "/" then EmptyString :: Split r
      else match Split r with
           | [] => [String c EmptyString]
           | x :: xs => String c x :: xs
           end
  end.

(** One element of the loop of [path.Clean]; [out] is the cleaned path
    so far, last element first. *)
Definition clean_elem (rooted : bool) (out : list string) (e : string) : list string :=
  if String.eqb e "" || String.eqb e "." then out
  else if String.eqb e ".." then
    match out with
    | x :: out' => if String.eqb x ".." then ".." :: out else out'
    | [] => if rooted then [] else [".."]
    end
  else e :: out.

(** [path.Clean]. *)
Definition Clean (p : string) : string :=
  if String.eqb p "" then "."
  else
    let rooted := IsAbs p in
    let r := String.concat "/" (rev (foldl (clean_elem rooted) [] (Split p))) in
    if rooted then "/" +:+ r
    else if String.eqb r "" then "." else r.

(** [path.Join(elem...)]: the non-empty elements joined by slashes,
    starting from the first non-empty one, then cleaned. *)
Definition Join (elem : list string) : string :=
  if forallb (fun e => String.eqb e "") elem then EmptyString
  else Clean (foldl (fun buf e =>
                if negb (String.eqb buf "") || negb (String.eqb e "") then
                  (if String.eqb buf "" then buf else buf +:+ "/") +:+ e
                else buf) EmptyString elem).

(** [isShellSpecialVar]: [*#$@!?-] and the digits. *)
Definition isShellSpecialVar (c : ascii) : bool :=
  existsb (Ascii.eqb c) ["*"; "#"; "$"; "@"; "!"; "?"; "-"]%char ||
  (Nat.leb 48 (nat_of_ascii c) && Nat.leb (nat_of_ascii c) 57).

(** [isAlphaNum]: [_], a digit or an ASCII letter. *)
Definition isAlphaNum (c : ascii) : bool :=
  let n := nat_of_ascii c in
  Ascii.eqb c "_" || (Nat.leb 48 n && Nat.leb n 57) ||
  (Nat.leb 65 n && Nat.leb n 90) || (Nat.leb 97 n && Nat.leb n 122).

Fixpoint alnum_prefix (s : string) : string :=
  match s with
  | String c r => if isAlphaNum c then String c (alnum_prefix r) else EmptyString
  | EmptyString => EmptyString
  end.

(** The text between [{] and the first [}], if there is a [}]. *)
Fixpoint brace_name (s : string) : option string :=
  match s with
  | EmptyString => None
  | String c r => if Ascii.eqb c "}" then Some EmptyString else option_map (String c) (brace_name r)
  end.

(** The scan of [getShellName] for a closing brace, [r] following [{]:
    [${}] is bad syntax of width 2, a missing [}] bad syntax of width 1. *)
Definition brace_scan (r : string) : string * nat :=
  match brace_name r with
  | Some EmptyString => (EmptyString, 2)
  | Some n => (n, String.length n + 2)
  | None => (EmptyString, 1)
  end.

(** [getShellName(s)]: the variable name after a [$] and the number of
    bytes it takes; an empty name with a positive width is bad syntax. *)
Definition getShellName (s : string) : string * nat :=
  match s with
  | String b r =>
      if Ascii.eqb b "{" then
        match r with
        | String c (String e _) =>
            if isShellSpecialVar c && Ascii.eqb e "}" then (String c EmptyString, 3)
            else brace_scan r
        | _ => brace_scan r
        end
      else if isShellSpecialVar b then (String b EmptyString, 1)
      else let n := alnum_prefix s in (n, String.length n)
  | EmptyString => (EmptyString, 0)
  end.

(** The loop of [os.Expand(s, mapping)]: a [$] followed by at least one
    byte is replaced by the mapping of the name after it. *)
Fixpoint Expand_fuel (fuel : nat) (mapping : string -> string) (s : string) : string :=
  match fuel with
  | 0 => s
  | S f =>
      match s with
      | EmptyString => EmptyString
      | String c r =>
          if Ascii.eqb c "$" && negb (String.eqb r "") then
            let (name, w) := getShellName r in
            (if String.eqb name "" then (if Nat.eqb w 0 then "$" else EmptyString)
             else mapping name)
            +:+ Expand_fuel f mapping (String.substring w (String.length r - w) r)
          else String c (Expand_fuel f mapping r)
      end
  end.

Definition Expand (mapping : string -> string) (s : string) : string :=
  Expand_fuel (String.length s) mapping s.

(** [os.ExpandEnv(s)] with the process environment [getenv]. *)
Definition ExpandEnv (getenv : string -> string) (s : string) : string := Expand getenv s.

(** ** Lemmas *)

Lemma substring_length_le (n m : nat) (s : string) : String.length (String.substring n m s) <= m.
Proof.
  revert n m; induction s as [|c s IH]; intros [|n] [|m]; simpl; try lia; try apply IH.
  specialize (IH 0 m). lia.
Qed.

Lemma substring_all (r : string) : String.substring 0 (String.length r) r = r.
Proof. induction r as [|c r IH]; simpl; congruence. Qed.

Lemma substring_sapp (p r : string) :
  String.substring (String.length p) (String.length r) (p +:+ r) = r.
Proof. induction p as [|c p IH]; simpl; [apply substring_all | done]. Qed.

(** The width [getShellName] reports never exceeds its argument. *)
Lemma brace_name_length (s n : string) :
  brace_name s = Some n -> String.length n + 1 <= String.length s.
Proof.
  revert n; induction s as [|c s IH]; intros n; simpl; [done|].
  destruct (Ascii.eqb c "}"); [intros [= <-]; simpl; lia|].
  destruct (brace_name s) as [m|]; simpl; [|done]. intros [= <-]. simpl.
  specialize (IH m eq_refl). lia.
Qed.

Lemma alnum_prefix_length (s : string) : String.length (alnum_prefix s) <= String.length s.
Proof. induction s as [|c s IH]; simpl; [lia|]. destruct (isAlphaNum c); simpl; lia. Qed.

Lemma brace_scan_width (r : string) : snd (brace_scan r) <= S (String.length r).
Proof.
  unfold brace_scan. destruct (brace_name r) as [[|c n]|] eqn:Hn; simpl; try lia;
    apply brace_name_length in Hn; simpl in *; lia.
Qed.

Lemma getShellName_width (s : string) : snd (getShellName s) <= String.length s.
Proof.
  destruct s as [|b r]; simpl; [lia|].
  pose proof (alnum_prefix_length (String b r)) as Ha. pose proof (brace_scan_width r) as Hb.
  destruct (Ascii.eqb b "{").
  - destruct r as [|c [|e r']]; try exact Hb.
    destruct (isShellSpecialVar c && Ascii.eqb e "}"); [simpl; lia | exact Hb].
  - destruct (isShellSpecialVar b); simpl in *; lia.
Qed.

Lemma IsAbs_slash (x : string) : IsAbs (String "/" x) = true.
Proof. unfold IsAbs. cbn. rewrite bool_decide_true by done. by destruct x. Qed.

(** Fuel: the length of the string is enough, and more changes nothing. *)
Lemma Expand_fuel_enough (f1 f2 : nat) (m : string -> string) (s : string) :
  String.length s <= f1 -> String.length s <= f2 -> Expand_fuel f1 m s = Expand_fuel f2 m s.
Proof.
  revert f2 s; induction f1 as [|f1 IH]; intros f2 s H1 H2.
  - destruct s; [|simpl in H1; lia]. by destruct f2.
  - destruct s as [|c r]; [by destruct f2|]. destruct f2 as [|f2]; [simpl in H2; lia|].
    simpl in H1, H2. cbn [Expand_fuel].
    destruct (Ascii.eqb c "$" && negb (String.eqb r "")).
    + pose proof (getShellName_width r) as Hw. destruct (getShellName r) as [name w].
      simpl in Hw. f_equal. apply IH;
        pose proof (substring_length_le w (String.length r - w) r); lia.
    + f_equal. apply IH; lia.
Qed.

(** One iteration of the loop of [os.Expand], at a [$] and elsewhere. *)
Lemma Expand_fuel_dollar (f : nat) (m : string -> string) (r name : string) (w : nat) :
  r <> EmptyString -> getShellName r = (name, w) ->
  Expand_fuel (S f) m (String "$" r) =
    (if String.eqb name "" then (if Nat.eqb w 0 then "$" else EmptyString) else m name)
    +:+ Expand_fuel f m (String.substring w (String.length r - w) r).
Proof.
  intros Hr Hg. cbn [Expand_fuel]. rewrite Hg.
  by destruct r; [|simpl].
Qed.

Lemma Expand_fuel_other (f : nat) (m : string -> string) (c : ascii) (r : string) :
  Ascii.eqb c "$" = false -> Expand_fuel (S f) m (String c r) = String c (Expand_fuel f m r).
Proof. intros Hc. cbn [Expand_fuel]. by rewrite Hc. Qed.

(** Expanding a string that starts with [$GOPATH/]. *)
Lemma ExpandEnv_GOPATH (getenv : string -> string) (r : string) :
  ExpandEnv getenv ("$GOPATH/" +:+ r) = getenv "GOPATH" +:+ String "/" (ExpandEnv getenv r).
Proof.
  unfold ExpandEnv, Expand.
  change ("$GOPATH/" +:+ r)%string with (String "$" ("GOPATH" +:+ "/" +:+ r)).
  change (String.length (String "$" ("GOPATH" +:+ "/" +:+ r)))
    with (S (String.length ("GOPATH" +:+ "/" +:+ r))).
  rewrite (Expand_fuel_dollar _ _ _ "GOPATH" 6); [|done|done]. cbn [String.eqb]. f_equal.
  replace (String.length ("GOPATH" +:+ "/" +:+ r) - 6)
    with (String.length ("/" +:+ r)) by (rewrite !length_sapp; simpl; lia).
  change 6 with (String.length "GOPATH"). rewrite substring_sapp.
  change ("/" +:+ r)%string with (String "/" r).
  rewrite length_sapp. change (String.length "GOPATH") with 6. cbn [String.length].
  replace (6 + S (String.length r)) with (S (6 + String.length r)) by lia.
  rewrite Expand_fuel_other by done. f_equal. apply Expand_fuel_enough; lia.
Qed.

End GoPath.
