(* ===== verification/GoFlag.v ===== *)
(** * GoFlag: the command line parser of package [flag]

    [main] parses [os.Args[1:]] with [flag.CommandLine], initialised with
    [flag.ContinueOnError] (main.go 138-139), after [init] registered
    four string flags (main.go 129-135, modelled in [Config]).  This file
    is a model of [FlagSet.Parse] and [parseOne] of the Go library
    for a flag set whose flags all take a string value: it is generic
    in the flag table ([formal]) and in how a value is stored ([set]).

    [parseOne] consumes one argument, or two when the value of a flag
    is the next argument, so [Parse] recurses structurally on the list
    of arguments.  The lemmas show when [Parse] stops ([Parse_stops])
    and that a command line [render]ed from flag settings parses back
    to them ([Parse_render]).

    On an error, [Parse] writes a report to standard error ([report]):
    [failf] prints the message, and both [failf] and [-h] call the
    usage function of [flag.CommandLine], which prints [Usage of]
    [os.Args[0]] and [PrintDefaults]: one line per flag, in the order
    of [sortFlags], with the type name of [UnquoteUsage] and the
    default quoted by [strconv.Quote].  [sortFlags] is proved to sort
    its input ([sortFlags_sorted], [sortFlags_perm]). *)

From Stdlib Require Import String Ascii.
From stdpp Require Import base list strings.
From Stdlib Require Import Sorting.Sorted Sorting.Permutation.
From S2P Require Import Prelude World.

Local Open Scope se_scope.

Module GoFlag.

(** The errors [Parse] returns: [flag.ErrHelp], or the error built by
    [failf] with its message. *)
Inductive ParseError :=
| ErrHelp
| Failf (msg : string).

(** [name=value] split at the first [=] after the first byte. *)
Fixpoint split_eq (s : string) : string * option string :=
  match s with
  | EmptyString => (EmptyString, None)
  | String c r =>
      if Ascii.eqb c "=" then (EmptyString, Some r)
      else let (n, v) := split_eq r in (String c n, v)
  end.

Definition split_value (name : string) : string * option string :=
  match name with
  | String c r => let (n, v) := split_eq r in (String c n, v)
  | EmptyString => (EmptyString, None)
  end.

(** [len(name) == 0 || name[0] == '-' || name[0] == '=']. *)
Definition bad_syntax (name : string) : bool :=
  match name with
  | EmptyString => true
  | String c _ => Ascii.eqb c "-" || Ascii.eqb c "="
  end.

Section Parse.
Context {V S : Type} (formal : string -> option V) (set : V -> string -> S -> S).

(** [FlagSet.Parse]: the values set and the arguments left after
    the flags ([f.args]), or the error of the first bad argument. *)
Fixpoint Parse (st : S) (args : list string) : (S * list string) + ParseError :=
  match args with
  | [] => inl (st, [])
  | s :: rest =>
      match s with
      | String d0 (String d1 t) =>
          if negb (Ascii.eqb d0 "-") then inl (st, args)
          else if Ascii.eqb d1 "-" && String.eqb t "" then inl (st, rest)  (** ["--"] *)
          else
            let name0 := if Ascii.eqb d1 "-" then t else String d1 t in
            if bad_syntax name0 then inr (Failf ("bad flag syntax: " +:+ s))
            else
              let (name, value) := split_value name0 in
              match formal name with
              | None =>
                  if String.eqb name "help" || String.eqb name "h" then inr ErrHelp
                  else inr (Failf ("flag provided but not defined: -" +:+ name))
              | Some v =>
                  match value with
                  | Some x => Parse (set v x st) rest
                  | None =>
                      match rest with
                      | x :: rest' => Parse (set v x st) rest'
                      | [] => inr (Failf ("flag needs an argument: -" +:+ name))
                      end
                  end
              end
      | _ => inl (st, args)   (** [len(s) < 2]: not a flag *)
      end
  end.

End Parse.

(** [flag.Arg(0)]: the first argument after the flags, or [""]. *)
Definition Arg0 (rest : list string) : string :=
  match rest with
  | x :: _ => x
  | [] => EmptyString
  end.

(** ** The usage message *)

(** [flag.Flag] of a string flag: its name, its usage text and the
    default it was registered with ([Value], the variable, is held by
    the client). *)
Record Flag := mkFlag { Name : string; Usage : string; DefValue : string }.

(** [strings.Compare(a.Name, b.Name) <= 0]: bytewise. *)
Definition name_le (a b : Flag) : bool := String.leb (Name a) (Name b).

Fixpoint insert_flag (f : Flag) (l : list Flag) : list Flag :=
  match l with
  | [] => [f]
  | g :: l' => if name_le f g then f :: l else g :: insert_flag f l'
  end.

(** [sortFlags]: the flags in lexicographical order of their names. *)
Fixpoint sortFlags (l : list Flag) : list Flag :=
  match l with
  | [] => []
  | f :: l' => insert_flag f (sortFlags l')
  end.

(** The text up to the next back quote, and what follows it. *)
Fixpoint upto_bq (s : string) : option (string * string) :=
  match s with
  | EmptyString => None
  | String c r =>
      if Ascii.eqb c "`" then Some (EmptyString, r)
      else option_map (fun '(n, r') => (String c n, r')) (upto_bq r)
  end.

(** The name between the first two back quotes of a usage text, and the
    text with the back quotes removed. *)
Fixpoint unquote (s : string) : option (string * string) :=
  match s with
  | EmptyString => None
  | String c r =>
      if Ascii.eqb c "`" then
        match upto_bq r with
        | Some (n, r') => Some (n, n +:+ r')
        | None => None
        end
      else option_map (fun '(n, u) => (n, String c u)) (unquote r)
  end.

(** [flag.UnquoteUsage] of a string flag: without a back-quoted name
    the name is the type, [string]. *)
Definition UnquoteUsage (f : Flag) : string * string :=
  match unquote (Usage f) with
  | Some p => p
  | None => ("string", Usage f)
  end.

(** [strings.ReplaceAll(usage, "\n", "\n    \t")]. *)
Fixpoint indent_usage (s : string) : string :=
  match s with
  | EmptyString => EmptyString
  | String c r =>
      if Ascii.eqb c (ascii_of_nat 10) then NL +:+ "    " +:+ TAB +:+ indent_usage r
      else String c (indent_usage r)
  end.

Definition hex_digit (n : nat) : string :=
  String (nth n (list_ascii_of_string "0123456789abcdef") "0"%char) EmptyString.

(** The escape [strconv.Quote] writes for one byte of an ASCII string. *)
Definition quote_char (c : ascii) : string :=
  let n := nat_of_ascii c in
  if (n =? 34) || (n =? 92) then String "\" (String c EmptyString)
  else if (32 <=? n) && (n <=? 126) then String c EmptyString
  else if n =? 7 then "\a" else if n =? 8 then "\b" else if n =? 12 then "\f"
  else if n =? 10 then "\n" else if n =? 13 then "\r" else if n =? 9 then "\t"
  else if n =? 11 then "\v"
  else "\x" +:+ hex_digit (n / 16) +:+ hex_digit (n mod 16).

(** [strconv.Quote], the verb [%q] of a string. *)
Definition Quote (s : string) : string :=
  DQ +:+ sconcat (map quote_char (list_ascii_of_string s)) +:+ DQ.

(** The line [PrintDefaults] writes for one flag. *)
Definition flag_line (f : Flag) : string :=
  let (name, usage) := UnquoteUsage f in
  let s := "  -" +:+ Name f +:+ (if String.eqb name "" then EmptyString else " " +:+ name) in
  s +:+ (if String.length s <=? 4 then TAB else NL +:+ "    " +:+ TAB) +:+ indent_usage usage
    +:+ (if String.eqb (DefValue f) "" then EmptyString
         else " (default " +:+ Quote (DefValue f) +:+ ")")
    +:+ NL.

(** [FlagSet.PrintDefaults] on [os.Stderr]: one [Fprint] per flag, in
    the order of [VisitAll]. *)
Definition PrintDefaults (fl : list Flag) : IO unit :=
  se_iter (fun f => eprint (flag_line f)) (sortFlags fl).

(** [flag.Usage], which [flag.CommandLine] calls: it names the program
    by [os.Args[0]], not by the name given to [Init]. *)
Definition CommandLineUsage (prog : string) (fl : list Flag) : IO unit :=
  eprint ("Usage of " +:+ prog +:+ ":" +:+ NL) ;;;
  PrintDefaults fl.

(** What [Parse] writes to standard error before it returns an error:
    [failf] prints the message and calls the usage function; [-h] and
    [-help] call the usage function alone. *)
Definition report (prog : string) (fl : list Flag) (e : ParseError) : IO unit :=
  match e with
  | ErrHelp => CommandLineUsage prog fl
  | Failf m => eprint (m +:+ NL) ;;; CommandLineUsage prog fl
  end.

(** The test of [parseOne] that ends the flags:
    [len(s) < 2 || s[0] != '-'] fails. *)
Definition is_flag (s : string) : bool :=
  match s with
  | String d0 (String _ _) => Ascii.eqb d0 "-"
  | _ => false
  end.

(** A list of arguments that [Parse] leaves as it is. *)
Definition stops (args : list string) : bool :=
  match args with
  | [] => true
  | s :: _ => negb (is_flag s)
  end.

(** The command line that sets each flag [n] of [l] to [x] with the
    two-argument form [-n x]. *)
Definition render (l : list (string * string)) : list string :=
  flat_map (fun '(n, x) => ["-" +:+ n; x]) l.

(** ** Lemmas *)

Section ParseLemmas.
Context {V S : Type} (formal : string -> option V) (set : V -> string -> S -> S).

(** A flag name written well: not empty, not starting with [-] or [=],
    without [=], and defined. *)
Definition good_name (n : string) (v : V) : Prop :=
  bad_syntax n = false /\ split_value n = (n, None) /\ formal n = Some v.

Lemma Parse_stops (st : S) (args : list string) :
  stops args = true -> Parse formal set st args = inl (st, args).
Proof.
  destruct args as [|s rest]; [done|]. simpl.
  destruct s as [|d0 [|d1 t]]; simpl; [done|done|]. by intros ->.
Qed.

(** One flag [-n x]. *)
Lemma Parse_flag (st : S) (n x : string) (v : V) (rest : list string) :
  good_name n v -> Parse formal set st (("-" +:+ n) :: x :: rest) = Parse formal set (set v x st) rest.
Proof.
  intros (Hb & Hs & Hf). destruct n as [|d1 t]; [done|]. cbn [String.append Parse].
  assert (Hd : Ascii.eqb d1 "-" = false) by (simpl in Hb; by destruct (Ascii.eqb d1 "-")).
  rewrite Hd. cbn [negb andb Ascii.eqb]. rewrite Hb, Hs, Hf. done.
Qed.

(** Parsing a rendered command line sets the flags in order and leaves
    the arguments after them. *)
Lemma Parse_render (st : S) (l : list (string * string)) (rest : list string) (val : string -> V) :
  Forall (fun '(n, _) => good_name n (val n)) l ->
  Parse formal set st (render l ++ rest) =
    Parse formal set (foldl (fun st '(n, x) => set (val n) x st) st l) rest.
Proof.
  revert st. induction l as [|[n x] l IH]; intros st Hl; [done|].
  apply Forall_cons in Hl as [Hn Hl]. cbn [render flat_map foldl app].
  rewrite (Parse_flag st n x (val n) _ Hn). by apply IH.
Qed.

End ParseLemmas.

(** [sortFlags] returns the flags it is given, sorted by name. *)
Lemma insert_flag_perm (f : Flag) (l : list Flag) : Permutation (insert_flag f l) (f :: l).
Proof.
  induction l as [|g l IH]; simpl; [done|].
  destruct (name_le f g); [done|]. rewrite IH. apply perm_swap.
Qed.

Lemma sortFlags_perm (l : list Flag) : Permutation (sortFlags l) l.
Proof. induction l as [|f l IH]; simpl; [done|]. by rewrite insert_flag_perm, IH. Qed.

Lemma name_le_total (a b : Flag) : name_le a b = false -> name_le b a = true.
Proof. unfold name_le. destruct (String.leb_total (Name a) (Name b)); congruence. Qed.

Lemma insert_flag_sorted (f : Flag) (l : list Flag) :
  Sorted (fun a b => name_le a b = true) l -> Sorted (fun a b => name_le a b = true) (insert_flag f l).
Proof.
  induction 1 as [|g l Hs IH Hhd]; simpl; [by repeat constructor|].
  destruct (name_le f g) eqn:Hfg; [by repeat constructor|].
  constructor; [exact IH|]. apply name_le_total in Hfg.
  destruct l as [|h l]; simpl; [by constructor|].
  destruct (name_le f h); constructor; [done|]. by inversion Hhd.
Qed.

Lemma sortFlags_sorted (l : list Flag) : Sorted (fun a b => name_le a b = true) (sortFlags l).
Proof. induction l as [|f l IH]; simpl; [constructor | by apply insert_flag_sorted]. Qed.

Lemma report_err_only (prog : string) (fl : list Flag) (e : ParseError) : err_only (report prog fl e).
Proof. unfold report, CommandLineUsage, PrintDefaults. destruct e; auto 10 with gen. Qed.

Lemma PrintDefaults_err_only (fl : list Flag) : err_only (PrintDefaults fl).
Proof. unfold PrintDefaults. auto with gen. Qed.

(** What the usage functions write on an unbounded standard error. *)
Lemma PrintDefaults_writes (fl : list Flag) :
  writes_err (PrintDefaults fl) (sconcat (map flag_line (sortFlags fl))).
Proof. apply writes_err_iter. intros f. apply writes_err_eprint. Qed.

Lemma report_writes (prog : string) (fl : list Flag) (e : ParseError) :
  writes_err (report prog fl e)
    ((match e with ErrHelp => EmptyString | Failf m => m +:+ NL end) +:+
     "Usage of " +:+ prog +:+ ":" +:+ NL +:+ sconcat (map flag_line (sortFlags fl))).
Proof.
  assert (HU : writes_err (CommandLineUsage prog fl)
                 ("Usage of " +:+ prog +:+ ":" +:+ NL +:+ sconcat (map flag_line (sortFlags fl)))).
  { unfold CommandLineUsage. rewrite !sapp_assoc.
    apply writes_err_bind; [apply writes_err_eprint | apply PrintDefaults_writes]. }
  destruct e as [|m]; [by rewrite sapp_nil_l|].
  apply writes_err_bind; [apply writes_err_eprint | exact HU].
Qed.

End GoFlag.
