(* ===== verification/RegexSyntax.v ===== *)
(** * RegexSyntax: [regexp.Compile], the parser of [regexp/syntax]

    A model of [regexp/syntax.Parse] with the flags [regexp.Compile]
    passes ([Perl]: [ClassNL], [OneLine], [PerlX], [UnicodeGroups]), on
    patterns and texts of ASCII bytes.  The parser is Go's loop
    [for t != "" { switch t[0] ... }]: [parse_step] is one iteration,
    over a stack of expressions and of the markers of [(] and [|]; a
    [|] or [)] concatenates the expressions above the nearest marker
    ([concat]), a [)] or the end of the input builds the alternation
    ([alternate]).  Character classes are parsed by the loop of
    [parseClass] ([class_step]).  Both loops run in [loop] with as
    much fuel as the text has bytes; every step consumes a byte
    ([parse_step_shorter], [class_step_shorter]), so the fuel never runs
    out and the result does not depend on it ([loop_fuel]).

    Covered: literals, [.], [^], [$], groups, [|], [*], [+], [?] and
    their non-greedy forms, counted repetitions [{n}], [{n,}], [{n,m}]
    (a [{] that does not start one is a literal) with the limit 1000
    and the nesting check of [repeatIsValid], character classes with
    ranges, negation, POSIX classes [[:alpha:]] and Perl classes [\d],
    [\s], [\w] and their negations, the escapes of punctuation, of C
    ([\a\f\n\r\t\v]), octal and hexadecimal escapes, [\A] and [\z].
    The errors are Go's, with Go's messages.  Outside the model, and
    reported as [unsupported]: flags and named groups [(?...)], word
    boundaries [\b] [\B], [\Q...\E], Unicode classes [\p], and runes
    beyond ASCII (in a class, a literal or an escape). *)

From Stdlib Require Import String Ascii ZArith.
From stdpp Require Import base list strings.
From S2P Require Import Prelude.

Module RegexSyntax.

(** A rune range [lo-hi] of a character class. *)
Definition range : Type := N * N.

Inductive re :=
| EmptyMatch
| Lit (c : ascii)
| CharClass (neg : bool) (rs : list range)
| AnyCharNotNL
| BeginText
| EndText
| Concat (a b : re)
| Alternate (a b : re)
| Star (r : re)
| Plus (r : re)
| Quest (r : re)
| Repeat (r : re) (min : nat) (max : option nat).

(** ** Character groups (perl_groups.go) *)

Definition MaxRune : N := 1114111.

(** [appendNegatedClass]: the runes of [0, MaxRune] outside the sorted
    ranges. *)
Fixpoint negate_from (nextLo : N) (rs : list range) : list range :=
  match rs with
  | [] => if (nextLo <=? MaxRune)%N then [(nextLo, MaxRune)] else []
  | (lo, hi) :: rs' =>
      (if (nextLo <? lo)%N then [(nextLo, (lo - 1)%N)] else []) ++ negate_from (hi + 1)%N rs'
  end.

(** [appendGroup]: a group of sign [+1] ([true]) or [-1] ([false]). *)
Definition append_group (cls : list range) (g : bool * list range) : list range :=
  if g.1 then cls ++ g.2 else cls ++ negate_from 0 g.2.

Definition perl_group (c : ascii) : option (bool * list range) :=
  let code1 := [(48, 57)]%N in
  let code2 := [(9, 10); (12, 13); (32, 32)]%N in
  let code3 := [(48, 57); (65, 90); (95, 95); (97, 122)]%N in
  if Ascii.eqb c "d" then Some (true, code1) else if Ascii.eqb c "D" then Some (false, code1)
  else if Ascii.eqb c "s" then Some (true, code2) else if Ascii.eqb c "S" then Some (false, code2)
  else if Ascii.eqb c "w" then Some (true, code3) else if Ascii.eqb c "W" then Some (false, code3)
  else None.

Definition posix_groups : list (string * list range) :=
  [("alnum", [(48, 57); (65, 90); (97, 122)]);
   ("alpha", [(65, 90); (97, 122)]);
   ("ascii", [(0, 127)]);
   ("blank", [(9, 9); (32, 32)]);
   ("cntrl", [(0, 31); (127, 127)]);
   ("digit", [(48, 57)]);
   ("graph", [(33, 126)]);
   ("lower", [(97, 122)]);
   ("print", [(32, 126)]);
   ("punct", [(33, 47); (58, 64); (91, 96); (123, 126)]);
   ("space", [(9, 13); (32, 32)]);
   ("upper", [(65, 90)]);
   ("word", [(48, 57); (65, 90); (95, 95); (97, 122)]);
   ("xdigit", [(48, 57); (65, 70); (97, 102)])]%N.

(** [posixGroup["[:" + name + ":]"]], with [[:^name:]] negated. *)
Definition posix_group (name : string) : option (bool * list range) :=
  let find n := snd <$> List.find (fun p => String.eqb p.1 n) posix_groups in
  match name with
  | String "^" n => pair false <$> find n
  | _ => pair true <$> find name
  end.

(** ** The parser's stack *)

Inductive item :=
| IRe (r : re)
| ILParen
| IBar.

Definition Stack := list item.

Fixpoint concat_list (l : list re) : re :=
  match l with
  | [] => EmptyMatch
  | [r] => r
  | r :: rs => Concat r (concat_list rs)
  end.

Fixpoint alt_list (l : list re) : re :=
  match l with
  | [] => EmptyMatch
  | [r] => r
  | r :: rs => Alternate r (alt_list rs)
  end.

(** The expressions above the nearest marker, bottom first. *)
Fixpoint pop_concat (st : Stack) (acc : list re) : list re * Stack :=
  match st with
  | IRe r :: st' => pop_concat st' (r :: acc)
  | _ => (acc, st)
  end.

(** [p.concat()]. *)
Definition concat (st : Stack) : Stack :=
  let (l, st') := pop_concat st [] in IRe (concat_list l) :: st'.

(** The alternatives separated by [|] markers above the nearest [(]. *)
Fixpoint pop_alt (st : Stack) (acc : list re) : option (list re * Stack) :=
  match st with
  | IRe r :: IBar :: st' => pop_alt st' (r :: acc)
  | IRe r :: st' => Some (r :: acc, st')
  | _ => None
  end.

(** [p.alternate()]. *)
Definition alternate (st : Stack) : Stack :=
  match pop_alt st [] with
  | Some (l, st') => IRe (alt_list l) :: st'
  | None => st
  end.

(** [p.parseRightParen]: the group closes the nearest [(]. *)
Definition close_paren (st : Stack) : option Stack :=
  match alternate (concat st) with
  | IRe r :: ILParen :: st' => Some (IRe r :: st')
  | _ => None
  end.

(** ** Errors *)

Definition err (code : string) : string := "error parsing regexp: " +:+ code.

Definition unsupported : string := err "syntax outside the modelled subset".

Definition invalid_escape (consumed : list ascii) : string :=
  err ("invalid escape sequence: `" +:+ string_of_list_ascii ("\"%char :: consumed) +:+ "`").

(** ** Repetition *)

(** [repeatIsValid]: nested counted repetitions repeat at most [n]
    times in all. *)
Fixpoint repeat_valid (r : re) (n : nat) : bool :=
  match r with
  | Repeat sub mn mx =>
      if bool_decide (mx = Some 0) then true
      else
        let m := match mx with Some m => m | None => mn end in
        if n <? m then false else repeat_valid sub (if 0 <? m then n / m else n)
  | Concat a b | Alternate a b => repeat_valid a n && repeat_valid b n
  | Star r | Plus r | Quest r => repeat_valid r n
  | _ => true
  end.

(** [p.repeat]: the operator applied to the top of the stack; [name] is
    the operator's text, [lastRepeat] that of the previous token when
    it was an operator; [valid] is the check of the count. *)
Definition repeat (op : re -> re) (valid : re -> bool) (name lastRepeat : string) (st : Stack)
  : Stack + string :=
  if negb (String.eqb lastRepeat "") then
    inr (err ("invalid nested repetition operator: `" +:+ lastRepeat +:+ name +:+ "`"))
  else match st with
       | IRe r :: st' =>
           if valid (op r) then inl (IRe (op r) :: st')
           else inr (err ("invalid repeat count: `" +:+ name +:+ "`"))
       | _ => inr (err ("missing argument to repetition operator: `" +:+ name +:+ "`"))
       end.

Definition rep_op (c : ascii) : re -> re :=
  if Ascii.eqb c "*" then Star else if Ascii.eqb c "+" then Plus else Quest.

(** A [?] after an operator makes it non-greedy and is part of its text. *)
Definition non_greedy (name : string) (t : list ascii) : string * list ascii :=
  match t with
  | d :: t' => if Ascii.eqb d "?" then (name +:+ "?", t') else (name, t)
  | [] => (name, t)
  end.

Definition is_digit (c : ascii) : bool := let n := nat_of_ascii c in (48 <=? n) && (n <=? 57).

(** The longest prefix of decimal digits. *)
Fixpoint digits (t : list ascii) : list ascii * list ascii :=
  match t with
  | d :: t' => if is_digit d then let (ds, r) := digits t' in (d :: ds, r) else ([], t)
  | [] => ([], [])
  end.

(** The value of [p.parseInt]: [-1] once it reaches [1e8]. *)
Fixpoint digits_value (ds : list ascii) (n : Z) : Z :=
  match ds with
  | [] => n
  | d :: ds' => if (100000000 <=? n)%Z then (-1)%Z
                else digits_value ds' (n * 10 + (Z.of_nat (nat_of_ascii d) - 48))%Z
  end.

(** [p.parseInt]: a decimal number without leading zero. *)
Definition parse_int (t : list ascii) : option (Z * list ascii) :=
  match t with
  | d :: t' =>
      if negb (is_digit d) then None
      else if Ascii.eqb d "0" && match t' with e :: _ => is_digit e | [] => false end then None
      else let (ds, rest) := digits t in Some (digits_value ds 0, rest)
  | [] => None
  end.

(** [p.parseRepeat] on the text after [{]: the minimum, the maximum
    ([-1]: none) and the text after [}]. *)
Definition parse_repeat (t : list ascii) : option (Z * Z * list ascii) :=
  match parse_int t with
  | None => None
  | Some (mn, t1) =>
      let r :=
        match t1 with
        | [] => None
        | c :: t2 =>
            if negb (Ascii.eqb c ",") then Some (mn, mn, t1)
            else match t2 with
                 | [] => None
                 | d :: _ =>
                     if Ascii.eqb d "}" then Some (mn, (-1)%Z, t2)
                     else match parse_int t2 with
                          | None => None
                          | Some (mx, t3) => Some ((if (mx <? 0)%Z then (-1)%Z else mn), mx, t3)
                          end
                 end
        end in
      match r with
      | Some (mn', mx, e :: t4) => if Ascii.eqb e "}" then Some (mn', mx, t4) else None
      | _ => None
      end
  end.

(** ** Escapes *)

(** A byte that [\] turns into itself: [c < utf8.RuneSelf && !isalnum(c)]. *)
Definition escapable (c : ascii) : bool :=
  let n := nat_of_ascii c in
  Nat.ltb n 128 &&
  negb ((Nat.leb 48 n && Nat.leb n 57) || (Nat.leb 65 n && Nat.leb n 90) ||
        (Nat.leb 97 n && Nat.leb n 122)).

Definition is_octal (c : ascii) : bool := let n := nat_of_ascii c in (48 <=? n) && (n <=? 55).

Definition unhex (c : ascii) : option N :=
  let n := N_of_ascii c in
  if (48 <=? n)%N && (n <=? 57)%N then Some (n - 48)%N
  else if (97 <=? n)%N && (n <=? 102)%N then Some (n - 87)%N
  else if (65 <=? n)%N && (n <=? 70)%N then Some (n - 55)%N
  else None.

(** Up to [k] more octal digits after the value [r]. *)
Fixpoint octal_more (k : nat) (r : N) (t : list ascii) : N * list ascii :=
  match k, t with
  | S k, d :: t' => if is_octal d then octal_more k (r * 8 + (N_of_ascii d - 48))%N t' else (r, t)
  | _, _ => (r, t)
  end.

(** The digits of [\x{...}]: the value and the rest, or the bytes
    consumed up to the failure. *)
Fixpoint hex_braces (t : list ascii) (r : N) (nhex : nat) (consumed : list ascii)
  : (N * list ascii) + list ascii :=
  match t with
  | [] => inr consumed
  | c :: t' =>
      if Ascii.eqb c "}" then (if nhex =? 0 then inr (consumed ++ [c]) else inl (r, t'))
      else match unhex c with
           | None => inr (consumed ++ [c])
           | Some v =>
               if (MaxRune <? r * 16 + v)%N then inr (consumed ++ [c])
               else hex_braces t' (r * 16 + v)%N (S nhex) (consumed ++ [c])
           end
  end.

(** The C escapes. *)
Definition c_escape (c : ascii) : option N :=
  if Ascii.eqb c "a" then Some 7%N else if Ascii.eqb c "f" then Some 12%N
  else if Ascii.eqb c "n" then Some 10%N else if Ascii.eqb c "r" then Some 13%N
  else if Ascii.eqb c "t" then Some 9%N else if Ascii.eqb c "v" then Some 11%N
  else None.

(** [p.parseEscape] on the text after a backslash: the rune and the
    rest. *)
Definition parse_escape (t : list ascii) : (N * list ascii) + string :=
  match t with
  | [] => inr (err "trailing backslash at end of expression: ``")
  | c :: t1 =>
      if escapable c then inl (N_of_ascii c, t1)
      else if is_octal c then
        if Ascii.eqb c "0" || match t1 with d :: _ => is_octal d | [] => false end
        then inl (octal_more 2 (N_of_ascii c - 48)%N t1)
        else inr (invalid_escape [c])
      else if Ascii.eqb c "x" then
        match t1 with
        | [] => inr (invalid_escape [c])
        | d :: t2 =>
            if Ascii.eqb d "{" then
              match hex_braces t2 0 0 [c; d] with
              | inl p => inl p
              | inr consumed => inr (invalid_escape consumed)
              end
            else match t2 with
                 | e :: t3 =>
                     match unhex d, unhex e with
                     | Some x, Some y => inl ((x * 16 + y)%N, t3)
                     | _, _ => inr (invalid_escape [c; d; e])
                     end
                 | [] => inr (invalid_escape [c; d])
                 end
        end
      else match c_escape c with
           | Some r => inl (r, t1)
           | None => inr (invalid_escape [c])
           end
  end.

(** ** Character classes *)

(** The text up to [:]]. *)
Fixpoint upto_colon_bracket (t : list ascii) : option (list ascii * list ascii) :=
  match t with
  | c :: t' =>
      match t' with
      | d :: t'' => if Ascii.eqb c ":" && Ascii.eqb d "]" then Some ([], t'') else
                     (fun '(a, b) => (c :: a, b)) <$> upto_colon_bracket t'
      | [] => None
      end
  | [] => None
  end.

(** [p.parseNamedClass]: [None] when [t] does not start a POSIX class. *)
Definition named_class (t : list ascii) : option ((bool * list range * list ascii) + string) :=
  match t with
  | b :: c :: t' =>
      if Ascii.eqb b "[" && Ascii.eqb c ":" then
        match upto_colon_bracket t' with
        | None => None
        | Some (name, rest) =>
            match posix_group (string_of_list_ascii name) with
            | Some g => Some (inl (g, rest))
            | None => Some (inr (err ("invalid character class range: `[:" +:+
                                       string_of_list_ascii name +:+ ":]`")))
            end
        end
      else None
  | _ => None
  end.

(** [p.parsePerlClassEscape]. *)
Definition perl_class (t : list ascii) : option (bool * list range * list ascii) :=
  match t with
  | b :: c :: t' => if Ascii.eqb b "\" then (fun g => (g, t')) <$> perl_group c else None
  | _ => None
  end.

(** [p.parseClassChar]; [wholeClass] is the text from the [[]. *)
Definition class_char (wholeClass : string) (t : list ascii) : (N * list ascii) + string :=
  match t with
  | [] => inr (err ("missing closing ]: `" +:+ wholeClass +:+ "`"))
  | c :: t' =>
      if Ascii.eqb c "\" then
        match parse_escape t' with
        | inl (r, t'') => if (r <? 128)%N then inl (r, t'') else inr unsupported
        | inr e => inr e
        end
      else if (N_of_ascii c <? 128)%N then inl (N_of_ascii c, t') else inr unsupported
  end.

(** [p.parseUnicodeClass] starts: [\p] or [\P]. *)
Definition unicode_class (t : list ascii) : bool :=
  match t with
  | b :: c :: _ => Ascii.eqb b "\" && (Ascii.eqb c "p" || Ascii.eqb c "P")
  | _ => false
  end.

(** One element of a class: a POSIX class, a Perl class, a rune or a
    range of runes. *)
Definition class_item (wholeClass : string) (t : list ascii) (cls : list range)
  : (list ascii * (bool * list range)) + string :=
  match named_class t with
  | Some (inr e) => inr e
  | Some (inl (g, t')) => inl (t', (false, append_group cls g))
  | None =>
      if unicode_class t then inr unsupported
      else match perl_class t with
      | Some (g, t') => inl (t', (false, append_group cls g))
      | None =>
          match class_char wholeClass t with
          | inr e => inr e
          | inl (lo, t1) =>
              match t1 with
              | m :: d :: t2 =>
                  if Ascii.eqb m "-" && negb (Ascii.eqb d "]") then
                    match class_char wholeClass (d :: t2) with
                    | inr e => inr e
                    | inl (hi, t3) =>
                        if (hi <? lo)%N then
                          inr (err ("invalid character class range: `" +:+
                                    string_of_list_ascii (take (length t - length t3) t) +:+ "`"))
                        else inl (t3, (false, cls ++ [(lo, hi)]))
                    end
                  else inl (t1, (false, cls ++ [(lo, lo)]))
              | _ => inl (t1, (false, cls ++ [(lo, lo)]))
              end
          end
      end
  end.

(** One iteration of [for t == "" || t[0] != ']' || first]; the state
    is [first] and the ranges so far. *)
Definition class_step (wholeClass : string) (t : list ascii) (s : bool * list range)
  : option ((list ascii * (bool * list range)) + string) :=
  let (first, cls) := s in
  match t with
  | c :: _ => if Ascii.eqb c "]" && negb first then None else Some (class_item wholeClass t cls)
  | [] => Some (class_item wholeClass t cls)
  end.

(** ** The loops *)

(** A loop of the parser: [step] returns [None] when the loop condition
    fails, the next text and state, or an error; [fuel] bounds the
    number of iterations. *)
Fixpoint loop {A} (step : list ascii -> A -> option ((list ascii * A) + string))
    (fuel : nat) (t : list ascii) (a : A) : (list ascii * A) + string :=
  match step t a with
  | None => inl (t, a)
  | Some (inr e) => inr e
  | Some (inl (t', a')) =>
      match fuel with
      | 0 => inr unsupported
      | S f => loop step f t' a'
      end
  end.

(** [p.parseClass] on the text after [[]: the class and the rest. *)
Definition parse_class (t : list ascii) : (re * list ascii) + string :=
  let wholeClass := string_of_list_ascii ("["%char :: t) in
  let '(neg, t1) := match t with
                    | c :: t' => if Ascii.eqb c "^" then (true, t') else (false, t)
                    | [] => (false, t)
                    end in
  match loop (class_step wholeClass) (length t1) t1 (true, []) with
  | inl (_ :: t2, (_, cls)) => inl (CharClass neg cls, t2)
  | inl ([], _) => inr unsupported
  | inr e => inr e
  end.

(** A literal rune: an ASCII byte. *)
Definition literal (r : N) (t : list ascii) (st : Stack) : (list ascii * (string * Stack)) + string :=
  if (r <? 128)%N then inl (t, (EmptyString, IRe (Lit (ascii_of_N r)) :: st)) else inr unsupported.

(** One iteration of the loop of [regexp/syntax.Parse] on the text [t]
    of [whole]; the state is [lastRepeat] and the stack. *)
Definition parse_step (whole : string) (t : list ascii) (s : string * Stack)
  : option ((list ascii * (string * Stack)) + string) :=
  let (lastRepeat, st) := s in
  match t with
  | [] => None
  | c :: t' => Some (
      if Ascii.eqb c "(" then
        match t' with
        | d :: _ => if Ascii.eqb d "?" then inr unsupported else inl (t', (EmptyString, ILParen :: st))
        | [] => inl (t', (EmptyString, ILParen :: st))
        end
      else if Ascii.eqb c "|" then inl (t', (EmptyString, IBar :: concat st))
      else if Ascii.eqb c ")" then
        match close_paren st with
        | Some st' => inl (t', (EmptyString, st'))
        | None => inr (err ("unexpected ): `" +:+ whole +:+ "`"))
        end
      else if Ascii.eqb c "^" then inl (t', (EmptyString, IRe BeginText :: st))
      else if Ascii.eqb c "$" then inl (t', (EmptyString, IRe EndText :: st))
      else if Ascii.eqb c "." then inl (t', (EmptyString, IRe AnyCharNotNL :: st))
      else if Ascii.eqb c "[" then
        match parse_class t' with
        | inl (cls, t'') => inl (t'', (EmptyString, IRe cls :: st))
        | inr e => inr e
        end
      else if Ascii.eqb c "*" || Ascii.eqb c "+" || Ascii.eqb c "?" then
        let '(name, after) := non_greedy (String c EmptyString) t' in
        match repeat (rep_op c) (fun _ => true) name lastRepeat st with
        | inl st' => inl (after, (name, st'))
        | inr e => inr e
        end
      else if Ascii.eqb c "{" then
        match parse_repeat t' with
        | None => inl (t', (EmptyString, IRe (Lit c) :: st))
        | Some (mn, mx, after) =>
            let text := string_of_list_ascii (c :: take (length t' - length after) t') in
            if (mn <? 0)%Z || (1000 <? mn)%Z || (1000 <? mx)%Z || ((0 <=? mx)%Z && (mx <? mn)%Z) then
              inr (err ("invalid repeat count: `" +:+ text +:+ "`"))
            else
              let mx' := if (mx <? 0)%Z then None else Some (Z.to_nat mx) in
              let '(name, after') := non_greedy text after in
              match repeat (fun r => Repeat r (Z.to_nat mn) mx')
                      (fun r => if (2 <=? mn)%Z || (2 <=? mx)%Z then repeat_valid r 1000 else true)
                      name lastRepeat st with
              | inl st' => inl (after', (name, st'))
              | inr e => inr e
              end
        end
      else if Ascii.eqb c "\" then
        match t' with
        | d :: t'' =>
            if Ascii.eqb d "A" then inl (t'', (EmptyString, IRe BeginText :: st))
            else if Ascii.eqb d "z" then inl (t'', (EmptyString, IRe EndText :: st))
            else if Ascii.eqb d "C" then inr (invalid_escape [d])
            else if existsb (Ascii.eqb d) ["b"; "B"; "Q"; "p"; "P"]%char then inr unsupported
            else match perl_group d with
                 | Some g => inl (t'', (EmptyString, IRe (CharClass false (append_group [] g)) :: st))
                 | None =>
                     match parse_escape t' with
                     | inl (r, t3) => literal r t3 st
                     | inr e => inr e
                     end
                 end
        | [] => inr (err "trailing backslash at end of expression: ``")
        end
      else literal (N_of_ascii c) t' st)
  end.

(** The loop of [regexp/syntax.Parse]: the stack at the end of [t]. *)
Definition parse_loop (whole : string) (t : list ascii) : Stack + string :=
  match loop (parse_step whole) (length t) t (EmptyString, []) with
  | inl (_, (_, st)) => inl st
  | inr e => inr e
  end.

(** [regexp.Compile(expr)]. *)
Definition compile (expr : string) : re + string :=
  match parse_loop expr (list_ascii_of_string expr) with
  | inl st =>
      match alternate (concat st) with
      | [IRe r] => inl r
      | _ => inr (err ("missing closing ): `" +:+ expr +:+ "`"))
      end
  | inr e => inr e
  end.

(** A byte with no meaning in the syntax. *)
Definition plain (c : ascii) : bool :=
  (N_of_ascii c <? 128)%N &&
  negb (existsb (Ascii.eqb c) ["("; "|"; ")"; "^"; "$"; "."; "*"; "+"; "?"; "\"; "["; "{"]%char).


(** ** Every step consumes input *)

Lemma octal_more_le (k : nat) (r : N) (t : list ascii) : length (octal_more k r t).2 <= length t.
Proof.
  revert r t; induction k as [|k IH]; intros r [|d t]; simpl; try lia.
  destruct (is_octal d); simpl; [specialize (IH (r * 8 + (N_of_ascii d - 48))%N t); lia | lia].
Qed.

Lemma hex_braces_lt (t : list ascii) (r : N) (n : nat) (c : list ascii) (v : N) (t' : list ascii) :
  hex_braces t r n c = inl (v, t') -> length t' < length t.
Proof.
  revert r n c; induction t as [|d t IH]; intros r n c; simpl; [done|].
  repeat case_match; intros Hh; simplify_eq/=; try lia. apply IH in Hh. lia.
Qed.

Lemma parse_escape_lt (t : list ascii) (r : N) (t' : list ascii) :
  parse_escape t = inl (r, t') -> length t' < length t.
Proof.
  destruct t as [|c t1]; unfold parse_escape; cbn beta iota; [done|].
  destruct (escapable c); [intros [= _ <-]; simpl; lia|].
  destruct (is_octal c).
  - destruct (_ || _); [|done].
    generalize (octal_more_le 2 (N_of_ascii c - 48)%N t1).
    destruct (octal_more 2 _ t1) as [v t3]. intros Hl [= _ <-]. simpl in *. lia.
  - destruct (Ascii.eqb c "x").
    + destruct t1 as [|d t2]; [done|]. destruct (Ascii.eqb d "{").
      * destruct (hex_braces t2 0 0 [c; d]) as [[v t3]|] eqn:Hh; [|done].
        intros [= _ <-]. apply hex_braces_lt in Hh. simpl. lia.
      * destruct t2 as [|e t3]; [done|]. destruct (unhex d), (unhex e); intros; simplify_eq/=; lia.
    + destruct (c_escape c); intros; simplify_eq/=; lia.
Qed.

Lemma digits_le (t : list ascii) : length (digits t).2 <= length t.
Proof.
  induction t as [|d t IH]; simpl; [lia|].
  destruct (is_digit d); [destruct (digits t) as [ds r]; simpl in *; lia | simpl; lia].
Qed.

Lemma parse_int_lt (t : list ascii) (v : Z) (t' : list ascii) :
  parse_int t = Some (v, t') -> length t' < length t.
Proof.
  destruct t as [|d t]; unfold parse_int; cbn beta iota; [done|].
  destruct (is_digit d) eqn:Hd; [|done]. destruct (_ && _); [done|].
  generalize (digits_le t). cbn [digits]. rewrite Hd.
  destruct (digits t) as [ds r]. intros Hl [= _ <-]. simpl in *. lia.
Qed.

Lemma parse_repeat_lt (t : list ascii) (mn mx : Z) (t' : list ascii) :
  parse_repeat t = Some (mn, mx, t') -> length t' < length t.
Proof.
  unfold parse_repeat. destruct (parse_int t) as [[v t1]|] eqn:H1; [|done].
  apply parse_int_lt in H1.
  destruct t1 as [|c t2]; [done|]. destruct (negb (Ascii.eqb c ",")).
  - intros H; repeat (case_match; simplify_eq/=); simpl in *; lia.
  - destruct t2 as [|d t3]; [done|]. destruct (Ascii.eqb d "}").
    + intros H; repeat (case_match; simplify_eq/=); simpl in *; lia.
    + destruct (parse_int (d :: t3)) as [[m t4]|] eqn:H2; [|done].
      apply parse_int_lt in H2. intros H; repeat (case_match; simplify_eq/=); simpl in *; lia.
Qed.

Lemma upto_colon_bracket_lt (t a r : list ascii) :
  upto_colon_bracket t = Some (a, r) -> length r < length t.
Proof.
  revert a; induction t as [|c t IH]; intros a; simpl; [done|].
  destruct t as [|d t']; [done|]. destruct (_ && _); [intros [= _ <-]; simpl; lia|].
  destruct (upto_colon_bracket (d :: t')) as [[a' r']|] eqn:Hu; simpl; [|done].
  intros [= _ <-]. specialize (IH a' eq_refl). simpl in *. lia.
Qed.

Lemma named_class_lt (t : list ascii) (g : bool * list range) (t' : list ascii) :
  named_class t = Some (inl (g, t')) -> length t' < length t.
Proof.
  unfold named_class. destruct t as [|b [|c t1]]; try done. destruct (_ && _); [|done].
  destruct (upto_colon_bracket t1) as [[n r]|] eqn:Hu; [|done].
  apply upto_colon_bracket_lt in Hu. destruct (posix_group _); intros; simplify_eq/=; lia.
Qed.

Lemma perl_class_lt (t : list ascii) (g : bool * list range) (t' : list ascii) :
  perl_class t = Some (g, t') -> length t' < length t.
Proof.
  unfold perl_class. destruct t as [|b [|c t1]]; try done. destruct (Ascii.eqb b "\"); [|done].
  destruct (perl_group c); intros; simplify_eq/=; lia.
Qed.

Lemma class_char_lt (w : string) (t : list ascii) (r : N) (t' : list ascii) :
  class_char w t = inl (r, t') -> length t' < length t.
Proof.
  destruct t as [|c t1]; unfold class_char; cbn beta iota; [done|].
  destruct (Ascii.eqb c "\").
  - destruct (parse_escape t1) as [[v t2]|] eqn:He; [|done]. apply parse_escape_lt in He.
    destruct (v <? 128)%N; intros; simplify_eq/=; lia.
  - destruct (_ <? 128)%N; intros; simplify_eq/=; lia.
Qed.

Lemma class_item_lt (w : string) (t : list ascii) (cls : list range) (t' : list ascii) s :
  class_item w t cls = inl (t', s) -> length t' < length t.
Proof.
  unfold class_item. destruct (named_class t) as [[[g t1]|e]|] eqn:Hn;
    [apply named_class_lt in Hn; intros; simplify_eq/=; lia | done|].
  destruct (unicode_class t); [done|].
  destruct (perl_class t) as [[g t1]|] eqn:Hp; [apply perl_class_lt in Hp; intros; simplify_eq/=; lia|].
  destruct (class_char w t) as [[lo t1]|e] eqn:Hc; [|done]. apply class_char_lt in Hc.
  destruct t1 as [|m [|d t2]]; try (intros; simplify_eq/=; lia).
  destruct (_ && _); [|intros; simplify_eq/=; lia].
  destruct (class_char w (d :: t2)) as [[hi t3]|e] eqn:Hc2; [|done]. apply class_char_lt in Hc2.
  destruct (hi <? lo)%N; intros; simplify_eq/=; simpl in *; lia.
Qed.

Lemma class_step_lt (w : string) (t : list ascii) s (t' : list ascii) s' :
  class_step w t s = Some (inl (t', s')) -> length t' < length t.
Proof.
  destruct s as [first cls]. unfold class_step.
  destruct t as [|c t1]; [|destruct (_ && _); [done|]]; intros [= H]; by eapply class_item_lt.
Qed.

(** ** The loops terminate *)

Section Loop.
Context {A : Type} (step : list ascii -> A -> option ((list ascii * A) + string)).
Hypothesis step_lt : forall t a t' a', step t a = Some (inl (t', a')) -> length t' < length t.

Lemma loop_le (fuel : nat) (t : list ascii) (a : A) (t' : list ascii) (a' : A) :
  loop step fuel t a = inl (t', a') -> length t' <= length t.
Proof.
  revert t a; induction fuel as [|f IH]; intros t a; simpl;
    destruct (step t a) as [[[t1 a1]|e]|] eqn:Hs; try done; intros H; simplify_eq; try lia.
  apply step_lt in Hs. apply IH in H. lia.
Qed.

(** As much fuel as the text has bytes is enough: more changes nothing. *)
Lemma loop_fuel (f1 f2 : nat) (t : list ascii) (a : A) :
  length t <= f1 -> length t <= f2 -> loop step f1 t a = loop step f2 t a.
Proof.
  revert f2 t a; induction f1 as [|f1 IH]; intros [|f2] t a H1 H2; simpl;
    destruct (step t a) as [[[t1 a1]|e]|] eqn:Hs; try done; apply step_lt in Hs; try lia.
  apply IH; lia.
Qed.

End Loop.

Lemma parse_class_lt (t : list ascii) (r : re) (t' : list ascii) :
  parse_class t = inl (r, t') -> length t' < S (length t).
Proof.
  unfold parse_class. set (w := string_of_list_ascii _).
  assert (Hl : forall t1, length t1 <= length t ->
            forall neg, match loop (class_step w) (length t1) t1 (true, []) with
                        | inl (_ :: t2, (_, cls)) => inl (CharClass neg cls, t2)
                        | inl ([], _) => inr unsupported
                        | inr e => inr e
                        end = inl (r, t') -> length t' < S (length t)).
  { intros t1 Ht1 neg. destruct (loop _ _ t1 _) as [[[|x t2] [f cls]]|e] eqn:Hloop; try done.
    apply loop_le in Hloop; [|apply class_step_lt]. intros [= _ <-]. simpl in *. lia. }
  destruct t as [|c t1]; [by apply Hl|]. destruct (Ascii.eqb c "^"); apply Hl; simpl; lia.
Qed.

Lemma octal_more_eq_le (k : nat) (r v : N) (t t' : list ascii) :
  octal_more k r t = (v, t') -> length t' <= length t.
Proof. intros H. pose proof (octal_more_le k r t) as Hl. by rewrite H in Hl. Qed.

Lemma non_greedy_le (n m : string) (t t' : list ascii) :
  non_greedy n t = (m, t') -> length t' <= length t.
Proof. destruct t as [|d t]; simpl; [|destruct (Ascii.eqb d "?")]; intros; simplify_eq/=; lia. Qed.

Lemma literal_eq (r : N) (t : list ascii) (st : Stack) (t' : list ascii) s :
  literal r t st = inl (t', s) -> t' = t.
Proof. unfold literal. destruct (r <? 128)%N; intros; simplify_eq/=; done. Qed.

Ltac shorten :=
  repeat match goal with
  | H : parse_class _ = inl (_, _) |- _ => apply parse_class_lt in H
  | H : parse_repeat _ = Some (_, _, _) |- _ => apply parse_repeat_lt in H
  | H : parse_escape _ = inl (_, _) |- _ => apply parse_escape_lt in H
  | H : literal _ _ _ = inl (_, _) |- _ => apply literal_eq in H; subst
  | H : non_greedy _ _ = (_, _) |- _ => apply non_greedy_le in H
  | H : hex_braces _ _ _ _ = inl (_, _) |- _ => apply hex_braces_lt in H
  | H : octal_more _ _ _ = (_, _) |- _ => apply octal_more_eq_le in H
  end; simpl in *; lia.

Lemma parse_step_lt (w : string) (t : list ascii) s (t' : list ascii) s' :
  parse_step w t s = Some (inl (t', s')) -> length t' < length t.
Proof.
  destruct s as [lr st]. destruct t as [|c t1]; [done|]. unfold parse_step. cbn beta iota.
  intros [= H]. repeat (case_match; simplify_eq/=); shorten.
Qed.

Lemma loop_step {A} (step : list ascii -> A -> option ((list ascii * A) + string))
    (f : nat) (t t' : list ascii) (a a' : A) :
  step t a = Some (inl (t', a')) -> loop step (S f) t a = loop step f t' a'.
Proof. intros Hs. simpl. by rewrite Hs. Qed.

(** ** Parsing a plain word *)

Lemma parse_loop_plain (whole : string) (w : list ascii) (st : Stack) (f : nat) :
  forallb plain w = true -> length w <= f ->
  loop (parse_step whole) f w (EmptyString, st) =
    inl ([], (EmptyString, map (fun c => IRe (Lit c)) (rev w) ++ st)).
Proof.
  revert f st; induction w as [|c w IH]; intros f st Hw Hf; [by destruct f|].
  apply andb_true_iff in Hw as [Hc Hw]. unfold plain in Hc. apply andb_true_iff in Hc as [Hn Hc].
  cbn [existsb] in Hc. apply negb_true_iff in Hc. repeat rewrite orb_false_iff in Hc. destruct_and! Hc.
  destruct f as [|f]; [simpl in Hf; lia|].
  rewrite (loop_step _ _ _ w _ (EmptyString, IRe (Lit c) :: st)).
  - rewrite IH by (done || simpl in Hf; lia). cbn [rev]. rewrite map_app, <- app_assoc. done.
  - unfold parse_step.
    repeat match goal with H : Ascii.eqb c _ = false |- _ => rewrite H; clear H end.
    cbn [orb]. unfold literal. rewrite Hn, ascii_N_embedding. done.
Qed.

Lemma pop_concat_res (l : list re) (st : Stack) (acc : list re) :
  pop_concat (map IRe l ++ st) acc = pop_concat st (rev l ++ acc).
Proof.
  revert acc; induction l as [|r l IH]; intros acc; [done|]. simpl.
  rewrite IH, <- app_assoc. done.
Qed.

(** [regexp.Compile("^" + w)] for a word of plain bytes. *)
Lemma compile_anchored (w : string) :
  forallb plain (list_ascii_of_string w) = true ->
  compile (String "^" w) = inl (concat_list (BeginText :: map Lit (list_ascii_of_string w))).
Proof.
  intros Hw. unfold compile, parse_loop. cbn [list_ascii_of_string length].
  rewrite (loop_step _ _ _ (list_ascii_of_string w) _ (EmptyString, [IRe BeginText])) by reflexivity.
  rewrite parse_loop_plain by done. cbn beta iota.
  unfold concat. rewrite map_rev.
  replace (rev (map (fun c => IRe (Lit c)) (list_ascii_of_string w)))
    with (map IRe (rev (map Lit (list_ascii_of_string w))))
    by (rewrite map_rev, map_map; done).
  rewrite pop_concat_res. cbn [pop_concat]. rewrite rev_involutive, app_nil_r. done.
Qed.
End RegexSyntax.
