(* ===== verification/Regex.v ===== *)
(** * Regex: [Regexp.MatchString] and its reference semantics

    The matcher of the expressions [RegexSyntax.compile] builds, on
    texts of bytes.  [MatchString] is unanchored: the text matches when
    some substring matches.  [ends r s i] computes the positions where
    a match of [r] from position [i] can end; [matches] is the
    reference semantics as an inductive relation, where a counted
    repetition [x{k}] is [k] copies of [x] in a row; [ends_sound],
    [ends_complete] and [MatchString_spec] prove the two equal.  The
    flags of [regexp.Compile] are those of Perl: [.] does not match a
    newline, a negated class does ([ClassNL]), [^] and [$] match at the
    beginning and end of the text; greediness does not change whether
    a text matches. *)

From Stdlib Require Import String Ascii.
From stdpp Require Import base list strings.
From S2P Require Import Prelude Eligibility RegexSyntax.

Module Regex.
Import RegexSyntax.

(** ** Matching *)

(** Whether a byte is in a class: in one of its ranges, or in none when
    the class is negated. *)
Definition in_class (neg : bool) (rs : list range) (c : ascii) : bool :=
  xorb neg (existsb (fun r => (r.1 <=? N_of_ascii c)%N && (N_of_ascii c <=? r.2)%N) rs).

(** The positions a [Star] can reach from [i] by non-empty steps of
    [f]; [n] bounds the number of steps. *)
Fixpoint star_ends (f : nat -> list nat) (n i : nat) : list nat :=
  match n with
  | 0 => [i]
  | S n => i :: flat_map (fun j => if Nat.ltb i j then star_ends f n j else []) (f i)
  end.

(** The positions reached from [i] by exactly [k] steps of [f]. *)
Fixpoint rep_ends (f : nat -> list nat) (k i : nat) : list nat :=
  match k with
  | 0 => [i]
  | S k => flat_map (rep_ends f k) (f i)
  end.

(** The positions where a match of [r] starting at [i] can end. *)
Fixpoint ends (r : re) (s : list ascii) (i : nat) : list nat :=
  match r with
  | EmptyMatch => [i]
  | Lit c => match nth_error s i with Some d => if Ascii.eqb c d then [S i] else [] | None => [] end
  | CharClass neg rs =>
      match nth_error s i with Some d => if in_class neg rs d then [S i] else [] | None => [] end
  | AnyCharNotNL =>
      match nth_error s i with Some d => if Ascii.eqb d "010" then [] else [S i] | None => [] end
  | BeginText => if Nat.eqb i 0 then [i] else []
  | EndText => if Nat.eqb i (length s) then [i] else []
  | Concat a b => flat_map (ends b s) (ends a s i)
  | Alternate a b => ends a s i ++ ends b s i
  | Star r => star_ends (ends r s) (S (length s)) i
  | Plus r => flat_map (star_ends (ends r s) (S (length s))) (ends r s i)
  | Quest r => ends r s i ++ [i]
  | Repeat r mn (Some mx) => flat_map (fun k => rep_ends (ends r s) k i) (seq mn (S mx - mn))
  | Repeat r mn None => flat_map (star_ends (ends r s) (S (length s))) (rep_ends (ends r s) mn i)
  end.

(** [Regexp.MatchString]: some substring matches. *)
Definition MatchString (r : re) (str : string) : bool :=
  let s := list_ascii_of_string str in
  existsb (fun i => negb (bool_decide (ends r s i = []))) (seq 0 (S (length s))).

#[export] Instance re_Matcher : Matcher re := MatchString.
#[export] Instance re_Compiler : Compiler re := compile.

(** [k] copies of [r] in a row. *)
Fixpoint rep_concat (r : re) (k : nat) : re :=
  match k with
  | 0 => EmptyMatch
  | S k => Concat r (rep_concat r k)
  end.

(** The reference semantics: [matches s r i j] when [r] matches the
    bytes of [s] from position [i] to position [j]. *)
Inductive matches (s : list ascii) : re -> nat -> nat -> Prop :=
| m_empty i : matches s EmptyMatch i i
| m_lit c i : nth_error s i = Some c -> matches s (Lit c) i (S i)
| m_class neg rs c i : nth_error s i = Some c -> in_class neg rs c = true ->
    matches s (CharClass neg rs) i (S i)
| m_any c i : nth_error s i = Some c -> c <> "010"%char -> matches s AnyCharNotNL i (S i)
| m_begin : matches s BeginText 0 0
| m_end : matches s EndText (length s) (length s)
| m_cat a b i j k : matches s a i j -> matches s b j k -> matches s (Concat a b) i k
| m_alt_l a b i j : matches s a i j -> matches s (Alternate a b) i j
| m_alt_r a b i j : matches s b i j -> matches s (Alternate a b) i j
| m_star_nil r i : matches s (Star r) i i
| m_star_cons r i j k : matches s r i j -> matches s (Star r) j k -> matches s (Star r) i k
| m_plus r i j k : matches s r i j -> matches s (Star r) j k -> matches s (Plus r) i k
| m_quest_some r i j : matches s r i j -> matches s (Quest r) i j
| m_quest_none r i : matches s (Quest r) i i
| m_repeat r mn mx k i j : mn <= k -> (forall m, mx = Some m -> k <= m) ->
    matches s (rep_concat r k) i j -> matches s (Repeat r mn mx) i j.

(** The bytes of [w] at position [i] of [s]. *)
Definition at_pos (w s : list ascii) (i : nat) : bool :=
  bool_decide (take (length w) (drop i s) = w).

(** ** The executable matcher against the semantics *)

Section Semantics.
Context (s : list ascii).

Lemma nth_error_lt (i : nat) (c : ascii) : nth_error s i = Some c -> i < length s.
Proof. intros H. apply nth_error_Some. congruence. Qed.

Lemma matches_bound (r : re) (i j : nat) :
  matches s r i j -> i <= length s -> i <= j <= length s.
Proof.
  induction 1; intros Hi;
    repeat match goal with H : nth_error _ _ = Some _ |- _ => apply nth_error_lt in H end;
    try lia; try (by apply IHmatches).
  all: destruct (IHmatches1 Hi); destruct IHmatches2; lia.
Qed.

Lemma star_ends_sound (r : re) (f : nat -> list nat) :
  (forall i j, In j (f i) -> matches s r i j) ->
  forall n i j, In j (star_ends f n i) -> matches s (Star r) i j.
Proof.
  intros Hf n. induction n as [|n IH]; intros i j; simpl.
  - intros [<-|[]]. constructor.
  - intros [<-|Hj]; [constructor|]. apply in_flat_map in Hj as (m & Hm & Hj).
    destruct (Nat.ltb i m); [|done]. econstructor; [by apply Hf | by apply IH].
Qed.

Lemma star_ends_complete (r : re) (f : nat -> list nat) :
  (forall i j, i <= length s -> matches s r i j -> In j (f i)) ->
  forall i k, matches s (Star r) i k -> i <= length s ->
  forall n, length s - i < n -> In k (star_ends f n i).
Proof.
  intros Hf i k H. remember (Star r) as r0 eqn:Hr0.
  induction H; inversion Hr0; subst; intros Hi n Hn.
  - destruct n; [lia|]. by left.
  - pose proof (matches_bound _ _ _ H Hi) as [Hij Hj].
    destruct (Nat.eq_dec i j) as [<-|Hne]; [by apply IHmatches2|].
    destruct n as [|n]; [lia|]. right. apply in_flat_map. exists j.
    split; [by apply Hf|]. rewrite (proj2 (Nat.ltb_lt i j)) by lia.
    apply IHmatches2; [done | done | lia].
Qed.

(** Counted repetitions: [k] copies in a row, and a star. *)
Lemma rep_ends_sound (r : re) (f : nat -> list nat) :
  (forall i j, In j (f i) -> matches s r i j) ->
  forall k i j, In j (rep_ends f k i) -> matches s (rep_concat r k) i j.
Proof.
  intros Hf k. induction k as [|k IH]; intros i j; simpl; [intros [<-|[]]; constructor|].
  intros Hj. apply in_flat_map in Hj as (m & Hm & Hj). econstructor; [by apply Hf | by apply IH].
Qed.

Lemma rep_ends_complete (r : re) (f : nat -> list nat) :
  (forall i j, i <= length s -> matches s r i j -> In j (f i)) ->
  forall k i j, i <= length s -> matches s (rep_concat r k) i j -> In j (rep_ends f k i).
Proof.
  intros Hf k. induction k as [|k IH]; intros i j Hi H; simpl.
  - inversion H; subst. by left.
  - inversion H as [| | | | | |? ? ? m ? Hr Hk| | | | | | | |]; subst.
    apply in_flat_map. exists m. split; [by apply Hf|].
    apply IH; [|done]. by destruct (matches_bound _ _ _ Hr Hi).
Qed.

Lemma rep_concat_app (r : re) (a b i j m : nat) :
  matches s (rep_concat r a) i m -> matches s (rep_concat r b) m j ->
  matches s (rep_concat r (a + b)) i j.
Proof.
  revert i; induction a as [|a IH]; intros i Ha Hb; simpl.
  - by inversion Ha; subst.
  - inversion Ha; subst. econstructor; [eassumption | by eapply IH].
Qed.

Lemma rep_concat_split (r : re) (a b i j : nat) :
  matches s (rep_concat r (a + b)) i j ->
  exists m, matches s (rep_concat r a) i m /\ matches s (rep_concat r b) m j.
Proof.
  revert i; induction a as [|a IH]; intros i H; simpl in *.
  - exists i. split; [constructor | done].
  - inversion H as [| | | | | |? ? ? m ? Hr Hk| | | | | | | |]; subst.
    destruct (IH _ Hk) as (m' & H1 & H2). exists m'. split; [econstructor; eassumption | done].
Qed.

Lemma rep_concat_star (r : re) (k i j : nat) :
  matches s (rep_concat r k) i j -> matches s (Star r) i j.
Proof.
  revert i; induction k as [|k IH]; intros i H; simpl in *.
  - inversion H; subst. constructor.
  - inversion H as [| | | | | |? ? ? m ? Hr Hk| | | | | | | |]; subst.
    econstructor; [eassumption | by apply IH].
Qed.

Lemma star_rep_concat (r : re) (i j : nat) :
  matches s (Star r) i j -> exists k, matches s (rep_concat r k) i j.
Proof.
  intros H. remember (Star r) as r0 eqn:Hr0. induction H; inversion Hr0; subst.
  - exists 0. constructor.
  - destruct (IHmatches2 eq_refl) as [n Hn]. exists (S n). econstructor; eassumption.
Qed.

Lemma ends_sound (r : re) (i j : nat) : In j (ends r s i) -> matches s r i j.
Proof.
  revert i j; induction r as [| c | neg rs | | | | a IHa b IHb | a IHa b IHb | r IH | r IH | r IH
                             | r IH mn [mx|]]; intros i j; cbn [ends].
  - intros [<-|[]]. constructor.
  - destruct (nth_error s i) as [d|] eqn:Hd; [|done].
    destruct (Ascii.eqb_spec c d) as [->|]; [|done]. intros [<-|[]]. by constructor.
  - destruct (nth_error s i) as [d|] eqn:Hd; [|done].
    destruct (in_class neg rs d) eqn:Hc; [|done]. intros [<-|[]]. by econstructor.
  - destruct (nth_error s i) as [d|] eqn:Hd; [|done].
    destruct (Ascii.eqb_spec d "010") as [|Hn]; [done|]. intros [<-|[]]. by econstructor.
  - destruct (Nat.eqb_spec i 0) as [->|]; [|done]. intros [<-|[]]. constructor.
  - destruct (Nat.eqb_spec i (length s)) as [->|]; [|done]. intros [<-|[]]. constructor.
  - intros Hj. apply in_flat_map in Hj as (m & Hm & Hj). econstructor; eauto.
  - intros Hj. apply in_app_or in Hj as [Hj|Hj]; [apply m_alt_l | apply m_alt_r]; auto.
  - apply star_ends_sound. auto.
  - intros Hj. apply in_flat_map in Hj as (m & Hm & Hj). econstructor; [by apply IH|].
    eapply star_ends_sound; eauto.
  - intros Hj. apply in_app_or in Hj as [Hj|[<-|[]]]; [apply m_quest_some; auto | apply m_quest_none].
  - intros Hj. apply in_flat_map in Hj as (k & Hk & Hj). apply in_seq in Hk.
    apply (m_repeat _ _ _ _ k); [lia | intros m [= <-]; lia | by eapply rep_ends_sound].
  - intros Hj. apply in_flat_map in Hj as (m & Hm & Hj).
    apply (rep_ends_sound r) in Hm; [|auto].
    apply (star_ends_sound r) in Hj; [|auto]. destruct (star_rep_concat _ _ _ Hj) as [k Hk].
    apply (m_repeat _ _ _ _ (mn + k)); [lia | done | by eapply rep_concat_app].
Qed.

Lemma ends_complete (r : re) (i j : nat) :
  i <= length s -> matches s r i j -> In j (ends r s i).
Proof.
  revert i j; induction r as [| c | neg rs | | | | a IHa b IHb | a IHa b IHb | r IH | r IH | r IH
                             | r IH mn mx]; intros i j Hi H; cbn [ends]; inversion H as
    [ | c' ? Hn | ? ? c' ? Hn Hc | c' ? Hn Hnl | | | ? ? ? m ? Ha Hb | ? ? ? ? Ha | ? ? ? ? Hb
    | | ? ? m ? Hr Hs | ? ? m ? Hr Hs | ? ? ? Hr | | ? ? ? k ? ? Hk Hmx Hr]; subst.
  - by left.
  - rewrite Hn, Ascii.eqb_refl. by left.
  - rewrite Hn, Hc. by left.
  - rewrite Hn. destruct (Ascii.eqb_spec c' "010"); [done | by left].
  - by left.
  - rewrite Nat.eqb_refl. by left.
  - apply in_flat_map. exists m. split; [by apply IHa|].
    apply IHb; [|done]. by destruct (matches_bound _ _ _ Ha Hi).
  - apply in_or_app. left. by apply IHa.
  - apply in_or_app. right. by apply IHb.
  - by apply (star_ends_complete r); [auto | | | lia].
  - by apply (star_ends_complete r); [auto | | | lia].
  - apply in_flat_map. exists m. split; [by apply IH|].
    destruct (matches_bound _ _ _ Hr Hi).
    apply (star_ends_complete r); [auto | done | done | lia].
  - apply in_or_app. left. by apply IH.
  - apply in_or_app. right. by left.
  - destruct mx as [mx|].
    + apply in_flat_map. exists k. split; [apply in_seq; specialize (Hmx mx eq_refl); lia|].
      by apply (rep_ends_complete r); [auto | |].
    + replace k with (mn + (k - mn)) in Hr by lia.
      destruct (rep_concat_split _ _ _ _ _ Hr) as (m & H1 & H2).
      apply in_flat_map. exists m. split; [by apply (rep_ends_complete r); [auto | |]|].
      destruct (matches_bound _ _ _ (rep_concat_star _ _ _ _ H1) Hi).
      apply (star_ends_complete r); [auto | by eapply rep_concat_star | done | lia].
Qed.

End Semantics.

Lemma ends_concat_list_cons (r : re) (rs : list re) (s : list ascii) (i : nat) :
  ends (concat_list (r :: rs)) s i = flat_map (ends (concat_list rs) s) (ends r s i).
Proof.
  destruct rs as [|r' rs]; [|done]. simpl.
  induction (ends r s i) as [|x l IH]; simpl; congruence.
Qed.

Lemma drop_nth_error {A} (l : list A) (i : nat) (x : A) :
  nth_error l i = Some x -> drop i l = x :: drop (S i) l.
Proof. revert i; induction l as [|y l IH]; intros [|i]; simpl; [done | done | by intros [= ->] | apply IH]. Qed.

Lemma ends_lits (w s : list ascii) (i : nat) :
  ends (concat_list (map Lit w)) s i = if at_pos w s i then [i + length w] else [].
Proof.
  unfold at_pos. revert i; induction w as [|c w IH]; intros i.
  - simpl. rewrite ?bool_decide_true by done. by rewrite Nat.add_0_r.
  - change (map Lit (c :: w)) with (Lit c :: map Lit w). rewrite ends_concat_list_cons.
    simpl. destruct (nth_error s i) as [d|] eqn:Hd.
    + rewrite (drop_nth_error _ _ d) by done. cbn [length take].
      destruct (Ascii.eqb_spec c d) as [->|Hne].
      * simpl. rewrite app_nil_r, IH. rewrite Nat.add_succ_r.
        destruct (bool_decide (take (length w) (drop (S i) s) = w)) eqn:Hb;
          [rewrite bool_decide_eq_true in Hb; rewrite bool_decide_true by congruence; done|].
        rewrite bool_decide_eq_false in Hb. rewrite bool_decide_false by congruence. done.
      * rewrite bool_decide_false by congruence. done.
    + rewrite drop_ge by (apply nth_error_None in Hd; lia). done.
Qed.

Lemma HasPrefix_take (str w : string) :
  HasPrefix str w =
    bool_decide (take (length (list_ascii_of_string w)) (list_ascii_of_string str) =
                 list_ascii_of_string w).
Proof.
  revert str; induction w as [|c w IH]; intros [|d str]; simpl; [done | done | done |].
  - rewrite IH. destruct (decide (c = d)) as [->|Hne].
    + rewrite bool_decide_true by done. simpl. apply bool_decide_ext. split; [congruence|].
      by intros [= ->].
    + rewrite bool_decide_false by done. simpl. rewrite bool_decide_false by congruence. done.
Qed.

(** [^w] matches exactly the texts that start with [w]. *)
Lemma MatchString_anchored (w str : string) :
  MatchString (concat_list (BeginText :: map Lit (list_ascii_of_string w))) str =
    HasPrefix str w.
Proof.
  unfold MatchString. rewrite <- cons_seq. cbn [existsb].
  rewrite ends_concat_list_cons. cbn [ends Nat.eqb flat_map]. rewrite app_nil_r, ends_lits.
  replace (existsb _ (seq 1 _)) with false.
  - rewrite orb_false_r, HasPrefix_take. unfold at_pos. rewrite drop_0.
    by destruct (bool_decide (take (length (list_ascii_of_string w)) (list_ascii_of_string str) =
                              list_ascii_of_string w)).
  - symmetry. apply not_true_iff_false. rewrite existsb_exists.
    intros (i & Hi & Hg). apply in_seq in Hi.
    rewrite ends_concat_list_cons in Hg. cbn [ends] in Hg.
    by rewrite (proj2 (Nat.eqb_neq i 0)) in Hg by lia.
Qed.

(** A match of a substring makes [MatchString] accept. *)
Lemma MatchString_intro (r : re) (str : string) (i j : nat) :
  i <= length (list_ascii_of_string str) -> matches (list_ascii_of_string str) r i j ->
  MatchString r str = true.
Proof.
  intros Hi Hm. unfold MatchString. apply existsb_exists. exists i.
  split; [apply in_seq; lia|]. apply ends_complete in Hm; [|done]. by destruct (ends r _ i).
Qed.

(** ** Theorems *)

(** The executable [MatchString] decides the reference semantics:
    it accepts a text exactly when some substring, from a position [i]
    to a position [j], is matched by the expression according to
    [matches]. *)
Theorem MatchString_spec (r : re) (str : string) :
  MatchString r str = true <->
    exists i j, i <= length (list_ascii_of_string str) /\ matches (list_ascii_of_string str) r i j.
Proof.
  split.
  - unfold MatchString. rewrite existsb_exists. intros (i & Hi & Hne). apply in_seq in Hi.
    destruct (ends r _ i) as [|j l] eqn:He; [done|].
    exists i, j. split; [lia|]. apply ends_sound. rewrite He. by left.
  - intros (i & j & Hi & Hm). by eapply MatchString_intro.
Qed.


End Regex.
