(* ===== verification/Config.v ===== *)
(** * Config: the configuration phase of [main] (main.go 18-20, 123-135, 137-194)

    [init] registers the string flags [-o]/[-output] (default [stdout])
    and [-p]/[-package] (default [pwd]) on the package variables
    [output] and [packagePath] ([formal], [set_var], [init_vars]).
    [main] then parses the command line, takes the input regular
    expression from the first argument left (default [\.*]), opens the
    output file, resolves the package path, compiles the regular
    expression and parses the package directory.  Each step that fails
    prints a message on standard output and calls [os.Exit(1)]; a flag
    error is also reported on standard error by package [flag], and
    [-h] adds the [PrintDefaults] of main.go 143 ([init_flags] is the
    flag table, [formal] and [init_vars] are derived from it); the
    predicate [cfg_step] states this effect, and every step, hence
    [setup], satisfies it.

    The operating system is an [Env]: the arguments, the working
    directory, the environment variables, the files [os.OpenFile]
    opens, the directories [parser.ParseDir] reads, [exec.LookPath],
    [runtime.GOOS] and the effect of running goimports.  The regular
    expression package is reached through the [Compiler] interface
    ([regexp.Compile]) and the [Matcher] interface of [Eligibility]. *)

From Stdlib Require Import String Ascii.
From stdpp Require Import base list strings.
From S2P Require Import Prelude World GoAst Eligibility GoParser GoPath GoFlag RegexSyntax Regex.

Local Open Scope se_scope.
#[local] Existing Instances Regex.re_Matcher Regex.re_Compiler.

Module Config.

(** [helpMsg] (main.go 18-20). *)
Definition helpMsg : string := "testGen - usage: testGen [-o output] (input regex)".

(** The package variables the flags set (main.go 123-127). *)
Record Vars := mkVars { output : string; packagePath : string }.

Inductive FlagVar := VOutput | VPackagePath.

Definition set_var (v : FlagVar) (x : string) (vs : Vars) : Vars :=
  match v with
  | VOutput => mkVars x (packagePath vs)
  | VPackagePath => mkVars (output vs) x
  end.

Definition output_usage : string := "specify where to output. stdout is the default".

Definition package_usage : string :=
  "the absolute or GOPATH relative path to the package to generate tests for".

(** The four [flag.StringVar] calls of [init] (main.go 129-135), in
    order: each flag with the variable it sets. *)
Definition init_flags : list (GoFlag.Flag * FlagVar) :=
  [(GoFlag.mkFlag "o" output_usage "stdout", VOutput);
   (GoFlag.mkFlag "output" output_usage "stdout", VOutput);
   (GoFlag.mkFlag "p" package_usage "pwd", VPackagePath);
   (GoFlag.mkFlag "package" package_usage "pwd", VPackagePath)].

(** [f.formal[name]]: the flag table of [flag.CommandLine]. *)
Definition formal (name : string) : option FlagVar :=
  snd <$> find (fun fv => String.eqb (GoFlag.Name (fst fv)) name) init_flags.

(** The package variables after [init]: the zero value, then each
    [flag.StringVar] stores its default. *)
Definition init_vars : Vars :=
  foldl (fun vs fv => set_var (snd fv) (GoFlag.DefValue (fst fv)) vs) (mkVars "" "") init_flags.

(** The process's view of the operating system. *)
Record Env := mkEnv {
  Args : list string;                          (** [os.Args[1:]] *)
  Getwd : string + string;                     (** [os.Getwd()]: the directory or the error *)
  Getenv : string -> string;                   (** [os.Getenv] *)
  OpenFile : string -> Writer + string;        (** [os.OpenFile(name, O_RDWR|O_APPEND|O_CREATE, 0644)] *)
  ReadDir : string -> list Parser.SrcFile + string;  (** the directory [ParseDir] reads, or its error *)
  LookPath : string -> string;                 (** [exec.LookPath], [""] when not found *)
  GOOS : string;                               (** [runtime.GOOS] *)
  RunGoImports : list string -> string -> string * option string;
    (** goimports run with these arguments on an output file with these
        contents: the contents it leaves and the error of [cmd.Run] *)
  Prog : string                                (** [os.Args[0]] *)
}.

(** [input := flag.CommandLine.Arg(0)]; the empty string is replaced by
    the expression meant to match anything. *)
Definition default_input (arg0 : string) : string :=
  if String.eqb arg0 "" then "\.*" else arg0.

Section Setup.
Context (env : Env).

(** main.go 138-148: on an error, [FlagSet.Parse] has already written
    its report to standard error. *)
Definition parse_flags : IO (Vars * list string) :=
  match GoFlag.Parse formal set_var init_vars (Args env) with
  | inl r => ret r
  | inr err =>
      GoFlag.report (Prog env) (map fst init_flags) err ;;;
      match err with
      | GoFlag.ErrHelp =>
          println [helpMsg] ;;;
          GoFlag.PrintDefaults (map fst init_flags) ;;;
          exit 1
      | GoFlag.Failf m => println [m] ;;; exit 1
      end
  end.

(** main.go 156-166: [outputFile] is [os.Stdout] or the opened file. *)
Definition open_output (output : string) : IO unit :=
  if String.eqb output "stdout" then se_modify (fun w => mkWorld (stdout w) (outfile w) DestStdout (stderr w))
  else match OpenFile env output with
       | inl f => se_modify (fun w => mkWorld (stdout w) f DestFile (stderr w))
       | inr e => print ("could not open '" +:+ output +:+ "': " +:+ e +:+ NL) ;;; exit 1
       end.

(** main.go 168-181.  In the [else if] branch, [packagePath :=] declares
    a new variable that shadows the package variable: the expanded path
    is only checked, and the path returned is the one of the flag. *)
Definition resolve_package (packagePath : string) : IO string :=
  if String.eqb packagePath "pwd" then
    match Getwd env with
    | inl d => ret d
    | inr e => println ["could not get working directory:"; e] ;;; exit 1
    end
  else if negb (GoPath.IsAbs packagePath) then
    let packagePath' := GoPath.ExpandEnv (Getenv env) (GoPath.Join ["$GOPATH"; packagePath]) in
    if negb (GoPath.IsAbs packagePath') then
      println ["GOPATH does not seem to be set - cannot use GOPATH relative package paths"] ;;;
      exit 1
    else ret packagePath
  else ret packagePath.

(** main.go 183-187. *)
Definition compile_filter {R} `{Compiler R} (input : string) : IO R :=
  match Compile input with
  | inl re => ret re
  | inr e => println ["bad regex:"; e] ;;; exit 1
  end.

(** main.go 189-194: [parser.ParseDir] fails when the directory cannot
    be read, and reports the first file that does not parse. *)
Definition parse_dir (packagePath : string) : IO (list Ast.Package) :=
  match ReadDir env packagePath with
  | inl dir =>
      match Parser.ParseDirErr dir Parser.filesToIgnore with
      | None => ret (Parser.ParseDir dir Parser.filesToIgnore)
      | Some e => println ["error parsing package:"; e] ;;; exit 1
      end
  | inr e => println ["error parsing package:"; e] ;;; exit 1
  end.

(** What the configuration hands to the loop of [main]. *)
Record Setup {R : Type} := mkSetup {
  filter : R;
  outputName : string;
  packages : list Ast.Package
}.

(** main.go 137-194. *)
Definition setup {R} `{Compiler R} : IO (@Setup R) :=
  p <- parse_flags ;;
  let (vs, rest) := p in
  let input := default_input (GoFlag.Arg0 rest) in
  open_output (output vs) ;;;
  pp <- resolve_package (packagePath vs) ;;
  re <- compile_filter input ;;
  pkgs <- parse_dir pp ;;
  ret (mkSetup R re (output vs) pkgs).

End Setup.

(** ** Sample environments *)

Definition empty_writer : Writer := mkWriter EmptyString None EmptyString.

Definition world0 : World := mkWorld empty_writer empty_writer DestStdout empty_writer.

(** A Linux process with arguments [args] and [$GOPATH] set to [gopath],
    where [os.OpenFile] creates an empty file and no directory exists. *)
Definition sample_env (args : list string) (gopath : string) : Env :=
  mkEnv args (inl "/work") (fun v => if String.eqb v "GOPATH" then gopath else EmptyString)
        (fun _ => inl empty_writer) (fun _ => inr "open: no such file or directory")
        (fun _ => EmptyString) "linux" (fun _ c => (c, None)) "testGen".

(** The effect a configuration step may have: the only way it ends the
    process is [os.Exit(1)], and it writes nothing to the output file,
    which holds what it held or what [os.OpenFile] found. *)
Definition cfg_step {A} (env : Env) (m : IO A) : Prop :=
  forall w, match fst (m w) with Exited c => c = 1 | Panicked _ => False | Done _ => True end /\
            (outfile (snd (m w)) = outfile w \/
             exists n f, OpenFile env n = inl f /\ outfile (snd (m w)) = f).

(** The message main.go 141-145 prints for a flag error. *)
Definition flag_error_msg (err : GoFlag.ParseError) : string :=
  match err with
  | GoFlag.ErrHelp => helpMsg
  | GoFlag.Failf m => m
  end.

(** The listing [PrintDefaults] writes for the flags of [init]: sorted
    by name, each typed [string], with its usage and its quoted default. *)
Definition defaults_listing : string :=
  "  -o string" +:+ NL +:+ "    " +:+ TAB +:+ output_usage +:+ " (default " +:+ DQ +:+ "stdout" +:+ DQ +:+ ")" +:+ NL +:+
  "  -output string" +:+ NL +:+ "    " +:+ TAB +:+ output_usage +:+ " (default " +:+ DQ +:+ "stdout" +:+ DQ +:+ ")" +:+ NL +:+
  "  -p string" +:+ NL +:+ "    " +:+ TAB +:+ package_usage +:+ " (default " +:+ DQ +:+ "pwd" +:+ DQ +:+ ")" +:+ NL +:+
  "  -package string" +:+ NL +:+ "    " +:+ TAB +:+ package_usage +:+ " (default " +:+ DQ +:+ "pwd" +:+ DQ +:+ ")" +:+ NL.

(** ** Lemmas *)

Section CfgStep.
Context (env : Env).

Lemma cfg_ret {A} (a : A) : cfg_step env (ret a).
Proof. intros w. by split; [|left]. Qed.

Lemma cfg_print (m : string) : cfg_step env (print m).
Proof. intros w. by split; [|left]. Qed.

Lemma cfg_bind {A B} (m : IO A) (k : A -> IO B) :
  cfg_step env m -> (forall a, cfg_step env (k a)) -> cfg_step env (se_bind m k).
Proof.
  intros Hm Hk w. unfold se_bind. destruct (Hm w) as [H1 H2].
  destruct (m w) as [[a|c|e] w1]; simpl in *; [|done|done].
  destruct (Hk a w1) as [H3 H4]. split; [done|].
  destruct H4 as [->|]; [done | by right].
Qed.

Lemma cfg_exit {A} : cfg_step env (@exit A 1).
Proof. intros w. by split; [|left]. Qed.

Lemma cfg_println (l : list string) : cfg_step env (println l).
Proof. intros w. by split; [|left]. Qed.

Lemma cfg_eprint (m : string) : cfg_step env (eprint m).
Proof. intros w. by split; [|left]. Qed.

Lemma cfg_iter {A} (f : A -> IO unit) (l : list A) :
  (forall a, cfg_step env (f a)) -> cfg_step env (se_iter f l).
Proof. intros Hf. induction l as [|a l IH]; simpl; [apply cfg_ret | by apply cfg_bind]. Qed.

Lemma cfg_set_dest (d : Dest) : cfg_step env (se_modify (fun w => mkWorld (stdout w) (outfile w) d (stderr w))).
Proof. intros w. by split; [|left]. Qed.

Lemma cfg_open_file (o : string) (f : Writer) :
  OpenFile env o = inl f -> cfg_step env (se_modify (fun w => mkWorld (stdout w) f DestFile (stderr w))).
Proof. intros Ho w. split; [done | right; by exists o, f]. Qed.

End CfgStep.

Create HintDb cfg.
#[local] Hint Resolve cfg_ret cfg_print cfg_bind cfg_exit cfg_println cfg_eprint cfg_iter cfg_set_dest cfg_open_file : cfg.

Lemma parse_flags_cfg (env : Env) : cfg_step env (parse_flags env).
Proof.
  unfold parse_flags, GoFlag.report, GoFlag.CommandLineUsage, GoFlag.PrintDefaults.
  repeat case_match; auto 10 with cfg.
Qed.

Lemma open_output_cfg (env : Env) (o : string) : cfg_step env (open_output env o).
Proof. unfold open_output. repeat case_match; eauto with cfg. Qed.

Lemma resolve_package_cfg (env : Env) (p : string) : cfg_step env (resolve_package env p).
Proof. unfold resolve_package. repeat case_match; auto with cfg. Qed.

Lemma compile_filter_cfg {R} `{Compiler R} (env : Env) (input : string) :
  cfg_step env (compile_filter (R:=R) input).
Proof. unfold compile_filter. case_match; auto with cfg. Qed.

Lemma parse_dir_cfg (env : Env) (p : string) : cfg_step env (parse_dir env p).
Proof. unfold parse_dir. repeat case_match; auto with cfg. Qed.

(** The configuration as a whole is a configuration step. *)
Lemma setup_cfg {R} `{Compiler R} (env : Env) : cfg_step env (setup (R:=R) env).
Proof.
  unfold setup. apply cfg_bind; [apply parse_flags_cfg|]. intros [vs rest].
  apply cfg_bind; [apply open_output_cfg|]. intros _.
  apply cfg_bind; [apply resolve_package_cfg|]. intros pp.
  apply cfg_bind; [apply compile_filter_cfg|]. intros re.
  apply cfg_bind; [apply parse_dir_cfg|]. intros pkgs. apply cfg_ret.
Qed.

(** A flag error: the report of the flag package and [PrintDefaults]
    touch standard error only, the message goes to standard output, and
    the process exits before anything else happens. *)
Lemma parse_flags_error (env : Env) (err : GoFlag.ParseError) (w : World) :
  GoFlag.Parse formal set_var init_vars (Args env) = inr err ->
  exists o, parse_flags env w =
    (Exited 1, set_stdout (fst (Write (flag_error_msg err +:+ NL) (stdout w))) (set_stderr o w)).
Proof.
  intros Hp. unfold parse_flags. rewrite Hp. unfold se_bind at 1.
  destruct (GoFlag.report_err_only (Prog env) (map fst init_flags) err w) as [o ->].
  destruct err as [|m]; [|by exists o].
  rewrite (se_bind_done _ _ _ _ tt) by reflexivity.
  destruct (GoFlag.PrintDefaults_err_only (map fst init_flags)
              (set_stdout (fst (Write (helpMsg +:+ NL) (stdout w))) (set_stderr o w))) as [o' Ho'].
  rewrite (se_bind_done _ _ _ _ tt Ho'). exists o'. by destruct w.
Qed.

(** A flag error ends the configuration where [parse_flags] ends. *)
Lemma setup_flag_error {R} `{Compiler R} (env : Env) (err : GoFlag.ParseError) (w : World) :
  GoFlag.Parse formal set_var init_vars (Args env) = inr err ->
  exists o, setup (R:=R) env w =
    (Exited 1, set_stdout (fst (Write (flag_error_msg err +:+ NL) (stdout w))) (set_stderr o w)).
Proof.
  intros Hp. destruct (parse_flags_error env err w Hp) as [o Ho].
  exists o. unfold setup, se_bind at 1. by rewrite Ho.
Qed.

(** ** Theorems *)

(** C16: the package path [main] parses is the working directory for
    [pwd] and otherwise the path given to [-p], unchanged: because of
    the shadowing [packagePath :=] of main.go 176, a GOPATH-relative
    path is checked against [$GOPATH] but the directory read is the
    relative path itself, resolved against the working directory. *)
Theorem resolve_package_returns_flag (env : Env) (p q : string) (w w' : World) :
  resolve_package env p w = (Done q, w') ->
  (p = "pwd" /\ Getwd env = inl q) \/ (p <> "pwd" /\ q = p).
Proof.
  unfold resolve_package. destruct (String.eqb_spec p "pwd") as [->|Hp].
  - destruct (Getwd env) as [d|e]; [intros [= -> _]; by left | by intros [=]].
  - destruct (negb (GoPath.IsAbs p)); [destruct (negb (GoPath.IsAbs _))|];
      [by intros [=] | intros [= -> _] | intros [= -> _]]; by right.
Qed.

Lemma resolve_package_returns_flag_witness :
  resolve_package (sample_env [] "/home/u/go") "github.com/u/pkg" world0 =
    (Done "github.com/u/pkg"%string, world0) /\
  (("github.com/u/pkg" = "pwd" /\ Getwd (sample_env [] "/home/u/go") = inl "github.com/u/pkg")
   \/ ("github.com/u/pkg" <> "pwd" /\ "github.com/u/pkg" = "github.com/u/pkg"))%string.
Proof.
  assert (H : resolve_package (sample_env [] "/home/u/go") "github.com/u/pkg" world0 =
                (Done "github.com/u/pkg"%string, world0)) by reflexivity.
  split; [exact H | exact (resolve_package_returns_flag _ _ _ _ _ H)].
Defined.

(** C17: with [$GOPATH] unset, the check of main.go 177 never fires for
    a relative path that stays under [$GOPATH]: [$GOPATH/p] expands to
    [/p], which is absolute, so the message "GOPATH does not seem to be
    set" is not printed and the relative path is used. *)
Theorem gopath_unset_unchecked (env : Env) (p : string) (w : World) :
  Getenv env "GOPATH" = "" -> p <> "pwd" ->
  HasPrefix (GoPath.Join ["$GOPATH"; p]) "$GOPATH/" = true ->
  resolve_package env p w = (Done p, w).
Proof.
  intros Hg Hp Hj. unfold resolve_package.
  destruct (String.eqb_spec p "pwd"); [done|].
  apply HasPrefix_spec in Hj as [r Hr]. rewrite Hr, GoPath.ExpandEnv_GOPATH, Hg.
  rewrite sapp_nil_l, GoPath.IsAbs_slash. by destruct (negb (GoPath.IsAbs p)).
Qed.

Lemma gopath_unset_unchecked_witness :
  Getenv (sample_env [] "") "GOPATH" = "" /\ "github.com/u/pkg" <> "pwd" /\
  HasPrefix (GoPath.Join ["$GOPATH"; "github.com/u/pkg"]) "$GOPATH/" = true /\
  resolve_package (sample_env [] "") "github.com/u/pkg" world0 = (Done "github.com/u/pkg"%string, world0).
Proof.
  assert (H1 : Getenv (sample_env [] "") "GOPATH" = "") by reflexivity.
  assert (H2 : "github.com/u/pkg" <> "pwd") by discriminate.
  assert (H3 : HasPrefix (GoPath.Join ["$GOPATH"; "github.com/u/pkg"]) "$GOPATH/" = true)
    by (vm_compute; reflexivity).
  split; [exact H1|]. split; [exact H2|]. split; [exact H3|].
  exact (gopath_unset_unchecked _ _ _ H1 H2 H3).
Defined.

(** C19: the default filter: without a positional argument the input is
    [\.*] (zero or more literal dots), which compiles and, unanchored,
    matches every name by an empty match at its start, so every
    function passes the filter. *)
Theorem default_filter_selects_all (name : string) :
  RegexSyntax.compile (default_input (GoFlag.Arg0 [])) = inl (RegexSyntax.Star (RegexSyntax.Lit ".")) /\
  Regex.MatchString (RegexSyntax.Star (RegexSyntax.Lit ".")) name = true.
Proof.
  split; [reflexivity|]. apply (Regex.MatchString_intro _ _ 0 0); [lia | constructor].
Qed.

(** C18: the output file is opened, and so created, before the regular
    expression is compiled: with [-o] and an absolute [-p], a bad
    regular expression exits with status 1 after [outputFile] already
    is the opened file (spec section 7 asks configuration errors to
    abort before any side effect). *)
Theorem bad_regex_after_open {R} `{Compiler R} (env : Env) (vs : Vars) (rest : list string)
    (f : Writer) (e : string) (w : World) :
  GoFlag.Parse formal set_var init_vars (Args env) = inl (vs, rest) ->
  output vs <> "stdout" -> OpenFile env (output vs) = inl f ->
  GoPath.IsAbs (packagePath vs) = true ->
  Compile (R:=R) (default_input (GoFlag.Arg0 rest)) = inr e ->
  fst (setup (R:=R) env w) = Exited 1 /\
  outfile (snd (setup (R:=R) env w)) = f /\ dest (snd (setup (R:=R) env w)) = DestFile.
Proof.
  intros Hp Ho Hf Ha Hc.
  assert (Hpwd : String.eqb (packagePath vs) "pwd" = false)
    by (apply String.eqb_neq; intros Heq; by rewrite Heq in Ha).
  unfold setup, parse_flags. rewrite Hp. cbn [se_bind se_ret].
  unfold open_output. rewrite (proj2 (String.eqb_neq _ _) Ho), Hf. cbn [se_bind se_modify].
  unfold resolve_package. rewrite Hpwd, Ha. cbn [negb se_bind se_ret].
  unfold compile_filter. rewrite Hc. done.
Qed.

Lemma bad_regex_after_open_witness :
  GoFlag.Parse formal set_var init_vars (Args (sample_env ["-o"; "gen_test.go"; "-p"; "/src/add"; "(Add"] ""))
    = inl (mkVars "gen_test.go" "/src/add", ["(Add"]) /\
  output (mkVars "gen_test.go" "/src/add") <> "stdout" /\
  OpenFile (sample_env ["-o"; "gen_test.go"; "-p"; "/src/add"; "(Add"] "") "gen_test.go" = inl empty_writer /\
  GoPath.IsAbs "/src/add" = true /\
  Compile (R:=RegexSyntax.re) (default_input (GoFlag.Arg0 ["(Add"])) =
    inr "error parsing regexp: missing closing ): `(Add`" /\
  (fst (setup (R:=RegexSyntax.re) (sample_env ["-o"; "gen_test.go"; "-p"; "/src/add"; "(Add"] "") world0)
     = Exited 1 /\
   outfile (snd (setup (R:=RegexSyntax.re) (sample_env ["-o"; "gen_test.go"; "-p"; "/src/add"; "(Add"] "") world0))
     = empty_writer /\
   dest (snd (setup (R:=RegexSyntax.re) (sample_env ["-o"; "gen_test.go"; "-p"; "/src/add"; "(Add"] "") world0))
     = DestFile).
Proof.
  assert (H1 : GoFlag.Parse formal set_var init_vars
                 (Args (sample_env ["-o"; "gen_test.go"; "-p"; "/src/add"; "(Add"] ""))
               = inl (mkVars "gen_test.go" "/src/add", ["(Add"])) by reflexivity.
  assert (H2 : output (mkVars "gen_test.go" "/src/add") <> "stdout") by discriminate.
  assert (H3 : OpenFile (sample_env ["-o"; "gen_test.go"; "-p"; "/src/add"; "(Add"] "") "gen_test.go"
               = inl empty_writer) by reflexivity.
  assert (H4 : GoPath.IsAbs "/src/add" = true) by reflexivity.
  assert (H5 : Compile (R:=RegexSyntax.re) (default_input (GoFlag.Arg0 ["(Add"])) =
               inr "error parsing regexp: missing closing ): `(Add`") by (vm_compute; reflexivity).
  do 5 (split; [assumption|]).
  exact (bad_regex_after_open _ _ _ _ _ _ H1 H2 H3 H4 H5).
Defined.

(** C20: the filter [^w] for a word [w] of plain bytes passes
    [regexp.Compile] without a message, and the compiled expression
    selects exactly the names that start with [w] (spec section 8:
    [^Add] selects [Add] and [Add2], not [Subtract]). *)
Theorem anchored_filter (w : string) :
  forallb RegexSyntax.plain (list_ascii_of_string w) = true ->
  exists r, (forall wd, compile_filter (R:=RegexSyntax.re) (String "^" w) wd = (Done r, wd)) /\
            forall name, Regex.MatchString r name = HasPrefix name w.
Proof.
  intros Hw. eexists. split.
  - intros wd. unfold compile_filter, Compile, Regex.re_Compiler.
    by rewrite RegexSyntax.compile_anchored.
  - intros name. apply Regex.MatchString_anchored.
Qed.

Lemma anchored_filter_witness :
  forallb RegexSyntax.plain (list_ascii_of_string "Add") = true /\
  exists r, (forall wd, compile_filter (R:=RegexSyntax.re) (String "^" "Add") wd = (Done r, wd)) /\
            forall name, Regex.MatchString r name = HasPrefix name "Add".
Proof.
  assert (Hw : forallb RegexSyntax.plain (list_ascii_of_string "Add") = true) by reflexivity.
  split; [exact Hw | exact (anchored_filter "Add" Hw)].
Defined.

(** The flag parser stops at the first argument that is not a flag:
    in [testGen ^Add -o out.go] the [-o] is a further positional
    argument and the output stays on standard output, while in
    [testGen -o out.go ^Add] it sets the output file. *)
Example flags_after_regex_ignored :
  GoFlag.Parse formal set_var init_vars ["^Add"; "-o"; "out.go"] =
    inl (init_vars, ["^Add"; "-o"; "out.go"]) /\
  GoFlag.Parse formal set_var init_vars ["-o"; "out.go"; "^Add"] =
    inl (mkVars "out.go" "pwd", ["^Add"]).
Proof. split; reflexivity. Qed.

(** C27: a command line the flag parser rejects ends the process with
    status 1 after printing [helpMsg] for [-h]/[-help] and the parser's
    error otherwise on standard output, before the output file is
    opened: the output file and the destination are those the process
    started with (the flag package's report goes to standard error). *)
Theorem flag_error_exits {R} `{Compiler R} (env : Env) (err : GoFlag.ParseError) (w : World) :
  GoFlag.Parse formal set_var init_vars (Args env) = inr err ->
  fst (setup (R:=R) env w) = Exited 1 /\
  stdout (snd (setup (R:=R) env w)) = fst (Write (flag_error_msg err +:+ NL) (stdout w)) /\
  outfile (snd (setup (R:=R) env w)) = outfile w /\ dest (snd (setup (R:=R) env w)) = dest w.
Proof. intros Hp. destruct (setup_flag_error (R:=R) env err w Hp) as [o ->]. done. Qed.

Lemma flag_error_exits_witness :
  GoFlag.Parse formal set_var init_vars (Args (sample_env ["-x"; "^Add"] ""))
    = inr (GoFlag.Failf "flag provided but not defined: -x") /\
  (fst (setup (R:=RegexSyntax.re) (sample_env ["-x"; "^Add"] "") world0) = Exited 1 /\
   stdout (snd (setup (R:=RegexSyntax.re) (sample_env ["-x"; "^Add"] "") world0)) =
     fst (Write (flag_error_msg (GoFlag.Failf "flag provided but not defined: -x") +:+ NL) (stdout world0)) /\
   outfile (snd (setup (R:=RegexSyntax.re) (sample_env ["-x"; "^Add"] "") world0)) = outfile world0 /\
   dest (snd (setup (R:=RegexSyntax.re) (sample_env ["-x"; "^Add"] "") world0)) = dest world0).
Proof.
  assert (Hp : GoFlag.Parse formal set_var init_vars (Args (sample_env ["-x"; "^Add"] ""))
                 = inr (GoFlag.Failf "flag provided but not defined: -x")) by reflexivity.
  split; [exact Hp | exact (flag_error_exits _ _ _ Hp)].
Defined.

(** C21: [testGen -h] (or [-help]) exits with status 1 after printing
    [helpMsg] on standard output, and standard error receives the usage
    line naming [os.Args[0]] followed by the flag defaults TWICE: once
    from the usage function [FlagSet.Parse] calls for [-h], once from
    the [flag.CommandLine.PrintDefaults()] of main.go 143.  The defaults
    list the four flags sorted by name, each typed [string], with its
    usage and its quoted default. *)
Theorem help_prints_defaults_twice {R} `{Compiler R} (env : Env) (w : World) (h : string) (rest : list string) :
  (h = "-h" \/ h = "-help") -> Args env = h :: rest -> room (stderr w) = None ->
  fst (setup (R:=R) env w) = Exited 1 /\
  stdout (snd (setup (R:=R) env w)) = fst (Write (helpMsg +:+ NL) (stdout w)) /\
  contents (stderr (snd (setup (R:=R) env w))) =
    contents (stderr w) +:+ "Usage of " +:+ Prog env +:+ ":" +:+ NL +:+ defaults_listing +:+ defaults_listing.
Proof.
  intros Hh Ha Hn.
  assert (Hp : GoFlag.Parse formal set_var init_vars (Args env) = inr GoFlag.ErrHelp)
    by (rewrite Ha; destruct Hh as [-> | ->]; reflexivity).
  assert (HD : sconcat (map GoFlag.flag_line (GoFlag.sortFlags (map fst init_flags))) = defaults_listing)
    by (vm_compute; reflexivity).
  assert (Hpf : exists w', parse_flags env w = (Exited 1, w') /\
            stdout w' = fst (Write (helpMsg +:+ NL) (stdout w)) /\
            contents (stderr w') = contents (stderr w) +:+ "Usage of " +:+ Prog env +:+ ":" +:+ NL +:+
                                   defaults_listing +:+ defaults_listing).
  { unfold parse_flags. rewrite Hp.
    erewrite se_bind_done; [|apply GoFlag.report_writes; exact Hn].
    erewrite se_bind_done; [|reflexivity].
    erewrite se_bind_done; [|apply GoFlag.PrintDefaults_writes; reflexivity].
    eexists; split; [reflexivity|]. split; [done|]. cbn [stderr set_stderr set_stdout contents].
    rewrite HD, sapp_nil_l, <- !sapp_assoc. done. }
  destruct Hpf as (w' & Hpf & H1 & H2). unfold setup, se_bind. rewrite Hpf. done.
Qed.

Lemma help_prints_defaults_twice_witness :
  ("-h" = "-h" \/ "-h" = "-help") /\ Args (sample_env ["-h"] "") = "-h" :: [] /\
  room (stderr world0) = None /\
  (fst (setup (R:=RegexSyntax.re) (sample_env ["-h"] "") world0) = Exited 1 /\
   stdout (snd (setup (R:=RegexSyntax.re) (sample_env ["-h"] "") world0)) = fst (Write (helpMsg +:+ NL) (stdout world0)) /\
   contents (stderr (snd (setup (R:=RegexSyntax.re) (sample_env ["-h"] "") world0))) =
     contents (stderr world0) +:+ "Usage of " +:+ Prog (sample_env ["-h"] "") +:+ ":" +:+ NL +:+
     defaults_listing +:+ defaults_listing).
Proof.
  assert (H1 : "-h" = "-h" \/ "-h" = "-help") by (left; reflexivity).
  assert (H2 : Args (sample_env ["-h"] "") = "-h" :: []) by reflexivity.
  assert (H3 : room (stderr world0) = None) by reflexivity.
  split; [exact H1|]. split; [exact H2|]. split; [exact H3|].
  exact (help_prints_defaults_twice _ _ _ _ H1 H2 H3).
Defined.

(** C28: printing the configuration as flags and parsing it back gives
    it again: for either name of each flag ([-o]/[-output],
    [-p]/[-package]) and any values, even values that start with [-],
    the parser of main.go 138-139 returns the values and leaves the
    arguments after the flags, provided they do not start with a flag. *)
Theorem flags_roundtrip (vs : Vars) (no np : string) (rest : list string) :
  (no = "o" \/ no = "output") -> (np = "p" \/ np = "package") -> GoFlag.stops rest = true ->
  GoFlag.Parse formal set_var init_vars
    (["-" +:+ no; output vs; "-" +:+ np; packagePath vs] ++ rest) = inl (vs, rest).
Proof.
  intros Ho Hp Hr.
  change (["-" +:+ no; output vs; "-" +:+ np; packagePath vs] ++ rest)
    with (GoFlag.render [(no, output vs); (np, packagePath vs)] ++ rest).
  rewrite (GoFlag.Parse_render formal set_var init_vars _ rest
             (fun n => if String.eqb n "o" || String.eqb n "output" then VOutput else VPackagePath)).
  - rewrite GoFlag.Parse_stops by done. destruct Ho as [->| ->], Hp as [->| ->]; by destruct vs.
  - destruct Ho as [->| ->], Hp as [->| ->]; repeat constructor.
Qed.

Lemma flags_roundtrip_witness :
  ("output" = "o" \/ "output" = "output") /\ ("p" = "p" \/ "p" = "package") /\ GoFlag.stops ["^Add"] = true /\
  GoFlag.Parse formal set_var init_vars
    (["-" +:+ "output"; "-gen_test.go"; "-" +:+ "p"; "/src/add"] ++ ["^Add"])
    = inl (mkVars "-gen_test.go" "/src/add", ["^Add"]).
Proof.
  assert (H1 : "output" = "o" \/ "output" = "output") by (right; reflexivity).
  assert (H2 : "p" = "p" \/ "p" = "package") by (left; reflexivity).
  assert (H3 : GoFlag.stops ["^Add"] = true) by reflexivity.
  split; [exact H1|]. split; [exact H2|]. split; [exact H3|].
  exact (flags_roundtrip (mkVars "-gen_test.go" "/src/add") _ _ _ H1 H2 H3).
Defined.

End Config.
