(* ===== verification/GoImports.v ===== *)
(** * GoImports: [findGoImports] and the goimports hook (main.go 290-305, 325-344)

    [findGoImports] looks the binary up with [exec.LookPath], first by
    name and then under [$GOPATH/bin]; on Windows it appends [.exe] to
    the name and jumps back to [tryAgain].  The loop is a step relation
    [fstep] on [FState] ([Try] a name, or [Return] a result), with an
    executable version [find_fuel], whose results the relation allows
    ([find_fuel_sound]).  Outside Windows one step
    returns; on Windows, when neither lookup ever succeeds, the name
    grows by [.exe] at every step and the function never returns; when
    a lookup succeeds on [goimports] followed by [n] times [.exe], it
    returns after [n + 1] passes.

    [hook] is the end of [main]: run goimports with [-w] on the output
    file (with [-w] alone when the output is standard output), print the
    error of [cmd.Run] if any, or print that goimports was not found. *)

From Stdlib Require Import String Ascii.
From stdpp Require Import base list strings.
From S2P Require Import Prelude World GoPath Config.

Local Open Scope se_scope.

Module GoImports.

Inductive FState :=
| Try (binName : string)
| Return (result : string).

Section Find.
Context (env : Config.Env).

(** One pass from [tryAgain:] (main.go 327-341). *)
Definition find_step (binName : string) : FState :=
  if negb (String.eqb (Config.LookPath env binName) "") then Return binName
  else
    let p := Config.LookPath env (GoPath.ExpandEnv (Config.Getenv env) ("$GOPATH/bin/" +:+ binName)) in
    if negb (String.eqb p "") then Return p
    else if String.eqb (Config.GOOS env) "windows" then Try (binName +:+ ".exe")
    else Return "".

Inductive fstep : FState -> FState -> Prop :=
| fstep_try b : fstep (Try b) (find_step b).

(** Reachability by the reflexive-transitive closure of [fstep]. *)
Inductive fsteps : FState -> FState -> Prop :=
| fsteps_refl s : fsteps s s
| fsteps_step s1 s2 s3 : fstep s1 s2 -> fsteps s2 s3 -> fsteps s1 s3.

(** [findGoImports] with at most [fuel] passes; [None] when the fuel
    runs out. *)
Fixpoint find_fuel (fuel : nat) (binName : string) : option string :=
  match fuel with
  | 0 => None
  | S f =>
      match find_step binName with
      | Return r => Some r
      | Try b => find_fuel f b
      end
  end.

Definition findGoImports (fuel : nat) : option string := find_fuel fuel "goimports".

End Find.

(** [".exe"] repeated [n] times. *)
Fixpoint exes (n : nat) : string :=
  match n with 0 => EmptyString | S n => ".exe" +:+ exes n end.

(** The message of main.go 303. *)
Definition not_found_msg : string :=
  "Could not find goimports, you will have to handle imports yourself".

(** main.go 290-305, after [findGoImports] returned [goimports]:
    [outputFile.Name()] is the name given to [-o]. *)
Definition hook (env : Config.Env) (outputName goimports : string) : IO unit :=
  if String.eqb goimports "" then println [not_found_msg]
  else fun w =>
    match dest w with
    | DestFile =>
        let (c, err) := Config.RunGoImports env [goimports; "-w"; outputName] (contents (outfile w)) in
        let w' := mkWorld (stdout w) (mkWriter c (room (outfile w)) (werr (outfile w))) DestFile (stderr w) in
        match err with
        | None => (Done tt, w')
        | Some e => println ["goimports:"; e] w'
        end
    | DestStdout =>
        match snd (Config.RunGoImports env [goimports; "-w"] EmptyString) with
        | None => (Done tt, w)
        | Some e => println ["goimports:"; e] w
        end
    end.

(** A Windows machine without goimports. *)
Definition windows_env : Config.Env :=
  Config.mkEnv [] (inl "C:/work") (fun _ => EmptyString) (fun _ => inr "denied")
    (fun _ => inr "denied") (fun _ => EmptyString) "windows" (fun _ c => (c, None)) "testGen".

(** A Windows machine where goimports is installed as [goimports.exe]
    in the [PATH]. *)
Definition windows_exe_env : Config.Env :=
  Config.mkEnv [] (inl "C:/work") (fun _ => EmptyString) (fun _ => inr "denied")
    (fun _ => inr "denied")
    (fun n => if String.eqb n "goimports.exe" then "C:/go/bin/goimports.exe" else EmptyString)
    "windows" (fun _ c => (c, None)) "testGen".

(** ** Lemmas *)

Section FindLemmas.
Context (env : Config.Env).

Lemma find_fuel_sound (fuel : nat) (b r : string) :
  find_fuel env fuel b = Some r -> fsteps env (Try b) (Return r).
Proof.
  revert b; induction fuel as [|f IH]; intros b; simpl; [done|]. intros H.
  apply (fsteps_step env _ (find_step env b)); [constructor|].
  destruct (find_step env b) as [b'|r']; [by apply IH | injection H as <-; constructor].
Qed.

Lemma fsteps_snoc (s t u : FState) : fsteps env s t -> fstep env t u -> fsteps env s u.
Proof.
  induction 1 as [s|s1 s2 s3 Hs _ IH]; intros Htu.
  - eapply fsteps_step; [exact Htu | constructor].
  - eapply fsteps_step; [exact Hs | by apply IH].
Qed.

(** On Windows without any goimports, every pass tries a longer name. *)
Lemma find_step_windows (b : string) :
  Config.GOOS env = "windows" -> (forall n, Config.LookPath env n = "") ->
  find_step env b = Try (b +:+ ".exe").
Proof. intros Hw Hl. unfold find_step. by rewrite !Hl, Hw. Qed.

Lemma fsteps_windows_try (s t : FState) :
  Config.GOOS env = "windows" -> (forall n, Config.LookPath env n = "") ->
  fsteps env s t -> forall b, s = Try b -> exists b', t = Try b'.
Proof.
  intros Hw Hl. induction 1 as [s|s1 s2 s3 Hs _ IH]; intros b ->; [by eexists|].
  inversion Hs; subst. rewrite find_step_windows in IH by done. by eapply IH.
Qed.

(** Outside Windows a pass always returns. *)
Lemma find_step_unix (b : string) :
  Config.GOOS env <> "windows" -> exists r, find_step env b = Return r.
Proof.
  intros Hw. unfold find_step. apply String.eqb_neq in Hw. rewrite Hw.
  destruct (negb _); [by eexists|]. destruct (negb _); by eexists.
Qed.

(** On Windows without goimports the fuelled loop always runs out. *)
Lemma find_fuel_windows (fuel : nat) (b : string) :
  Config.GOOS env = "windows" -> (forall n, Config.LookPath env n = "") ->
  find_fuel env fuel b = None.
Proof.
  intros Hw Hl. destruct (find_fuel env fuel b) as [r|] eqn:Hf; [|done].
  apply find_fuel_sound in Hf. by destruct (fsteps_windows_try _ _ Hw Hl Hf b eq_refl).
Qed.

End FindLemmas.


Lemma exes_snoc (n : nat) : exes n +:+ ".exe" = exes (S n).
Proof. induction n as [|n IH]; [done|]. cbn [exes]. by rewrite <- sapp_assoc, IH. Qed.

Lemma sapp_exes (b : string) (n : nat) : b +:+ exes (S n) = (b +:+ ".exe") +:+ exes n.
Proof. cbn [exes]. by rewrite sapp_assoc. Qed.

(** On Windows, a search whose first [n] names are found by neither
    lookup returns the [n]-th name when the first lookup finds it. *)
Lemma find_fuel_exes (env : Config.Env) (n : nat) (b : string) (fuel : nat) :
  Config.GOOS env = "windows" ->
  (forall m, m < n -> Config.LookPath env (b +:+ exes m) = "" /\
     Config.LookPath env (GoPath.ExpandEnv (Config.Getenv env) ("$GOPATH/bin/" +:+ b +:+ exes m)) = "") ->
  Config.LookPath env (b +:+ exes n) <> "" -> n < fuel ->
  find_fuel env fuel b = Some (b +:+ exes n).
Proof.
  revert b fuel. induction n as [|n IH]; intros b [|fuel] Hw Hm Hf Hn; try lia; cbn [find_fuel].
  - unfold find_step. rewrite sapp_nil_r in Hf |- *.
    apply String.eqb_neq in Hf. by rewrite Hf.
  - rewrite sapp_exes in Hf |- *. destruct (Hm 0 ltac:(lia)) as [H1 H2]. rewrite sapp_nil_r in H1, H2.
    assert (Hs : find_step env b = Try (b +:+ ".exe")) by (unfold find_step; by rewrite H1, H2, Hw).
    rewrite Hs. apply IH; [done| |done|lia].
    intros m Hlt. rewrite <- !sapp_exes. apply Hm. lia.
Qed.

(** The hook never exits: its errors are only printed. *)
Lemma hook_done (env : Config.Env) (name g : string) (w : World) :
  fst (hook env name g w) = Done tt.
Proof.
  unfold hook. destruct (String.eqb g ""); [done|].
  destruct (dest w).
  - by destruct (snd (Config.RunGoImports env [g; "-w"] EmptyString)).
  - destruct (Config.RunGoImports env [g; "-w"; name] _) as [c [e|]]; done.
Qed.

(** ** Theorems *)

(** C22: outside Windows, [findGoImports] returns after one pass: the
    bare name [goimports] when [exec.LookPath] finds it, otherwise what
    the lookup under [$GOPATH/bin] returns ([""] when nothing is found). *)
Theorem findGoImports_unix (env : Config.Env) (fuel : nat) :
  Config.GOOS env <> "windows" -> 0 < fuel ->
  findGoImports env fuel =
    Some (if String.eqb (Config.LookPath env "goimports") "" then
            Config.LookPath env (GoPath.ExpandEnv (Config.Getenv env) "$GOPATH/bin/goimports")
          else "goimports").
Proof.
  intros Hw Hf. destruct fuel as [|f]; [lia|]. unfold findGoImports. simpl. unfold find_step.
  destruct (String.eqb (Config.LookPath env "goimports") "") eqn:H1; simpl; [|done].
  destruct (String.eqb (Config.LookPath env
    (GoPath.ExpandEnv (Config.Getenv env) "$GOPATH/bin/goimports")) "") eqn:H2; simpl; [|done].
  apply String.eqb_neq in Hw. rewrite Hw. apply String.eqb_eq in H2. by rewrite H2.
Qed.

Lemma findGoImports_unix_witness :
  Config.GOOS (Config.sample_env [] "") <> "windows" /\ 0 < 1 /\
  findGoImports (Config.sample_env [] "") 1 =
    Some (if String.eqb (Config.LookPath (Config.sample_env [] "") "goimports") "" then
            Config.LookPath (Config.sample_env [] "")
              (GoPath.ExpandEnv (Config.Getenv (Config.sample_env [] "")) "$GOPATH/bin/goimports")
          else "goimports").
Proof.
  assert (H1 : Config.GOOS (Config.sample_env [] "") <> "windows") by discriminate.
  assert (H2 : 0 < 1) by lia.
  split; [exact H1|]. split; [exact H2|]. exact (findGoImports_unix _ _ H1 H2).
Defined.

(** C23: on Windows, when neither lookup finds goimports, the loop never
    returns: the name tried after [n] passes is [goimports] followed by
    [n] times [.exe], and no [return] is reachable. *)
Theorem findGoImports_windows_diverges (env : Config.Env) :
  Config.GOOS env = "windows" -> (forall n, Config.LookPath env n = "") ->
  (forall n, fsteps env (Try "goimports") (Try ("goimports" +:+ exes n))) /\
  (forall r, ~ fsteps env (Try "goimports") (Return r)).
Proof.
  intros Hw Hl. split.
  - intros n. induction n as [|n IH]; [rewrite sapp_nil_r; constructor|].
    rewrite <- exes_snoc, sapp_assoc. eapply (fsteps_snoc env); [exact IH|].
    rewrite <- (find_step_windows env) by done. constructor.
  - intros r Hr. by destruct (fsteps_windows_try env _ _ Hw Hl Hr "goimports" eq_refl).
Qed.

Lemma findGoImports_windows_diverges_witness :
  Config.GOOS windows_env = "windows" /\ (forall n, Config.LookPath windows_env n = "") /\
  (forall n, fsteps windows_env (Try "goimports") (Try ("goimports" +:+ exes n))) /\
  (forall r, ~ fsteps windows_env (Try "goimports") (Return r)).
Proof.
  assert (H1 : Config.GOOS windows_env = "windows") by reflexivity.
  assert (H2 : forall n, Config.LookPath windows_env n = "") by reflexivity.
  split; [exact H1|]. split; [exact H2|]. exact (findGoImports_windows_diverges _ H1 H2).
Defined.

(** C30: on Windows the search terminates when goimports exists under
    an [.exe] name: if the first lookup finds [goimports] followed by
    [n] times [.exe], and neither lookup found a shorter name,
    [findGoImports] returns that name once it may make [n + 1]
    passes. *)
Theorem findGoImports_windows_exe (env : Config.Env) (n fuel : nat) :
  Config.GOOS env = "windows" ->
  (forall m, m < n -> Config.LookPath env ("goimports" +:+ exes m) = "" /\
     Config.LookPath env (GoPath.ExpandEnv (Config.Getenv env) ("$GOPATH/bin/goimports" +:+ exes m)) = "") ->
  Config.LookPath env ("goimports" +:+ exes n) <> "" -> n < fuel ->
  findGoImports env fuel = Some ("goimports" +:+ exes n).
Proof. intros Hw Hm Hf Hn. by apply find_fuel_exes. Qed.

Lemma findGoImports_windows_exe_witness :
  Config.GOOS windows_exe_env = "windows" /\
  (forall m, m < 1 -> Config.LookPath windows_exe_env ("goimports" +:+ exes m) = "" /\
     Config.LookPath windows_exe_env
       (GoPath.ExpandEnv (Config.Getenv windows_exe_env) ("$GOPATH/bin/goimports" +:+ exes m)) = "") /\
  Config.LookPath windows_exe_env ("goimports" +:+ exes 1) <> "" /\ 1 < 2 /\
  findGoImports windows_exe_env 2 = Some ("goimports" +:+ exes 1).
Proof.
  assert (H1 : Config.GOOS windows_exe_env = "windows") by reflexivity.
  assert (H2 : forall m, m < 1 -> Config.LookPath windows_exe_env ("goimports" +:+ exes m) = "" /\
     Config.LookPath windows_exe_env
       (GoPath.ExpandEnv (Config.Getenv windows_exe_env) ("$GOPATH/bin/goimports" +:+ exes m)) = "")
    by (intros [|m] Hm; [split; vm_compute; reflexivity | lia]).
  assert (H3 : Config.LookPath windows_exe_env ("goimports" +:+ exes 1) <> "") by discriminate.
  assert (H4 : 1 < 2) by lia.
  do 4 (split; [assumption|]).
  exact (findGoImports_windows_exe _ _ _ H1 H2 H3 H4).
Defined.

End GoImports.
