(* ===== verification/Main.v ===== *)
(** * Main: the whole of [main] (main.go 137-305)

    [main_body] is the configuration of [Config.setup] followed by the
    scaffolding loop [Driver.run] on the packages it parsed; [main] adds
    [findGoImports] and the goimports hook.  Because [findGoImports] may
    loop forever, [main] takes the number of passes of its loop as fuel
    and returns [None] when they are not enough.

    The theorems compose the components: the loop never panics on the
    configured packages and appends exactly the expected scaffolds to
    the output file; [main] ends with status 0 whenever the loop did,
    whatever goimports does (outside Windows); on Windows without
    goimports it never ends; a configuration or scan error ends [main]
    with status 1 before the loop runs. *)

From Stdlib Require Import String Ascii.
From stdpp Require Import base list strings.
From S2P Require Import Prelude World GoAst Eligibility Signature Template Driver GoParser GoFlag RegexSyntax Regex Config GoImports.

Local Open Scope se_scope.
Import Driver.
#[local] Existing Instances Regex.re_Matcher Regex.re_Compiler.

Module Main.

Definition outcome_unit {A} (o : Outcome A) : Outcome unit :=
  match o with
  | Done _ => Done tt
  | Exited c => Exited c
  | Panicked m => Panicked m
  end.

Section Main.
Context {R : Type} `{Compiler R} `{Matcher R}.

(** main.go 137-288. *)
Definition main_body (env : Config.Env) : IO (@Config.Setup R) :=
  st <- Config.setup env ;;
  Driver.run (Config.filter st) (Config.packages st) ;;;
  ret st.

(** main.go 137-305, with at most [fuel] passes of [findGoImports]. *)
Definition main (fuel : nat) (env : Config.Env) (w : World) : option (Outcome unit * World) :=
  match main_body env w with
  | (Done st, w1) =>
      match GoImports.findGoImports env fuel with
      | Some g => Some (GoImports.hook env (Config.outputName st) g w1)
      | None => None
      end
  | (o, w1) => Some (outcome_unit o, w1)
  end.
End Main.

(** ** A sample run *)

(** The output file [add_test.go] as [os.OpenFile] finds it. *)
Definition add_test_writer : Writer := mkWriter ("package main" +:+ NL) None EmptyString.

(** [testGen -o add_test.go -p /src/add ^Add] on a [goos] machine
    without goimports, in a directory holding [add.go] and
    [add_test.go] (see [GoParser]). *)
Definition demo_env (goos : string) : Config.Env :=
  Config.mkEnv ["-o"; "add_test.go"; "-p"; "/src/add"; "^Add"] (inl "/work") (fun _ => EmptyString)
    (fun _ => inl add_test_writer)
    (fun p => if String.eqb p "/src/add" then inl [Parser.add_go; Parser.add_test_go]
              else inr "open: no such file or directory")
    (fun _ => EmptyString) goos (fun _ c => (c, None)) "testGen".

(** What the configuration of that run produces. *)
Definition demo_setup : @Config.Setup RegexSyntax.re :=
  Config.mkSetup _ (RegexSyntax.concat_list [RegexSyntax.BeginText; RegexSyntax.Lit "A"; RegexSyntax.Lit "d"; RegexSyntax.Lit "d"])
    "add_test.go" (Parser.ParseDir [Parser.add_go; Parser.add_test_go] Parser.filesToIgnore).

(** The directory of [add.go] after an edit that broke its syntax. *)
Definition broken_add_go : Parser.SrcFile :=
  Parser.mkSrcFile "add.go" "main" []
    (Some "/src/add/add.go:3:1: expected declaration, found fucn").

(** The sample run of [demo_env] on that directory. *)
Definition broken_env : Config.Env :=
  Config.mkEnv ["-o"; "add_test.go"; "-p"; "/src/add"; "^Add"] (inl "/work") (fun _ => EmptyString)
    (fun _ => inl add_test_writer)
    (fun p => if String.eqb p "/src/add" then inl [broken_add_go; Parser.add_test_go]
              else inr "open: no such file or directory")
    (fun _ => EmptyString) "linux" (fun _ c => (c, None)) "testGen".

(** ** Lemmas *)

(** The configuration hands the loop packages produced by [ParseDir]. *)
Lemma setup_packages_parsed {R} `{Compiler R} (env : Config.Env) (w : World) (st : @Config.Setup R) :
  fst (Config.setup env w) = Done st ->
  exists dir, Config.packages st = Parser.ParseDir dir Parser.filesToIgnore.
Proof.
  unfold Config.setup, se_bind.
  destruct (Config.parse_flags env w) as [[[vs rest]| |] w1]; [|done|done]. cbn iota beta.
  destruct (Config.open_output env (Config.output vs) w1) as [[[]| |] w2]; [|done|done].
  destruct (Config.resolve_package env (Config.packagePath vs) w2) as [[pp| |] w3]; [|done|done].
  destruct (Config.compile_filter (Config.default_input (GoFlag.Arg0 rest)) w3)
    as [[re| |] w4]; [|done|done].
  unfold Config.parse_dir. destruct (Config.ReadDir env pp) as [dir|e]; [|by intros [=]].
  destruct (Parser.ParseDirErr _ _); [by intros [=]|]. simpl. intros [= <-]. by exists dir.
Qed.

(** ** Theorems *)

(** C24: whatever the configuration produced, the loop of [main] never
    panics on it, and with an output file on an unbounded device it
    appends exactly [expected]: one scaffold per eligible function of
    the parsed packages, after the file's previous contents. *)
Theorem main_body_appends {R} `{Compiler R} `{Matcher R}
    (env : Config.Env) (w : World) (st : @Config.Setup R) :
  fst (Config.setup env w) = Done st ->
  dest (snd (Config.setup env w)) = DestFile -> room (outfile (snd (Config.setup env w))) = None ->
  fst (main_body env w) = Done st /\
  contents (outfile (snd (main_body env w))) =
    contents (outfile (snd (Config.setup env w))) +:+
    expected (Config.filter st) (Config.packages st).
Proof.
  intros Hs Hd Hr. destruct (setup_packages_parsed env w st Hs) as [dir Hdir].
  assert (Hwf : wf_run (Config.filter st) (Config.packages st))
    by (rewrite Hdir; apply Parser.ParseDir_wf).
  destruct (Config.setup env w) as [o w1] eqn:Es. simpl in Hs, Hd, Hr. subst o.
  destruct (run_acts _ _ Hwf w1 Hd) as (H1 & H2 & _).
  assert (Hf : fits (expected (Config.filter st) (Config.packages st)) (outfile w1) = true)
    by (unfold fits; by rewrite Hr).
  rewrite Hf in H1. unfold main_body, se_bind. rewrite Es.
  destruct (run _ _ w1) as [o2 w2]. simpl in H1, H2. subst o2.
  split; [done|]. simpl. rewrite H2. by apply Write_ok.
Qed.

Lemma main_body_appends_witness :
  fst (Config.setup (demo_env "linux") Config.world0) = Done demo_setup /\
  dest (snd (Config.setup (R:=RegexSyntax.re) (demo_env "linux") Config.world0)) = DestFile /\
  room (outfile (snd (Config.setup (R:=RegexSyntax.re) (demo_env "linux") Config.world0))) = None /\
  (fst (main_body (demo_env "linux") Config.world0) = Done demo_setup /\
   contents (outfile (snd (main_body (R:=RegexSyntax.re) (demo_env "linux") Config.world0))) =
     contents (outfile (snd (Config.setup (R:=RegexSyntax.re) (demo_env "linux") Config.world0))) +:+
     expected (Config.filter demo_setup) (Config.packages demo_setup)).
Proof.
  assert (H1 : fst (Config.setup (demo_env "linux") Config.world0) = Done demo_setup)
    by (vm_compute; reflexivity).
  assert (H2 : dest (snd (Config.setup (R:=RegexSyntax.re) (demo_env "linux") Config.world0)) = DestFile)
    by (vm_compute; reflexivity).
  assert (H3 : room (outfile (snd (Config.setup (R:=RegexSyntax.re) (demo_env "linux") Config.world0))) = None)
    by (vm_compute; reflexivity).
  split; [exact H1|]. split; [exact H2|]. split; [exact H3|].
  exact (main_body_appends _ _ _ H1 H2 H3).
Defined.

(** C25: outside Windows, [main] ends with status 0 whenever its loop
    did: the search for goimports returns after one pass, and neither a
    missing goimports nor a failing one makes the process exit (spec
    section 6). *)
Theorem main_exit_zero {R} `{Compiler R} `{Matcher R}
    (env : Config.Env) (w : World) (fuel : nat) (st : @Config.Setup R) :
  Config.GOOS env <> "windows" -> 0 < fuel -> fst (main_body env w) = Done st ->
  exists w', main fuel env w = Some (Done tt, w').
Proof.
  intros Hw Hf Hm. destruct fuel as [|f]; [lia|]. unfold main.
  destruct (main_body env w) as [o w1]. simpl in Hm. subst o.
  unfold GoImports.findGoImports. cbn [GoImports.find_fuel].
  destruct (GoImports.find_step_unix env "goimports" Hw) as [g ->].
  exists (snd (GoImports.hook env (Config.outputName st) g w1)).
  rewrite <- (GoImports.hook_done env (Config.outputName st) g w1). by destruct (GoImports.hook _ _ _ _).
Qed.

Lemma main_exit_zero_witness :
  Config.GOOS (demo_env "linux") <> "windows" /\ 0 < 1 /\
  fst (main_body (demo_env "linux") Config.world0) = Done demo_setup /\
  exists w', main (R:=RegexSyntax.re) 1 (demo_env "linux") Config.world0 = Some (Done tt, w').
Proof.
  assert (H1 : Config.GOOS (demo_env "linux") <> "windows") by discriminate.
  assert (H2 : 0 < 1) by lia.
  assert (H3 : fst (main_body (demo_env "linux") Config.world0) = Done demo_setup)
    by (vm_compute; reflexivity).
  split; [exact H1|]. split; [exact H2|]. split; [exact H3|].
  exact (main_exit_zero _ _ _ _ H1 H2 H3).
Defined.

(** C26: on Windows without goimports, once the loop has written every
    scaffold [main] never terminates, for any number of passes of the
    [goto tryAgain] loop. *)
Theorem main_windows_hangs {R} `{Compiler R} `{Matcher R}
    (env : Config.Env) (w : World) (st : @Config.Setup R) :
  Config.GOOS env = "windows" -> (forall n, Config.LookPath env n = "") ->
  fst (main_body env w) = Done st ->
  forall fuel, main fuel env w = None.
Proof.
  intros Hw Hl Hm fuel. unfold main.
  destruct (main_body env w) as [o w1]. simpl in Hm. subst o.
  unfold GoImports.findGoImports. by rewrite GoImports.find_fuel_windows.
Qed.

Lemma main_windows_hangs_witness :
  Config.GOOS (demo_env "windows") = "windows" /\
  (forall n, Config.LookPath (demo_env "windows") n = "") /\
  fst (main_body (demo_env "windows") Config.world0) = Done demo_setup /\
  forall fuel, main (R:=RegexSyntax.re) fuel (demo_env "windows") Config.world0 = None.
Proof.
  assert (H1 : Config.GOOS (demo_env "windows") = "windows") by reflexivity.
  assert (H2 : forall n, Config.LookPath (demo_env "windows") n = "") by reflexivity.
  assert (H3 : fst (main_body (demo_env "windows") Config.world0) = Done demo_setup)
    by (vm_compute; reflexivity).
  split; [exact H1|]. split; [exact H2|]. split; [exact H3|].
  exact (main_windows_hangs _ _ _ H1 H2 H3).
Defined.

(** C29: a configuration or scan error (a bad flag, an output file that
    cannot be opened, a missing working directory or [$GOPATH], a bad
    regular expression, a directory that cannot be read or a [.go] file
    that does not parse) ends [main] with status 1 before the loop runs:
    no scaffold is written, and the output file holds exactly what it
    held or what [os.OpenFile] found (spec section 7). *)
Theorem config_error_aborts {R} `{Compiler R} `{Matcher R} (env : Config.Env) (w : World) (fuel : nat) :
  (forall st, fst (Config.setup (R:=R) env w) <> Done st) ->
  main (R:=R) fuel env w = Some (Exited 1, snd (Config.setup (R:=R) env w)) /\
  (outfile (snd (Config.setup (R:=R) env w)) = outfile w \/
   exists n f, Config.OpenFile env n = inl f /\ outfile (snd (Config.setup (R:=R) env w)) = f).
Proof.
  intros Hs. destruct (Config.setup_cfg (R:=R) env w) as [Hc Ho]. split; [|done].
  unfold main, main_body, se_bind. destruct (Config.setup env w) as [[st|c|e] w1]; simpl in *.
  - by destruct (Hs st).
  - by subst.
  - done.
Qed.

Lemma config_error_aborts_witness :
  (forall st, fst (Config.setup (R:=RegexSyntax.re) broken_env Config.world0) <> Done st) /\
  (main (R:=RegexSyntax.re) 1 broken_env Config.world0 =
     Some (Exited 1, snd (Config.setup (R:=RegexSyntax.re) broken_env Config.world0)) /\
   (outfile (snd (Config.setup (R:=RegexSyntax.re) broken_env Config.world0)) = outfile Config.world0 \/
    exists n f, Config.OpenFile broken_env n = inl f /\
                outfile (snd (Config.setup (R:=RegexSyntax.re) broken_env Config.world0)) = f)).
Proof.
  assert (Hs : forall st, fst (Config.setup (R:=RegexSyntax.re) broken_env Config.world0) <> Done st)
    by (intros st; vm_compute; discriminate).
  split; [exact Hs | exact (config_error_aborts _ _ 1 Hs)].
Defined.

(** A broken [add.go] stops the sample run with the parser's message. *)
Example broken_run :
  main (R:=RegexSyntax.re) 1 broken_env Config.world0 =
    Some (Exited 1,
          mkWorld (mkWriter ("error parsing package: /src/add/add.go:3:1: expected declaration, found fucn"
                             +:+ NL) None EmptyString)
                  add_test_writer DestFile Config.empty_writer).
Proof. vm_compute. reflexivity. Qed.

End Main.
